(** * ai-prompt-enhancer: a shallow embedding of the editing-session core

    The development follows the Python sources module by module:

    - [Config]         config_manager.py  (the configuration store)
    - [PromptManager]  prompt_manager.py  (the preset repository)
    - [ApiClient]      api_client.py      (the two network operations)
    - [Worker]         main_window.py, class ApiWorker
    - [MainWindow]     main_window.py, class MainWindow (Prompt Editor
                       session, preset list, navigation)
    - [Utils]          utils.py           (cleaning of a response)
    - [SystemPrompts]  main_window.py, Save, Save As and Set Active
    - [Generator]      main_window.py, the Generator and Settings pages

    Python dictionaries are finite maps ([gmap]), the file system is a
    finite map from paths to text, widgets are records holding the part
    of their Qt state that the code reads back, and the answers of the
    user (confirmation boxes, file dialogs) are an explicit argument. *)

From Stdlib Require Import Ascii String.
From stdpp Require Import gmap strings list sorting pretty.

Local Open Scope string_scope.
Local Open Scope list_scope.

Set Warnings "-register-all".

(** ** Results of Python calls that may raise *)

Inductive exn := TypeError | ValueError.

Inductive outcome (A : Type) :=
  | Returns (a : A)
  | Raises (e : exn).
Arguments Returns {A} a.
Arguments Raises {A} e.

(** ** Python string methods used by the sources

    Text is modelled by [string]; the character classes below are the
    ASCII ones. *)

(** [c.isspace()] on ASCII: tab to carriage return, the four separators
    0x1c-0x1f, and the space. *)
Definition py_isspace (c : ascii) : bool :=
  let n := nat_of_ascii c in
  ((9 <=? n)%nat && (n <=? 13)%nat) || ((28 <=? n)%nat && (n <=? 32)%nat).

Fixpoint lstrip_with (drop : ascii → bool) (s : string) : string :=
  match s with
  | String c s' => if drop c then lstrip_with drop s' else s
  | EmptyString => EmptyString
  end.

Definition strip_with (drop : ascii → bool) (s : string) : string :=
  String.rev (lstrip_with drop (String.rev (lstrip_with drop s))).

(** [s.strip()] *)
Definition py_strip (s : string) : string := strip_with py_isspace s.

(** [sub in s] *)
Definition py_in (sub s : string) : bool :=
  match String.index 0 sub s with Some _ => true | None => false end.

Definition ascii_lower (c : ascii) : ascii :=
  let n := nat_of_ascii c in
  if (65 <=? n)%nat && (n <=? 90)%nat then ascii_of_nat (n + 32) else c.

(** [s.lower()] *)
Fixpoint py_lower (s : string) : string :=
  match s with
  | String c s' => String (ascii_lower c) (py_lower s')
  | EmptyString => EmptyString
  end.

(** What [open(path, 'r').read()] makes of the line ends of a file:
    a carriage return, alone or followed by a line feed, is read as one
    line feed. *)
Definition CR : ascii := ascii_of_nat 13.
Definition NL : ascii := ascii_of_nat 10.

Fixpoint universal_newlines (s : string) : string :=
  match s with
  | EmptyString => EmptyString
  | String c s' =>
      if Ascii.eqb c CR then
        match s' with
        | String c' s'' =>
            if Ascii.eqb c' NL then String NL (universal_newlines s'')
            else String NL (universal_newlines s')
        | EmptyString => String NL EmptyString
        end
      else String c (universal_newlines s')
  end.

(** Truth value of a string, [bool(s)]. *)
Definition truthy (s : string) : bool :=
  match s with EmptyString => false | _ => true end.

(** Truth value of a value that is a string or [None]. *)
Definition truthy_opt (o : option string) : bool :=
  match o with Some s => truthy s | None => false end.

(** * config_manager.py *)

Module Config.

(** A JSON value as [json.load] builds it.  Only the top level is ever
    inspected by the code, so nested containers keep their shape. *)
Inductive json :=
  | JNull
  | JBool (b : bool)
  | JNum (n : Z)
  | JStr (s : string)
  | JArr (l : list json)
  | JObj (l : list (string * json)).

(** The dictionary type of [DEFAULT_CONFIG], [config] and [final_config]. *)
Abbreviation dict := (gmap string json).

(** What [json.load] returns for a well-formed file.  A top-level JSON
    array is left out of the model: [dict.update] would read it as a
    sequence of pairs whose keys need not be strings. *)
Inductive toplevel :=
  | TObject (d : dict)
  | TString (s : string)
  | TNumber (n : Z)
  | TBool (b : bool)
  | TNull.

(** The text of config.json, up to what [json.load] makes of it. *)
Inductive content :=
  | Corrupt                 (* json.load raises JSONDecodeError *)
  | Undecodable             (* reading raises UnicodeDecodeError *)
  | Json (t : toplevel).

(** The part of the file system that config_manager.py touches. *)
Record store := Store {
  file : option content;    (* None: os.path.exists(CONFIG_FILE) is false *)
  readable : bool;          (* false: open(CONFIG_FILE, 'r') raises IOError *)
  writable : bool;          (* false: writing raises IOError / OSError *)
  backups : list content;   (* files made by shutil.copy2, oldest first; the
                               name of a backup holds the time to the second,
                               and loads are taken to be further apart *)
  copyable : bool           (* false: shutil.copy2 to a backup file raises *)
}.

Definition DEFAULT_ITEMS : list (string * json) :=
  [ ("api_endpoint", JStr "http://localhost:11434");
    ("active_system_prompt", JStr "default.txt");
    ("api_type", JStr "Ollama");
    ("api_key", JStr "") ].

Definition DEFAULT_CONFIG : dict := list_to_map DEFAULT_ITEMS.

(** [save_config]: an IOError is printed and swallowed. *)
Definition save_config (config_data : dict) (s : store) : store :=
  if writable s
  then Store (Some (Json (TObject config_data))) (readable s) (writable s) (backups s)
             (copyable s)
  else s.

(** The backup made when the file does not decode: [shutil.copy2]
    reads config.json and creates a new file next to it, so it does not
    depend on config.json being writable; its failure is printed and
    swallowed. *)
Definition backup (c : content) (s : store) : store :=
  if copyable s
  then Store (file s) (readable s) (writable s) (backups s ++ [c]) (copyable s)
  else s.

(** [final_config.update(config)] for the values [json.load] can give. *)
Definition update (final_config : dict) (config : toplevel) : outcome dict :=
  match config with
  | TObject d => Returns (d ∪ final_config)
  | TString "" => Returns final_config
  | TString _ => Raises ValueError   (* a 1-character element is no pair *)
  | TNumber _ | TBool _ | TNull => Raises TypeError   (* not iterable *)
  end.

(** The loop over [DEFAULT_CONFIG.items()] that adds missing keys. *)
Definition add_missing (final_config : dict) : dict * bool :=
  foldl (λ (acc : dict * bool) (kv : string * json),
           match acc.1 !! kv.1 with
           | Some _ => acc
           | None => (<[kv.1 := kv.2]> acc.1, true)
           end)
        (final_config, false) DEFAULT_ITEMS.

Definition load_config (s : store) : store * outcome dict :=
  match file s with
  | None => (save_config DEFAULT_CONFIG s, Returns DEFAULT_CONFIG)
  | Some c =>
      if negb (readable s) then (s, Returns DEFAULT_CONFIG)   (* except IOError *)
      else
        match c with
        | Corrupt =>
            (save_config DEFAULT_CONFIG (backup c s), Returns DEFAULT_CONFIG)
        | Undecodable => (s, Raises ValueError)    (* caught by no clause *)
        | Json config =>
            match update DEFAULT_CONFIG config with
            | Raises e => (s, Raises e)
            | Returns final_config =>
                let '(final_config, needs_save) := add_missing final_config in
                ((if needs_save then save_config final_config s else s),
                 Returns final_config)
            end
        end
  end.




End Config.

(** * The world outside the program *)

(** What the user is shown, and the deletions handed to the operating
    system, in order of occurrence.  Message boxes are recorded by
    their title. *)
Inductive event :=
  | Critical (title : string)       (* QMessageBox.critical, messagebox.showerror *)
  | Warning (title : string)        (* QMessageBox.warning, messagebox.showwarning *)
  | Information (title : string)    (* QMessageBox.information *)
  | OsRemove (path : string).       (* a call of os.remove *)

(** The answers of the user during one operation.  A file dialog that
    is cancelled returns the empty string, as in Qt. *)
Record user := User {
  confirm : string → bool;      (* Yes/No box, by title: True for Yes *)
  getSaveFileName : string;
  getOpenFileName : string
}.

(** Text files addressed by path. *)
Record filesystem := Filesystem {
  files : gmap string string;
  denied_read : gset string;     (* open(path, 'r') raises *)
  denied_write : gset string     (* open(path, 'w') and open(path, 'a') raise *)
}.

(** [os.path.exists(path)]; the empty path names no file. *)
Definition path_exists (fs : filesystem) (path : string) : bool :=
  truthy path && bool_decide (is_Some (files fs !! path)).

(** [open(path, 'r').read()]; [None] when it raises. *)
Definition read_file (fs : filesystem) (path : string) : option string :=
  if negb (path_exists fs path) || bool_decide (path ∈ denied_read fs) then None
  else files fs !! path.

(** [open(path, 'w').write(text)]; [None] when opening raises. *)
Definition write_file (fs : filesystem) (path text : string) : option filesystem :=
  if negb (truthy path) || bool_decide (path ∈ denied_write fs) then None
  else Some (Filesystem (<[path := text]> (files fs)) (denied_read fs) (denied_write fs)).

(** [open(path, 'a').write(text)] *)
Definition append_file (fs : filesystem) (path text : string) : option filesystem :=
  write_file fs path (default "" (files fs !! path) +:+ text).

(** [os.path.basename(path)], POSIX. *)
Fixpoint basename (path : string) : string :=
  match path with
  | EmptyString => EmptyString
  | String c rest =>
      if py_in "/" rest then basename rest
      else if Ascii.eqb c "/" then rest else path
  end.

(** * prompt_manager.py *)

Module PromptManager.

Definition DEFAULT_PROMPT_NAME : string := "default.txt".

(** The directory system_prompts. *)
Record directory := Directory {
  entries : option (list (string * string));
    (* None: the directory does not exist; otherwise the files with
       their text, in the order of os.listdir *)
  listing_denied : bool;          (* os.listdir raises OSError *)
  read_denied : gset string;      (* reading the file raises IOError *)
  write_denied : gset string;     (* writing the file raises IOError *)
  remove_denied : gset string;    (* os.remove raises OSError *)
  undecodable : gset string       (* the bytes of the file are not UTF-8:
                                     reading raises UnicodeDecodeError *)
}.

Fixpoint assoc (filename : string) (l : list (string * string)) : option string :=
  match l with
  | [] => None
  | e :: l' => if String.eqb e.1 filename then Some e.2 else assoc filename l'
  end.

(** The text of the file [filename] of the directory, if it exists. *)
Definition lookup_entry (d : directory) (filename : string) : option string :=
  match entries d with
  | Some l => assoc filename l
  | None => None
  end.

Definition endswith (s suffix : string) : bool :=
  String.prefix (String.rev suffix) (String.rev s).

(** [l.remove(x)]: drop the first occurrence. *)
Fixpoint list_remove (x : string) (l : list string) : list string :=
  match l with
  | [] => []
  | y :: l' => if String.eqb y x then l' else y :: list_remove x l'
  end.

(** [get_prompt_presets] *)
Definition get_prompt_presets (d : directory) : list string :=
  match entries d with
  | None => []
  | Some l =>
      if listing_denied d then []
      else
        let files := List.filter (λ f, endswith f ".txt") (l.*1) in
        if bool_decide (DEFAULT_PROMPT_NAME ∈ files)
        then DEFAULT_PROMPT_NAME :: list_remove DEFAULT_PROMPT_NAME files
        else files
  end.

(** [load_prompt_text] leaves by an exception when the file does not
    decode: UnicodeDecodeError is no IOError, so the [except] clause
    does not catch it and it reaches the caller. *)
Definition load_raises (d : directory) (filename : string) : bool :=
  truthy filename
  && bool_decide (is_Some (lookup_entry d filename))
  && negb (bool_decide (filename ∈ read_denied d))
  && bool_decide (filename ∈ undecodable d).

(** [load_prompt_text], when it returns ([load_raises] tells when it
    does not): the text and the error boxes shown.  The file is read in
    text mode. *)
Definition load_prompt_text (d : directory) (filename : string) : string * list event :=
  if negb (truthy filename) then ("", [])
  else
    match lookup_entry d filename with
    | None => ("", [Critical "Error"])
    | Some text =>
        if bool_decide (filename ∈ read_denied d) then ("", [Critical "Error"])
        else (universal_newlines text, [])
    end.

Definition set_entries (l : list (string * string)) (d : directory) : directory :=
  Directory (Some l) (listing_denied d) (read_denied d) (write_denied d)
            (remove_denied d) (undecodable d).

(** The file has just been written as UTF-8. *)
Definition set_decodable (filename : string) (d : directory) : directory :=
  Directory (entries d) (listing_denied d) (read_denied d) (write_denied d)
            (remove_denied d) (undecodable d ∖ {[filename]}).

(** Overwrite a file in place, or add it at the end of the listing. *)
Fixpoint put_entry (filename text : string) (l : list (string * string)) :
    list (string * string) :=
  match l with
  | [] => [(filename, text)]
  | e :: l' =>
      if String.eqb e.1 filename then (filename, text) :: l'
      else e :: put_entry filename text l'
  end.

(** [save_prompt_text] *)
Definition save_prompt_text (d : directory) (filename text : string) :
    bool * directory * list event :=
  let filename := if endswith filename ".txt" then filename else filename +:+ ".txt" in
  match entries d with
  | Some l =>
      if bool_decide (filename ∈ write_denied d) then (false, d, [Critical "Error"])
      else (true, set_decodable filename (set_entries (put_entry filename text l) d), [])
  | None => (false, d, [Critical "Error"])
  end.

(** [delete_prompt_preset] *)
Definition delete_prompt_preset (u : user) (d : directory) (filename : string) :
    bool * directory * list event :=
  if negb (truthy filename) || String.eqb filename DEFAULT_PROMPT_NAME
  then (false, d, [Warning "Delete Prevented"])
  else
    match entries d, lookup_entry d filename with
    | Some l, Some _ =>
        if confirm u "Confirm Delete" then
          if bool_decide (filename ∈ remove_denied d)
          then (false, d, [OsRemove filename; Critical "Error"])
          else (true,
                set_entries (List.filter (λ e, negb (String.eqb e.1 filename)) l) d,
                [OsRemove filename])
        else (false, d, [])
    | _, _ => (false, d, [Critical "Error"])
    end.

End PromptManager.

(** * api_client.py *)

Module ApiClient.

(** The class of the exception that the [try] block raises, as far as
    the [except] clauses tell them apart.  [HTTPError] and [Timeout] are
    subclasses of [RequestException]. *)
Inductive exn_class :=
  | Timeout
  | HTTPError
  | RequestException      (* any other requests exception *)
  | JSONDecodeError
  | OtherException.

(** What the [try] block comes to: the exception it raises (from the
    HTTP call, from [raise_for_status], from [response.json()] or from
    reading a field of the wrong type), or the decoded body.  The
    request itself (headers, payload) is not modelled: the server's
    answer is an input of the model. *)
Inductive exchange (P : Type) :=
  | Fails (e : exn_class)
  | Body (p : P).
Arguments Fails {P} e.
Arguments Body {P} p.

(** The entries of the model list in the body, each with the value of
    its name field ("name" for Ollama, "id" for OpenAI) if it has one. *)
Abbreviation models_body := (list (option string)).

(** The fields of a generation body that the code reads, for bodies in
    which they are text.  A value of another type makes the code raise
    inside the [try] block (then the exchange is [Fails]), with one
    exception that is not modelled: a list or an object under
    "response" is returned by [generate_text] as it is. *)
Record generation_body := GenerationBody {
  response_field : option string;            (* Ollama: "response" *)
  first_choice_content : option (option string)
    (* OpenAI: None if "choices" is missing or empty, else the
       "content" of choices[0]["message"] if present *)
}.

(** The message handed to [show_api_error]. *)
Inductive fetch_error :=
  | FetchNoEndpoint
  | FetchUnsupportedType (api_type : string)
  | FetchTimedOut (url : string)
  | FetchCouldNotConnect (url : string)
  | FetchInvalidJson (url : string)
  | FetchUnexpected.

(** [fetch_installed_models]: the list it returns and the error dialog
    it raises on the way, if any.  [api_key] only goes into the request
    headers.  The correction of an OpenAI url that does not end in
    /v1/models never applies, the url having just been built with that
    ending; the same holds in [generate_text]. *)
Definition fetch_installed_models (api_endpoint api_type api_key : string)
    (net : exchange models_body) : list string * option fetch_error :=
  if negb (truthy api_endpoint) then ([], Some FetchNoEndpoint)
  else
    let handle (url : string) :=
      match net with
      | Body entries => (merge_sort String.le (omap id entries), None)
      | Fails Timeout => ([], Some (FetchTimedOut url))
      | Fails HTTPError | Fails RequestException => ([], Some (FetchCouldNotConnect url))
      | Fails JSONDecodeError => ([], Some (FetchInvalidJson url))
      | Fails OtherException => ([], Some FetchUnexpected)
      end in
    if String.eqb api_type "Ollama" then handle (api_endpoint +:+ "/api/tags")
    else if String.eqb api_type "OpenAI" then handle (api_endpoint +:+ "/v1/models")
    else ([], Some (FetchUnsupportedType api_type)).

(** The value under "error" in the dictionary [generate_text] returns. *)
Inductive generation_error :=
  | GenNoEndpoint
  | GenNoModel
  | GenMissingPlaceholder
  | GenFormatError
  | GenTimedOut (url : string)
  | GenHttpError
  | GenRequestFailed (url : string)
  | GenInvalidJson (url : string)
  | GenUnexpected
  | GenNoChoices
  | GenUnsupportedType (api_type : string).

(** The dictionary returned by [generate_text]: either
    [{"response": text}] or [{"error": message}]. *)
Inductive generation_result :=
  | Response (text : string)
  | Error (e : generation_error).

(** What [prompt_template.format(example_text=..., user_prompt=...)]
    comes to. *)
Inductive format_result :=
  | Formatted (final_prompt : string)
  | FormatKeyError
  | FormatOtherError.

Section Generate.

(** [str.format] of the Python library. *)
Variable str_format : string → string → string → format_result.

Definition generate_text
    (api_endpoint api_type selected_model : string)
    (system_prompt_content user_input example_text api_key : string)
    (net : exchange generation_body) : generation_result :=
  if negb (truthy api_endpoint) then Error GenNoEndpoint
  else if negb (truthy selected_model) then Error GenNoModel
  else
    let handle (url : string) (extract : generation_body → generation_result) :=
      match net with
      | Body b => extract b
      | Fails Timeout => Error (GenTimedOut url)
      | Fails HTTPError => Error GenHttpError
      | Fails RequestException => Error (GenRequestFailed url)
      | Fails JSONDecodeError => Error (GenInvalidJson url)
      | Fails OtherException => Error GenUnexpected
      end in
    if String.eqb api_type "Ollama" then
      match str_format system_prompt_content example_text user_input with
      | FormatKeyError => Error GenMissingPlaceholder
      | FormatOtherError => Error GenFormatError
      | Formatted _ =>
          handle (api_endpoint +:+ "/api/generate")
                 (λ b, Response (default "" (response_field b)))
      end
    else if String.eqb api_type "OpenAI" then
      handle (api_endpoint +:+ "/v1/chat/completions")
             (λ b, match first_choice_content b with
                   | None => Error GenNoChoices
                   | Some content => Response (py_strip (default "" content))
                   end)
    else Error (GenUnsupportedType api_type).

End Generate.

End ApiClient.

(** * main_window.py: class ApiWorker *)

Module Worker.
Import ApiClient.

(** The value that [self.fn], applied to its arguments, returns. *)
Inductive value :=
  | Models (models : list string)
  | Generation (result : generation_result)
  | OtherValue.

Inductive call_result :=
  | Returned (result : value)
  | RaisedException (msg : string)   (* an Exception e, with str(e) *)
  | RaisedBaseException.             (* not caught by [except Exception] *)

(** A worker: the function it was given and the arguments (for the two
    API functions, together with the server's answer). *)
Inductive task :=
  | FetchModels (api_endpoint api_type api_key : string)
                (net : exchange models_body)
  | Generate (api_endpoint api_type selected_model : string)
             (system_prompt_content user_input example_text api_key : string)
             (net : exchange generation_body)
  | Other (r : call_result).

(** The signals of [WorkerSignals]. *)
Inductive signal :=
  | models_fetched (v : value)
  | generation_complete (v : value)
  | error (msg : string)
  | finished.

Definition is_success (s : signal) : bool :=
  match s with models_fetched _ | generation_complete _ => true | _ => false end.
Definition is_error (s : signal) : bool :=
  match s with error _ => true | _ => false end.
Definition is_finished (s : signal) : bool :=
  match s with finished => true | _ => false end.

(** How many signals of a kind a run emitted. *)
Definition count (kind : signal → bool) (emitted : list signal) : nat :=
  length (List.filter kind emitted).

(** The failures of the specification's taxonomy. *)
Inductive failure :=
  | NetworkFailure
  | TimeoutFailure
  | MalformedPayload
  | MissingEndpoint
  | MissingModel
  | UnsupportedApiType.

Definition supported (api_type : string) : Prop :=
  api_type = "Ollama" ∨ api_type = "OpenAI".

(** The failure is one of a network exchange that was attempted. *)
Definition exchange_fails {P} (net : exchange P) (f : failure) : Prop :=
  match f with
  | NetworkFailure => net = Fails RequestException ∨ net = Fails HTTPError
  | TimeoutFailure => net = Fails Timeout
  | MalformedPayload => net = Fails JSONDecodeError ∨ net = Fails OtherException
  | _ => False
  end.

(** Task [t] runs into failure [f]. *)
Definition suffers (t : task) (f : failure) : Prop :=
  match t with
  | FetchModels api_endpoint api_type _ net =>
      match f with
      | MissingEndpoint => api_endpoint = ""
      | MissingModel => False
      | UnsupportedApiType => api_endpoint ≠ "" ∧ ¬ supported api_type
      | _ => api_endpoint ≠ "" ∧ supported api_type ∧ exchange_fails net f
      end
  | Generate api_endpoint api_type selected_model _ _ _ _ net =>
      match f with
      | MissingEndpoint => api_endpoint = ""
      | MissingModel => api_endpoint ≠ "" ∧ selected_model = ""
      | UnsupportedApiType =>
          api_endpoint ≠ "" ∧ selected_model ≠ "" ∧ ¬ supported api_type
      | _ => api_endpoint ≠ "" ∧ selected_model ≠ "" ∧ supported api_type
             ∧ exchange_fails net f
      end
  | Other _ => False
  end.

Section Run.

Variable str_format : string → string → string → format_result.

(** [self.fn] applied to its arguments. *)
Definition call (t : task) : call_result :=
  match t with
  | FetchModels api_endpoint api_type api_key net =>
      Returned (Models (fetch_installed_models api_endpoint api_type api_key net).1)
  | Generate api_endpoint api_type selected_model
             system_prompt_content user_input example_text api_key net =>
      Returned (Generation
        (generate_text str_format api_endpoint api_type selected_model
                       system_prompt_content user_input example_text api_key net))
  | Other r => r
  end.

(** [ApiWorker.run]: the signals emitted, in order.  The [finally]
    clause emits [finished] on every path. *)
Definition run (t : task) : list signal :=
  match call t with
  | Returned result =>
      match t with
      | FetchModels _ _ _ _ => [models_fetched result]
      | Generate _ _ _ _ _ _ _ _ => [generation_complete result]
      | Other _ => []
      end
  | RaisedException msg => [error msg]
  | RaisedBaseException => []
  end ++ [finished].

End Run.

End Worker.

(** * main_window.py: class MainWindow *)

Module MainWindow.

Definition GENERATOR_VIEW_INDEX : Z := 0.
Definition PROMPT_EDITOR_VIEW_INDEX : Z := 1.
Definition SYSTEM_PROMPTS_VIEW_INDEX : Z := 2.
Definition SETTINGS_VIEW_INDEX : Z := 3.

(** A QTextEdit: its text and the two flags the slots read back. *)
Record text_edit := TextEdit {
  toPlainText : string;
  isEnabled : bool;
  isReadOnly : bool
}.

Definition setText (s : string) (e : text_edit) : text_edit :=
  TextEdit s (isEnabled e) (isReadOnly e).
Definition setEnabled (b : bool) (e : text_edit) : text_edit :=
  TextEdit (toPlainText e) b (isReadOnly e).
Definition setReadOnly (b : bool) (e : text_edit) : text_edit :=
  TextEdit (toPlainText e) (isEnabled e) b.

(** A QLabel: its text and style sheet. *)
Record label := Label {
  text : string;
  styleSheet : string
}.

(** A QListWidget: its items and the current row, -1 for none. *)
Record list_widget := ListWidget {
  items : list string;
  currentRow : Z
}.

(** [currentItem().text()], or [None]. *)
Definition currentItem (l : list_widget) : option string :=
  if (0 <=? currentRow l)%Z then items l !! Z.to_nat (currentRow l) else None.

(** The row of the first item with the given text,
    [findItems(text, MatchExactly)[0]]. *)
Fixpoint findItem (text : string) (l : list string) : option Z :=
  match l with
  | [] => None
  | x :: l' => if String.eqb x text then Some 0%Z else Z.succ <$> findItem text l'
  end.

(** The attributes of the window and the world it acts on. *)
Record window := Window {
  nav_list : Z;   (* nav_list.currentRow() *)
  stacked_widget : Z;   (* stacked_widget.currentIndex() *)
  api_endpoint : string;
  api_type : string;
  api_key : string;
  config : Config.dict;
  active_system_prompt_file : string;
  current_system_prompt_content : string;
  save_target_file : option string;   (* file that generated prompts are appended to *)
  system_prompt_editor_dirty : bool;
  prompt_editor_dirty : bool;
  current_prompt_editor_file : option string;   (* file loaded in the Prompt Editor page *)
  response_display : string;   (* text of the generated prompt box *)
  save_gen_button : bool;   (* enabled? *)
  pe_editor : text_edit;
  pe_filename_label : label;
  pe_save_button : bool;   (* enabled? *)
  pe_close_button : bool;   (* enabled? *)
  system_prompt_editor : text_edit;
  save_button : bool;   (* enabled? *)
  prompt_list_widget : list_widget;
  active_prompt_display_label : string;
  status_bar : string;   (* last message shown *)
  disk : filesystem;   (* the saved-prompt files *)
  preset_dir : PromptManager.directory;
  config_store : Config.store;
  log : list event   (* message boxes shown and os.remove calls so far *)
}.

(** Assignment to one attribute. *)
Definition set_nav_list (v : Z) (w : window) : window :=
  let '(Window _ x1 x2 x3 x4 x5 x6 x7 x8 x9 x10 x11 x12 x13 x14 x15 x16 x17
        x18 x19 x20 x21 x22 x23 x24 x25 x26) := w in
  Window v x1 x2 x3 x4 x5 x6 x7 x8 x9 x10 x11 x12 x13 x14 x15 x16 x17 x18
    x19 x20 x21 x22 x23 x24 x25 x26.
Definition set_stacked_widget (v : Z) (w : window) : window :=
  let '(Window x0 _ x2 x3 x4 x5 x6 x7 x8 x9 x10 x11 x12 x13 x14 x15 x16 x17
        x18 x19 x20 x21 x22 x23 x24 x25 x26) := w in
  Window x0 v x2 x3 x4 x5 x6 x7 x8 x9 x10 x11 x12 x13 x14 x15 x16 x17 x18
    x19 x20 x21 x22 x23 x24 x25 x26.
Definition set_api_endpoint (v : string) (w : window) : window :=
  let '(Window x0 x1 _ x3 x4 x5 x6 x7 x8 x9 x10 x11 x12 x13 x14 x15 x16 x17
        x18 x19 x20 x21 x22 x23 x24 x25 x26) := w in
  Window x0 x1 v x3 x4 x5 x6 x7 x8 x9 x10 x11 x12 x13 x14 x15 x16 x17 x18
    x19 x20 x21 x22 x23 x24 x25 x26.
Definition set_api_type (v : string) (w : window) : window :=
  let '(Window x0 x1 x2 _ x4 x5 x6 x7 x8 x9 x10 x11 x12 x13 x14 x15 x16 x17
        x18 x19 x20 x21 x22 x23 x24 x25 x26) := w in
  Window x0 x1 x2 v x4 x5 x6 x7 x8 x9 x10 x11 x12 x13 x14 x15 x16 x17 x18
    x19 x20 x21 x22 x23 x24 x25 x26.
Definition set_api_key (v : string) (w : window) : window :=
  let '(Window x0 x1 x2 x3 _ x5 x6 x7 x8 x9 x10 x11 x12 x13 x14 x15 x16 x17
        x18 x19 x20 x21 x22 x23 x24 x25 x26) := w in
  Window x0 x1 x2 x3 v x5 x6 x7 x8 x9 x10 x11 x12 x13 x14 x15 x16 x17 x18
    x19 x20 x21 x22 x23 x24 x25 x26.
Definition set_config (v : Config.dict) (w : window) : window :=
  let '(Window x0 x1 x2 x3 x4 _ x6 x7 x8 x9 x10 x11 x12 x13 x14 x15 x16 x17
        x18 x19 x20 x21 x22 x23 x24 x25 x26) := w in
  Window x0 x1 x2 x3 x4 v x6 x7 x8 x9 x10 x11 x12 x13 x14 x15 x16 x17 x18
    x19 x20 x21 x22 x23 x24 x25 x26.
Definition set_active_system_prompt_file (v : string) (w : window) : window :=
  let '(Window x0 x1 x2 x3 x4 x5 _ x7 x8 x9 x10 x11 x12 x13 x14 x15 x16 x17
        x18 x19 x20 x21 x22 x23 x24 x25 x26) := w in
  Window x0 x1 x2 x3 x4 x5 v x7 x8 x9 x10 x11 x12 x13 x14 x15 x16 x17 x18
    x19 x20 x21 x22 x23 x24 x25 x26.
Definition set_current_system_prompt_content (v : string) (w : window) : window :=
  let '(Window x0 x1 x2 x3 x4 x5 x6 _ x8 x9 x10 x11 x12 x13 x14 x15 x16 x17
        x18 x19 x20 x21 x22 x23 x24 x25 x26) := w in
  Window x0 x1 x2 x3 x4 x5 x6 v x8 x9 x10 x11 x12 x13 x14 x15 x16 x17 x18
    x19 x20 x21 x22 x23 x24 x25 x26.
Definition set_save_target_file (v : option string) (w : window) : window :=
  let '(Window x0 x1 x2 x3 x4 x5 x6 x7 _ x9 x10 x11 x12 x13 x14 x15 x16 x17
        x18 x19 x20 x21 x22 x23 x24 x25 x26) := w in
  Window x0 x1 x2 x3 x4 x5 x6 x7 v x9 x10 x11 x12 x13 x14 x15 x16 x17 x18
    x19 x20 x21 x22 x23 x24 x25 x26.
Definition set_system_prompt_editor_dirty (v : bool) (w : window) : window :=
  let '(Window x0 x1 x2 x3 x4 x5 x6 x7 x8 _ x10 x11 x12 x13 x14 x15 x16 x17
        x18 x19 x20 x21 x22 x23 x24 x25 x26) := w in
  Window x0 x1 x2 x3 x4 x5 x6 x7 x8 v x10 x11 x12 x13 x14 x15 x16 x17 x18
    x19 x20 x21 x22 x23 x24 x25 x26.
Definition set_prompt_editor_dirty (v : bool) (w : window) : window :=
  let '(Window x0 x1 x2 x3 x4 x5 x6 x7 x8 x9 _ x11 x12 x13 x14 x15 x16 x17
        x18 x19 x20 x21 x22 x23 x24 x25 x26) := w in
  Window x0 x1 x2 x3 x4 x5 x6 x7 x8 x9 v x11 x12 x13 x14 x15 x16 x17 x18 x19
    x20 x21 x22 x23 x24 x25 x26.
Definition set_current_prompt_editor_file (v : option string) (w : window) : window :=
  let '(Window x0 x1 x2 x3 x4 x5 x6 x7 x8 x9 x10 _ x12 x13 x14 x15 x16 x17
        x18 x19 x20 x21 x22 x23 x24 x25 x26) := w in
  Window x0 x1 x2 x3 x4 x5 x6 x7 x8 x9 x10 v x12 x13 x14 x15 x16 x17 x18 x19
    x20 x21 x22 x23 x24 x25 x26.
Definition set_response_display (v : string) (w : window) : window :=
  let '(Window x0 x1 x2 x3 x4 x5 x6 x7 x8 x9 x10 x11 _ x13 x14 x15 x16 x17
        x18 x19 x20 x21 x22 x23 x24 x25 x26) := w in
  Window x0 x1 x2 x3 x4 x5 x6 x7 x8 x9 x10 x11 v x13 x14 x15 x16 x17 x18 x19
    x20 x21 x22 x23 x24 x25 x26.
Definition set_save_gen_button (v : bool) (w : window) : window :=
  let '(Window x0 x1 x2 x3 x4 x5 x6 x7 x8 x9 x10 x11 x12 _ x14 x15 x16 x17
        x18 x19 x20 x21 x22 x23 x24 x25 x26) := w in
  Window x0 x1 x2 x3 x4 x5 x6 x7 x8 x9 x10 x11 x12 v x14 x15 x16 x17 x18 x19
    x20 x21 x22 x23 x24 x25 x26.
Definition set_pe_editor (v : text_edit) (w : window) : window :=
  let '(Window x0 x1 x2 x3 x4 x5 x6 x7 x8 x9 x10 x11 x12 x13 _ x15 x16 x17
        x18 x19 x20 x21 x22 x23 x24 x25 x26) := w in
  Window x0 x1 x2 x3 x4 x5 x6 x7 x8 x9 x10 x11 x12 x13 v x15 x16 x17 x18 x19
    x20 x21 x22 x23 x24 x25 x26.
Definition set_pe_filename_label (v : label) (w : window) : window :=
  let '(Window x0 x1 x2 x3 x4 x5 x6 x7 x8 x9 x10 x11 x12 x13 x14 _ x16 x17
        x18 x19 x20 x21 x22 x23 x24 x25 x26) := w in
  Window x0 x1 x2 x3 x4 x5 x6 x7 x8 x9 x10 x11 x12 x13 x14 v x16 x17 x18 x19
    x20 x21 x22 x23 x24 x25 x26.
Definition set_pe_save_button (v : bool) (w : window) : window :=
  let '(Window x0 x1 x2 x3 x4 x5 x6 x7 x8 x9 x10 x11 x12 x13 x14 x15 _ x17
        x18 x19 x20 x21 x22 x23 x24 x25 x26) := w in
  Window x0 x1 x2 x3 x4 x5 x6 x7 x8 x9 x10 x11 x12 x13 x14 x15 v x17 x18 x19
    x20 x21 x22 x23 x24 x25 x26.
Definition set_pe_close_button (v : bool) (w : window) : window :=
  let '(Window x0 x1 x2 x3 x4 x5 x6 x7 x8 x9 x10 x11 x12 x13 x14 x15 x16 _
        x18 x19 x20 x21 x22 x23 x24 x25 x26) := w in
  Window x0 x1 x2 x3 x4 x5 x6 x7 x8 x9 x10 x11 x12 x13 x14 x15 x16 v x18 x19
    x20 x21 x22 x23 x24 x25 x26.
Definition set_system_prompt_editor (v : text_edit) (w : window) : window :=
  let '(Window x0 x1 x2 x3 x4 x5 x6 x7 x8 x9 x10 x11 x12 x13 x14 x15 x16 x17
        _ x19 x20 x21 x22 x23 x24 x25 x26) := w in
  Window x0 x1 x2 x3 x4 x5 x6 x7 x8 x9 x10 x11 x12 x13 x14 x15 x16 x17 v x19
    x20 x21 x22 x23 x24 x25 x26.
Definition set_save_button (v : bool) (w : window) : window :=
  let '(Window x0 x1 x2 x3 x4 x5 x6 x7 x8 x9 x10 x11 x12 x13 x14 x15 x16 x17
        x18 _ x20 x21 x22 x23 x24 x25 x26) := w in
  Window x0 x1 x2 x3 x4 x5 x6 x7 x8 x9 x10 x11 x12 x13 x14 x15 x16 x17 x18 v
    x20 x21 x22 x23 x24 x25 x26.
Definition set_prompt_list_widget (v : list_widget) (w : window) : window :=
  let '(Window x0 x1 x2 x3 x4 x5 x6 x7 x8 x9 x10 x11 x12 x13 x14 x15 x16 x17
        x18 x19 _ x21 x22 x23 x24 x25 x26) := w in
  Window x0 x1 x2 x3 x4 x5 x6 x7 x8 x9 x10 x11 x12 x13 x14 x15 x16 x17 x18
    x19 v x21 x22 x23 x24 x25 x26.
Definition set_active_prompt_display_label (v : string) (w : window) : window :=
  let '(Window x0 x1 x2 x3 x4 x5 x6 x7 x8 x9 x10 x11 x12 x13 x14 x15 x16 x17
        x18 x19 x20 _ x22 x23 x24 x25 x26) := w in
  Window x0 x1 x2 x3 x4 x5 x6 x7 x8 x9 x10 x11 x12 x13 x14 x15 x16 x17 x18
    x19 x20 v x22 x23 x24 x25 x26.
Definition set_status_bar (v : string) (w : window) : window :=
  let '(Window x0 x1 x2 x3 x4 x5 x6 x7 x8 x9 x10 x11 x12 x13 x14 x15 x16 x17
        x18 x19 x20 x21 _ x23 x24 x25 x26) := w in
  Window x0 x1 x2 x3 x4 x5 x6 x7 x8 x9 x10 x11 x12 x13 x14 x15 x16 x17 x18
    x19 x20 x21 v x23 x24 x25 x26.
Definition set_disk (v : filesystem) (w : window) : window :=
  let '(Window x0 x1 x2 x3 x4 x5 x6 x7 x8 x9 x10 x11 x12 x13 x14 x15 x16 x17
        x18 x19 x20 x21 x22 _ x24 x25 x26) := w in
  Window x0 x1 x2 x3 x4 x5 x6 x7 x8 x9 x10 x11 x12 x13 x14 x15 x16 x17 x18
    x19 x20 x21 x22 v x24 x25 x26.
Definition set_preset_dir (v : PromptManager.directory) (w : window) : window :=
  let '(Window x0 x1 x2 x3 x4 x5 x6 x7 x8 x9 x10 x11 x12 x13 x14 x15 x16 x17
        x18 x19 x20 x21 x22 x23 _ x25 x26) := w in
  Window x0 x1 x2 x3 x4 x5 x6 x7 x8 x9 x10 x11 x12 x13 x14 x15 x16 x17 x18
    x19 x20 x21 x22 x23 v x25 x26.
Definition set_config_store (v : Config.store) (w : window) : window :=
  let '(Window x0 x1 x2 x3 x4 x5 x6 x7 x8 x9 x10 x11 x12 x13 x14 x15 x16 x17
        x18 x19 x20 x21 x22 x23 x24 _ x26) := w in
  Window x0 x1 x2 x3 x4 x5 x6 x7 x8 x9 x10 x11 x12 x13 x14 x15 x16 x17 x18
    x19 x20 x21 x22 x23 x24 v x26.
Definition set_log (v : list event) (w : window) : window :=
  let '(Window x0 x1 x2 x3 x4 x5 x6 x7 x8 x9 x10 x11 x12 x13 x14 x15 x16 x17
        x18 x19 x20 x21 x22 x23 x24 x25 _) := w in
  Window x0 x1 x2 x3 x4 x5 x6 x7 x8 x9 x10 x11 x12 x13 x14 x15 x16 x17 x18
    x19 x20 x21 x22 x23 x24 x25 v.

Definition LF : string := String (ascii_of_nat 10) EmptyString.

(** ["\n\n" + "=" * 20 + "\n\n"] *)
Definition SEPARATOR : string :=
  LF +:+ LF +:+ "====================" +:+ LF +:+ LF.

Definition GRAY : string := "font-style: italic; color: gray;".
Definition ORANGE : string := "font-style: italic; color: orange;".

Definition show_error_message (title : string) (w : window) : window :=
  set_log (log w ++ [Critical title]) w.
Definition show_warning_message (title : string) (w : window) : window :=
  set_log (log w ++ [Warning title]) w.
Definition show_info_message (title : string) (w : window) : window :=
  set_log (log w ++ [Information title]) w.

(** ** Dirty flags *)

Definition _pe_mark_dirty (w : window) : window :=
  if isEnabled (pe_editor w) && negb (isReadOnly (pe_editor w)) then
    let w := set_prompt_editor_dirty true w in
    set_pe_save_button (bool_decide (is_Some (current_prompt_editor_file w))) w
  else w.

Definition _pe_clear_dirty_flag (w : window) : window :=
  let w := set_prompt_editor_dirty false w in
  set_pe_save_button false w.

Definition _mark_dirty (w : window) : window :=
  if isEnabled (system_prompt_editor w) then
    let w := set_system_prompt_editor_dirty true w in
    set_save_button (bool_decide (is_Some (currentItem (prompt_list_widget w)))) w
  else w.

Definition _clear_dirty_flag (w : window) : window :=
  let w := set_system_prompt_editor_dirty false w in
  set_save_button false w.

(** [pe_editor.setPlainText(s)]: the widget's textChanged signal is
    connected to [_pe_mark_dirty]. *)
Definition pe_editor_setPlainText (s : string) (w : window) : window :=
  _pe_mark_dirty (set_pe_editor (setText s (pe_editor w)) w).

(** [pe_editor.clear()] *)
Definition pe_editor_clear (w : window) : window := pe_editor_setPlainText "" w.

(** [system_prompt_editor.setPlainText(s)], connected to [_mark_dirty]. *)
Definition system_prompt_editor_setPlainText (s : string) (w : window) : window :=
  _mark_dirty (set_system_prompt_editor (setText s (system_prompt_editor w)) w).

(** The user types in the Prompt Editor box, leaving [s] in it; a box
    that is disabled or read-only takes no input. *)
Definition type_in_pe_editor (s : string) (w : window) : window :=
  if isEnabled (pe_editor w) && negb (isReadOnly (pe_editor w))
  then pe_editor_setPlainText s w
  else w.

(** ** Prompt Editor slots *)

(** The [return] statement by which [_pe_close_file] was left (the
    Python function returns [None] on each of them). *)
Inductive close_outcome :=
  | NoFileOpen
  | Declined      (* "Close cancel." *)
  | Closed.

Definition _pe_close_file (u : user) (force : bool) (w : window) :
    window * close_outcome :=
  if negb (truthy_opt (current_prompt_editor_file w)) then (w, NoFileOpen)
  else if negb force && prompt_editor_dirty w && negb (confirm u "Unsaved")
  then (w, Declined)
  else
    let w := pe_editor_clear w in
    let w := set_pe_editor (setEnabled false (pe_editor w)) w in
    let w := set_pe_editor (setReadOnly true (pe_editor w)) w in
    let w := set_pe_filename_label (Label "No file open." GRAY) w in
    let w :=
      if bool_decide (current_prompt_editor_file w = save_target_file w) then
        let w := set_save_target_file None w in
        set_save_gen_button false w
      else w in
    let w := set_current_prompt_editor_file None w in
    let w := _pe_clear_dirty_flag w in
    let w := set_pe_save_button false w in
    let w := set_pe_close_button false w in
    let w := set_status_bar "Prompt file closed." w in
    (w, Closed).

Definition _load_file_into_pe_editor (u : user) (filepath : string) (w : window) :
    window :=
  match read_file (disk w) filepath with
  | Some content =>
      let w := set_save_target_file (Some filepath) w in
      let w := set_current_prompt_editor_file (Some filepath) w in
      let w := pe_editor_setPlainText content w in
      let base_name := basename filepath in
      let w := set_pe_filename_label (Label base_name "") w in
      let w := set_pe_editor (setEnabled true (pe_editor w)) w in
      let w := set_pe_editor (setReadOnly false (pe_editor w)) w in
      let w := set_pe_close_button true w in
      let w := _pe_clear_dirty_flag w in
      set_status_bar ("Opened: " +:+ base_name) w
  | None =>      (* FileNotFoundError, or the read raises *)
      let w := show_error_message "File Error" w in
      (_pe_close_file u true w).1
  end.

Definition _pe_save_file (w : window) : window :=
  match current_prompt_editor_file w with
  | Some path =>
      if negb (truthy path) then show_warning_message "Save Error" w
      else if negb (prompt_editor_dirty w) then w
      else
        match write_file (disk w) path (toPlainText (pe_editor w)) with
        | Some fs =>
            let w := set_disk fs w in
            let w := set_status_bar ("Saved: " +:+ basename path) w in
            _pe_clear_dirty_flag w
        | None => show_error_message "Save Error" w
        end
  | None => show_warning_message "Save Error" w
  end.

Definition _pe_open_file (u : user) (w : window) : window :=
  let filepath := getOpenFileName u in
  if truthy filepath then
    if prompt_editor_dirty w && negb (confirm u "Unsaved") then w
    else _load_file_into_pe_editor u filepath w
  else w.

(** ** System Prompts slots *)

Definition _load_selected_preset (w : window) : window :=
  match currentItem (prompt_list_widget w) with
  | Some filename =>
      let '(content, shown) := PromptManager.load_prompt_text (preset_dir w) filename in
      let w := set_log (log w ++ shown) w in
      let w := set_system_prompt_editor (setEnabled true (system_prompt_editor w)) w in
      let w := system_prompt_editor_setPlainText content w in
      let w := set_status_bar ("Loaded: " +:+ filename) w in
      _clear_dirty_flag w
  | None =>
      let w := system_prompt_editor_setPlainText "" w in
      let w := set_system_prompt_editor (setEnabled false (system_prompt_editor w)) w in
      let w := set_status_bar "Select preset." w in
      _clear_dirty_flag w
  end.

(** The slot of currentItemChanged; [previous] is the row of the item
    that was current before, -1 for none. *)
Definition _on_preset_select (u : user) (previous : Z) (w : window) : window :=
  if system_prompt_editor_dirty w then
    if confirm u "Unsaved" then _load_selected_preset w
    else if (0 <=? previous)%Z
         then set_prompt_list_widget
                (ListWidget (items (prompt_list_widget w)) previous) w
         else w
  else _load_selected_preset w.

(** [prompt_list_widget.setCurrentRow(row)] with signals enabled: the
    slot runs when the current item changes. *)
Definition prompt_list_setCurrentRow (u : user) (row : Z) (w : window) : window :=
  let l := prompt_list_widget w in
  let row := if (0 <=? row)%Z && (row <? Z.of_nat (length (items l)))%Z
             then row else (-1)%Z in
  if (row =? currentRow l)%Z then w
  else _on_preset_select u (currentRow l) (set_prompt_list_widget (ListWidget (items l) row) w).

Definition _update_preset_list (w : window) : window :=
  let selected_text := currentItem (prompt_list_widget w) in
  let presets := PromptManager.get_prompt_presets (preset_dir w) in
  let w := set_prompt_list_widget (ListWidget presets (-1)) w in
  let found := if truthy_opt selected_text
               then findItem (default "" selected_text) presets else None in
  match found with
  | Some row => set_prompt_list_widget (ListWidget presets row) w
  | None =>
      match presets with
      | _ :: _ =>
          let w := set_prompt_list_widget (ListWidget presets 0) w in
          _load_selected_preset w
      | [] => _load_selected_preset w
      end
  end.

Definition _load_active_system_prompt_content (w : window) : window :=
  let '(content, shown) :=
    PromptManager.load_prompt_text (preset_dir w) (active_system_prompt_file w) in
  let w := set_log (log w ++ shown) w in
  set_current_system_prompt_content content w.

Definition _save_config (w : window) : window :=
  let c := config w in
  let c := <["api_type" := Config.JStr (api_type w)]> c in
  let c := <["api_endpoint" := Config.JStr (api_endpoint w)]> c in
  let c := <["api_key" := Config.JStr (api_key w)]> c in
  let c := <["active_system_prompt" := Config.JStr (active_system_prompt_file w)]> c in
  let w := set_config c w in
  set_config_store (Config.save_config c (config_store w)) w.

Definition _update_active_prompt_display (w : window) : window :=
  set_active_prompt_display_label ("<b>" +:+ active_system_prompt_file w +:+ "</b>") w.

Definition _delete_selected_preset (u : user) (w : window) : window :=
  match currentItem (prompt_list_widget w) with
  | None => show_warning_message "Delete Error" w
  | Some filename =>
      if String.eqb (py_lower filename) (py_lower PromptManager.DEFAULT_PROMPT_NAME)
      then show_warning_message "Delete Prevented" w
      else
        let '(deleted, dir, shown) :=
          PromptManager.delete_prompt_preset u (preset_dir w) filename in
        let w := set_preset_dir dir w in
        let w := set_log (log w ++ shown) w in
        if deleted then
          let w := set_status_bar ("Deleted: " +:+ filename +:+ "'.") w in
          let w :=
            if String.eqb filename (active_system_prompt_file w) then
              let w := show_info_message "Active Deleted" w in
              let w := set_active_system_prompt_file PromptManager.DEFAULT_PROMPT_NAME w in
              let w := _load_active_system_prompt_content w in
              let w := _save_config w in
              _update_active_prompt_display w
            else w in
          let current_row := currentRow (prompt_list_widget w) in
          let w := _update_preset_list w in
          let count := Z.of_nat (length (items (prompt_list_widget w))) in
          if (0 <? count)%Z then
            let new_row := Z.min current_row (count - 1) in
            if (0 <=? new_row)%Z then prompt_list_setCurrentRow u new_row w
            else _load_selected_preset w
          else _load_selected_preset w
        else set_status_bar ("Delete fail: " +:+ filename +:+ "'.") w
  end.

(** ** Generator slots *)

Definition _ask_save_target_file (u : user) (w : window) : window * outcome bool :=
  let filepath := getSaveFileName u in
  if truthy filepath then
    let w := set_save_target_file (Some filepath) w in
    if prompt_editor_dirty w then
      if confirm u "Unsaved Changes"
      then (_load_file_into_pe_editor u filepath w, Returns true)
      else
        match current_prompt_editor_file w with
        | Some current =>
            let w := set_pe_filename_label
                       (Label (basename current +:+ "* (Out of sync)") ORANGE) w in
            (w, Returns true)
        | None => (w, Raises TypeError)     (* os.path.basename(None) *)
        end
    else (_load_file_into_pe_editor u filepath w, Returns true)
  else (set_save_target_file None w, Returns false).

(** The test on the text of the response box in [_save_generated_prompt]. *)
Definition valid_prompt (generated_text : string) : bool :=
  truthy generated_text
  && negb (py_in "Generating..." generated_text)
  && negb (py_in "Error:" generated_text).

(** The body of the [try] statement of [_save_generated_prompt]; both
    [except] clauses show the same error box. *)
Definition append_and_refresh (u : user) (generated_text : string) (w : window) : window :=
  match save_target_file w with
  | None => show_error_message "Save Error" w     (* os.path.exists(None) *)
  | Some target =>
      let add_sep := path_exists (disk w) target
                     && truthy (default "" (files (disk w) !! target)) in
      match append_file (disk w) target
              ((if add_sep then SEPARATOR else "") +:+ generated_text) with
      | None => show_error_message "Save Error" w
      | Some fs =>
          let w := set_disk fs w in
          let w := set_status_bar ("Appended to " +:+ basename target) w in
          if bool_decide (save_target_file w = current_prompt_editor_file w) then
            if prompt_editor_dirty w then
              if confirm u "File Updated"
              then _load_file_into_pe_editor u target w
              else set_pe_filename_label
                     (Label (basename target +:+ "* (External change)") ORANGE) w
            else _load_file_into_pe_editor u target w
          else w
      end
  end.

Definition _save_generated_prompt (u : user) (w : window) : window * outcome unit :=
  let generated_text := py_strip (response_display w) in
  if negb (valid_prompt generated_text)
  then (show_warning_message "Save Error" w, Returns ())
  else
    match save_target_file w with
    | None =>
        match _ask_save_target_file u w with
        | (w, Raises e) => (w, Raises e)
        | (w, Returns false) => (w, Returns ())
        | (w, Returns true) => (append_and_refresh u generated_text w, Returns ())
        end
    | Some _ => (append_and_refresh u generated_text w, Returns ())
    end.

(** ** Navigation *)

(** [stacked_widget.setCurrentIndex(index)]; Qt ignores an index that
    names no page. *)
Definition setCurrentIndex (index : Z) (w : window) : window :=
  if (0 <=? index)%Z && (index <? 4)%Z then set_stacked_widget index w else w.

(** The branch [if can_switch:] of [_on_nav_changed]. *)
Definition switch_view (u : user) (current_row : Z) (w : window) : window :=
  let w := setCurrentIndex current_row w in
  if (current_row =? PROMPT_EDITOR_VIEW_INDEX)%Z then
    if truthy_opt (save_target_file w)
       && negb (bool_decide (save_target_file w = current_prompt_editor_file w))
    then _load_file_into_pe_editor u (default "" (save_target_file w)) w
    else if negb (truthy_opt (save_target_file w))
            && truthy_opt (current_prompt_editor_file w)
    then (_pe_close_file u true w).1
    else if negb (truthy_opt (save_target_file w))
            && negb (truthy_opt (current_prompt_editor_file w))
    then
      let w := pe_editor_clear w in
      let w := set_pe_editor (setEnabled false (pe_editor w)) w in
      let w := set_pe_editor (setReadOnly true (pe_editor w)) w in
      let w := set_pe_save_button false w in
      let w := set_pe_close_button false w in
      set_pe_filename_label (Label "No file open." GRAY) w
    else w
  else w.

Definition _on_nav_changed (u : user) (current_row : Z) (w : window) : window :=
  let previous_index := stacked_widget w in
  let '(can_switch, w) :=
    if (previous_index =? SYSTEM_PROMPTS_VIEW_INDEX)%Z && system_prompt_editor_dirty w then
      let can_switch := confirm u "Unsaved Changes" in
      (can_switch, if can_switch then _clear_dirty_flag w else w)
    else if (previous_index =? PROMPT_EDITOR_VIEW_INDEX)%Z && prompt_editor_dirty w then
      let can_switch := confirm u "Unsaved Changes" in
      (can_switch, if can_switch then _pe_clear_dirty_flag w else w)
    else (true, w) in
  if can_switch then switch_view u current_row w
  else set_nav_list previous_index w.

(** The user selects one of the four rows of the navigation list: the
    slot runs when the row changes. *)
Definition select_nav (u : user) (row : Z) (w : window) : window :=
  if (row =? nav_list w)%Z || negb ((0 <=? row)%Z && (row <? 4)%Z) then w
  else _on_nav_changed u row (set_nav_list row w).

(** ** The operations on the Prompt Editor session *)

Inductive operation :=
  | Edit (s : string)      (* typing in the editor *)
  | SaveFile               (* the Save Changes button *)
  | CloseFile              (* the Close File button *)
  | OpenFile               (* the Open File... button *)
  | SaveGenerated          (* the Save Generated Prompt button *)
  | Navigate (row : Z).    (* a click in the navigation list *)

Definition perform (u : user) (op : operation) (w : window) : window :=
  match op with
  | Edit s => type_in_pe_editor s w
  | SaveFile => _pe_save_file w
  | CloseFile => (_pe_close_file u false w).1
  | OpenFile => _pe_open_file u w
  | SaveGenerated => (_save_generated_prompt u w).1
  | Navigate row => select_nav u row w
  end.

(** ** States of the session *)

(** What the target should hold after [generated_text] is appended to
    it: the separator goes between the old text and the new one, and
    only when there is old text. *)
Definition appended (fs : filesystem) (target generated_text : string) : string :=
  match files fs !! target with
  | Some old => if truthy old then old +:+ SEPARATOR +:+ generated_text
                else generated_text
  | None => generated_text
  end.

(** The window as [__init__] and [_setup_ui] leave it under the default
    configuration, before any file is opened. *)
Definition startup (fs : filesystem) (dir : PromptManager.directory)
    (store : Config.store) : window :=
  Window GENERATOR_VIEW_INDEX GENERATOR_VIEW_INDEX
         "http://localhost:11434" "Ollama" "" Config.DEFAULT_CONFIG
         "default.txt" "" None false false None "" false
         (TextEdit "" false true) (Label "No file open." GRAY) false false
         (TextEdit "" false false) false (ListWidget [] (-1))
         "<b>default.txt</b>" "Ready." fs dir store [].

(** The editor shows exactly what its file holds on disk, as after a
    load or a successful save. *)
Definition matches_disk (w : window) : Prop :=
  ∃ path, current_prompt_editor_file w = Some path
          ∧ truthy path = true
          ∧ files (disk w) !! path = Some (toPlainText (pe_editor w)).

(** The editor is closed. *)
Definition closed (w : window) : Prop :=
  current_prompt_editor_file w = None
  ∧ toPlainText (pe_editor w) = ""
  ∧ isEnabled (pe_editor w) = false.

(** The session is clean for a reason the specification accepts. *)
Definition settled (w : window) : Prop :=
  prompt_editor_dirty w = false ∧ (matches_disk w ∨ closed w).

(** From [w] to [w'] a dirty session stayed dirty and a settled session
    stayed settled. *)
Definition keeps (w w' : window) : Prop :=
  (prompt_editor_dirty w = true → prompt_editor_dirty w' = true)
  ∧ (settled w → settled w').

(** Only an editor with a file open takes input or is dirty. *)
Definition session_ok (w : window) : Prop :=
  (isEnabled (pe_editor w) = true → truthy_opt (current_prompt_editor_file w) = true)
  ∧ (prompt_editor_dirty w = true → truthy_opt (current_prompt_editor_file w) = true).

(** The windows that the operations build from a fresh start. *)
Inductive reachable : window → Prop :=
  | reachable_startup fs dir store : reachable (startup fs dir store)
  | reachable_perform u op w : reachable w → reachable (perform u op w).




End MainWindow.

(** * Concrete sessions used as examples *)

Module Scenario.
Import MainWindow.

Definition no_presets : PromptManager.directory :=
  PromptManager.Directory (Some []) false ∅ ∅ ∅ ∅.

Definition no_config : Config.store := Config.Store None true true [] true.

(** A user who answers Yes (resp. No) to every question and cancels
    every file dialog. *)
Definition accepting : user := User (λ _, true) "" "".
Definition declining : user := User (λ _, false) "" "".

(** One saved-prompts file, a.txt, holding the text "one". *)
Definition one_file : filesystem := Filesystem {["a.txt" := "one"]} ∅ ∅.

(** The user has gone to the Prompt Editor page and opened a.txt. *)
Definition opened : window :=
  _pe_open_file (User (λ _, false) "" "a.txt")
    (select_nav declining PROMPT_EDITOR_VIEW_INDEX
       (startup one_file no_presets no_config)).

(** The user has then typed "draft" over the text of a.txt. *)
Definition editing : window := type_in_pe_editor "draft" opened.

(** Two presets on disk, listed with the default one last. *)
Definition two_presets : PromptManager.directory :=
  PromptManager.Directory
    (Some [("haiku.txt", "Write a haiku."); ("default.txt", "Follow the examples.")])
    false ∅ ∅ ∅ ∅.

(** The System Prompts page once the preset list has been filled: the
    default preset is first and selected. *)
Definition presets_listed : window :=
  _update_preset_list (startup one_file two_presets no_config).

(** The user has selected the second preset, haiku.txt. *)
Definition haiku_selected : window :=
  prompt_list_setCurrentRow declining 1 presets_listed.

(** No saved-prompts file at all. *)
Definition empty_disk : filesystem := Filesystem ∅ ∅ ∅.

(** A user who names a.txt in the save dialog. *)
Definition choosing_a_txt : user := User (λ _, false) "a.txt" "".

(** On an empty disk, the user has set the new file a.txt as the save
    target, and the response box shows "hello". *)
Definition hello_for_new_file : window :=
  set_response_display "hello"
    (_ask_save_target_file choosing_a_txt
       (startup empty_disk no_presets no_config)).1.


End Scenario.

(** * utils.py *)

Module Utils.

(** [\s*] before a character that is not white space: all the white
    space is consumed (giving some back could not help the match). *)
Definition skip_spaces (s : string) : string := lstrip_with py_isspace s.

(** A literal of the pattern under [re.IGNORECASE]: what follows it in
    [s], if [s] starts with it up to the case of ASCII letters. *)
Fixpoint match_literal (literal s : string) : option string :=
  match literal, s with
  | EmptyString, _ => Some s
  | String a literal', String c s' =>
      if Ascii.eqb (ascii_lower a) (ascii_lower c) then match_literal literal' s'
      else None
  | String _ _, EmptyString => None
  end.

(** [<\s*think\s*>] at the start of [s]: what follows it. *)
Definition open_tag (s : string) : option string :=
  s ← match_literal "<" s;
  s ← match_literal "think" (skip_spaces s);
  match_literal ">" (skip_spaces s).

(** [<\s*/\s*think\s*>] at the start of [s]: what follows it. *)
Definition close_tag (s : string) : option string :=
  s ← match_literal "<" s;
  s ← match_literal "/" (skip_spaces s);
  s ← match_literal "think" (skip_spaces s);
  match_literal ">" (skip_spaces s).

(** [.*?] followed by the closing tag, with [re.DOTALL]: the first
    place in [s] where the closing tag matches; what follows the tag. *)
Fixpoint find_close (s : string) : option string :=
  match close_tag s with
  | Some rest => Some rest
  | None =>
      match s with
      | EmptyString => None
      | String _ s' => find_close s'
      end
  end.

(** The whole pattern at the start of [s]: what follows the match. *)
Definition match_at (s : string) : option string :=
  s ← open_tag s; find_close s.

(** [re.sub(pattern, "", s)]: scan from the left; where the pattern
    matches, drop the match and go on after it; elsewhere keep the
    character.  [skip] counts the characters of the current match that
    are still to be dropped. *)
Fixpoint sub_think (skip : nat) (s : string) : string :=
  match s with
  | EmptyString => EmptyString
  | String c s' =>
      match skip with
      | S n => sub_think n s'
      | O =>
          match match_at s with
          | Some rest =>
              sub_think (String.length s - String.length rest - 1) s'
          | None => String c (sub_think 0 s')
          end
      end
  end.

Definition process_response (text : string) : string :=
  py_strip (sub_think 0 text).

End Utils.

(** * The Prompt Editor page as the user sees it *)

Module Session.
Import MainWindow.

(** The controls of the page agree with the session: the editor takes
    input exactly when a file is open, Close File is enabled exactly
    then, Save Changes is enabled exactly when there are unsaved
    changes, and there are unsaved changes only with a file open. *)
Definition consistent (w : window) : Prop :=
  current_prompt_editor_file w ≠ Some ""
  ∧ isEnabled (pe_editor w) = bool_decide (is_Some (current_prompt_editor_file w))
  ∧ isReadOnly (pe_editor w) = negb (isEnabled (pe_editor w))
  ∧ pe_close_button w = isEnabled (pe_editor w)
  ∧ pe_save_button w = prompt_editor_dirty w
  ∧ (prompt_editor_dirty w = true → isEnabled (pe_editor w) = true).

(** A user who answers No to every question. *)
Definition declines_all (u : user) : Prop := ∀ title, confirm u title = false.

End Session.

(** * main_window.py: saving presets and choosing the active one *)

Module SystemPrompts.
Import MainWindow.

Definition _save_preset (w : window) : window :=
  match currentItem (prompt_list_widget w) with
  | None => show_warning_message "Save Error" w
  | Some filename =>
      let content := py_strip (toPlainText (system_prompt_editor w)) in
      let '(saved, dir, shown) :=
        PromptManager.save_prompt_text (preset_dir w) filename content in
      let w := set_preset_dir dir w in
      let w := set_log (log w ++ shown) w in
      if saved then
        let w := set_status_bar ("Saved: " +:+ filename) w in
        let w := _clear_dirty_flag w in
        if String.eqb filename (active_system_prompt_file w)
        then set_current_system_prompt_content content w
        else w
      else set_status_bar ("Save fail: " +:+ filename +:+ "'.") w
  end.

Definition _save_preset_as (u : user) (w : window) : window :=
  let content := py_strip (toPlainText (system_prompt_editor w)) in
  let filename_path := getSaveFileName u in
  if truthy filename_path then
    let base_filename := basename filename_path in
    if String.eqb (py_lower base_filename) (py_lower PromptManager.DEFAULT_PROMPT_NAME)
    then show_warning_message "Save Prevented" w
    else
      let '(saved, dir, shown) :=
        PromptManager.save_prompt_text (preset_dir w) base_filename content in
      let w := set_preset_dir dir w in
      let w := set_log (log w ++ shown) w in
      if saved then
        let w := set_status_bar ("Saved new: " +:+ base_filename +:+ "'.") w in
        let w := _update_preset_list w in
        match findItem base_filename (items (prompt_list_widget w)) with
        | Some row => prompt_list_setCurrentRow u row w     (* setCurrentItem(items[0]) *)
        | None => w
        end
      else set_status_bar ("Save As fail: " +:+ base_filename +:+ "'.") w
  else w.

Definition _set_active_preset (w : window) : window :=
  match currentItem (prompt_list_widget w) with
  | None => show_warning_message "Set Active Error" w
  | Some filename =>
      let w := set_active_system_prompt_file filename w in
      if PromptManager.load_raises (preset_dir w) filename
      then w      (* the exception leaves the slot: the rest does not run *)
      else
        let w := _load_active_system_prompt_content w in
        let w := _save_config w in
        let w := _update_active_prompt_display w in
        set_status_bar ("'" +:+ filename +:+ "' is now active.") w
  end.

(** The attributes that tell which system prompt a generation uses,
    and the stores behind them. *)
Definition prompt_state (w : window) :=
  (active_system_prompt_file w, current_system_prompt_content w,
   config w, config_store w, preset_dir w).

(** Two presets, the first one open in the editor with new text typed
    into it. *)
Definition haiku_edited : window :=
  system_prompt_editor_setPlainText " Write a haiku about {user_prompt}. "
    (prompt_list_setCurrentRow Scenario.declining 1 Scenario.presets_listed).

(** The same window once haiku.txt has been made the active preset. *)
Definition haiku_active : window := _set_active_preset haiku_edited.

End SystemPrompts.

(** * main_window.py: the Generator and Settings pages *)

Module Generator.
Import ApiClient Worker MainWindow.

(** A QComboBox that is not editable: its items and the current index,
    -1 for none. *)
Record combo_box := ComboBox {
  combo_items : list string;
  currentIndex : Z
}.

Definition currentText (c : combo_box) : string :=
  if (0 <=? currentIndex c)%Z
  then default "" (combo_items c !! Z.to_nat (currentIndex c))
  else "".

Definition combo_clear (c : combo_box) : combo_box := ComboBox [] (-1).

(** [addItems(texts)]: the first item becomes current when the box was
    empty. *)
Definition addItems (texts : list string) (c : combo_box) : combo_box :=
  match combo_items c, texts with
  | [], _ :: _ => ComboBox texts 0
  | l, _ => ComboBox (l ++ texts) (currentIndex c)
  end.

(** [setCurrentText(text)]: the first item with that text becomes
    current; nothing changes when there is none. *)
Definition setCurrentText (text : string) (c : combo_box) : combo_box :=
  match findItem text (combo_items c) with
  | Some index => ComboBox (combo_items c) index
  | None => c
  end.

Definition combo_setCurrentIndex (index : Z) (c : combo_box) : combo_box :=
  ComboBox (combo_items c)
           (if (0 <=? index)%Z && (index <? Z.of_nat (length (combo_items c)))%Z
            then index else (-1)%Z).

(** The window together with the widgets of the Generator and Settings
    pages and the state of the application's cursor. *)
Record app := App {
  window_of : window;
  model_combo : combo_box;
  user_prompt_input : string;         (* toPlainText() *)
  example_prompts_content : string;
  example_file_label : string;        (* text() *)
  example_file_tooltip : string;      (* toolTip() *)
  response_read_only : bool;          (* response_display.isReadOnly() *)
  endpoint_input : string;            (* text() *)
  apikey_input : string;              (* text() *)
  radio_openai : bool;                (* isChecked() *)
  controls_enabled : bool;
    (* isEnabled() of the eleven widgets that only _set_busy_state
       enables and disables, all together: generate_button,
       refresh_models_button, load_examples_button, model_combo,
       user_prompt_input, save_settings_button, endpoint_input,
       apikey_input, radio_ollama, radio_openai, nav_list *)
  override_cursors : nat              (* depth of the override cursor stack *)
}.

(** A method of the window that only touches attributes of [window]. *)
Definition on_window (f : window → window) (a : app) : app :=
  let '(App w x1 x2 x3 x4 x5 x6 x7 x8 x9 x10 x11) := a in
  App (f w) x1 x2 x3 x4 x5 x6 x7 x8 x9 x10 x11.
Definition set_model_combo (v : combo_box) (a : app) : app :=
  let '(App x0 _ x2 x3 x4 x5 x6 x7 x8 x9 x10 x11) := a in
  App x0 v x2 x3 x4 x5 x6 x7 x8 x9 x10 x11.
Definition set_example_prompts_content (v : string) (a : app) : app :=
  let '(App x0 x1 x2 _ x4 x5 x6 x7 x8 x9 x10 x11) := a in
  App x0 x1 x2 v x4 x5 x6 x7 x8 x9 x10 x11.
Definition set_example_file_label (v : string) (a : app) : app :=
  let '(App x0 x1 x2 x3 _ x5 x6 x7 x8 x9 x10 x11) := a in
  App x0 x1 x2 x3 v x5 x6 x7 x8 x9 x10 x11.
Definition set_example_file_tooltip (v : string) (a : app) : app :=
  let '(App x0 x1 x2 x3 x4 _ x6 x7 x8 x9 x10 x11) := a in
  App x0 x1 x2 x3 x4 v x6 x7 x8 x9 x10 x11.
Definition set_response_read_only (v : bool) (a : app) : app :=
  let '(App x0 x1 x2 x3 x4 x5 _ x7 x8 x9 x10 x11) := a in
  App x0 x1 x2 x3 x4 x5 v x7 x8 x9 x10 x11.
Definition set_controls_enabled (v : bool) (a : app) : app :=
  let '(App x0 x1 x2 x3 x4 x5 x6 x7 x8 x9 _ x11) := a in
  App x0 x1 x2 x3 x4 x5 x6 x7 x8 x9 v x11.
Definition set_override_cursors (v : nat) (a : app) : app :=
  let '(App x0 x1 x2 x3 x4 x5 x6 x7 x8 x9 x10 _) := a in
  App x0 x1 x2 x3 x4 x5 x6 x7 x8 x9 x10 v.

(** Text that a QTextEdit gives back as it was set, and that the
    ASCII model of [strip] and of the regular expression treats as
    Python does: printable ASCII characters, tabs and line feeds.
    (The widget returns a carriage return and the Unicode line and
    paragraph separators as line feeds and a no-break space as a
    space.) *)
Definition plain_char (c : ascii) : bool :=
  let n := nat_of_ascii c in
  ((32 <=? n)%nat && (n <=? 126)%nat) || (n =? 10)%nat || (n =? 9)%nat.

Definition plain_text (s : string) : bool :=
  forallb plain_char (list_ascii_of_string s).

(** [s.rstrip(chars)] *)
Definition rstrip_with (drop : ascii → bool) (s : string) : string :=
  String.rev (lstrip_with drop (String.rev s)).

(** [_set_busy_state]: the wait cursor is pushed on the stack of
    override cursors, and popped only when the stack is not empty. *)
Definition _set_busy_state (busy : bool) (a : app) : app :=
  let a := if busy then set_override_cursors (S (override_cursors a)) a
           else set_override_cursors (Nat.pred (override_cursors a)) a in
  set_controls_enabled (negb busy) a.

(** [_update_model_list]: the worker it starts; [net] is what the server
    will answer to it. *)
Definition _update_model_list (net : exchange models_body) (a : app) : app * task :=
  let w := window_of a in
  let a := on_window (set_status_bar ("Fetching models (" +:+ api_type w +:+ ")...")) a in
  let a := _set_busy_state true a in
  (a, FetchModels (api_endpoint w) (api_type w) (api_key w) net).

Definition _on_models_fetched (models : list string) (a : app) : app :=
  let current_selection := currentText (model_combo a) in
  let api_type := api_type (window_of a) in
  let c := combo_clear (model_combo a) in
  let '(c, message) :=
    match models with
    | _ :: _ =>
        let c := addItems models c in
        let c :=
          if bool_decide (current_selection ∈ models)
          then setCurrentText current_selection c
          else if (0 <? Z.of_nat (length (combo_items c)))%Z
          then combo_setCurrentIndex 0 c
          else c in
        (c, pretty (length models) +:+ " models loaded (" +:+ api_type +:+ ").")
    | [] =>
        (addItems ["No models found (" +:+ api_type +:+ ")"] c,
         "No models found (" +:+ api_type +:+ "). Check API.")
    end in
  let a := set_model_combo c a in
  let a := on_window (set_status_bar message) a in
  _set_busy_state false a.

Definition _on_worker_error (error_message : string) (a : app) : app :=
  let a := _set_busy_state false a in
  let a := on_window (show_error_message "API Error") a in
  on_window (set_status_bar "API fail.") a.

Definition _load_example_prompts_file (u : user) (a : app) : app :=
  let file_path := getOpenFileName u in
  if truthy file_path then
    match read_file (disk (window_of a)) file_path with
    | Some content =>
        let a := set_example_prompts_content content a in
        let base_name := basename file_path in
        let a := set_example_file_label base_name a in
        let a := set_example_file_tooltip file_path a in
        on_window (set_status_bar ("Loaded: " +:+ base_name)) a
    | None =>      (* except Exception *)
        let a := on_window (show_error_message "File Error") a in
        let a := set_example_prompts_content "" a in
        let a := set_example_file_label "Error load" a in
        let a := set_example_file_tooltip "" a in
        on_window (set_status_bar "Error load.") a
    end
  else a.

(** [_trigger_generation]: the worker it starts, if the input is
    accepted; [net] is what the server will answer to it. *)
Definition _trigger_generation (net : exchange generation_body) (a : app) :
    app * option task :=
  let w := window_of a in
  let selected_model := currentText (model_combo a) in
  let user_input := py_strip (user_prompt_input a) in
  let example_text := example_prompts_content a in
  let system_prompt_template := current_system_prompt_content w in
  if negb (truthy selected_model)
     || py_in "model" (py_lower selected_model)
     || py_in "No models" selected_model
  then (on_window (show_warning_message "Input Error") a, None)
  else if negb (truthy user_input)
  then (on_window (show_warning_message "Input Error") a, None)
  else if negb (truthy (example_prompts_content a))
  then (on_window (show_warning_message "Input Error") a, None)
  else if negb (truthy system_prompt_template)
          || String.prefix "Error loading" system_prompt_template
  then (on_window (show_warning_message "System Prompt Error") a, None)
  else
    let a := on_window (set_status_bar ("Sending (" +:+ api_type w +:+ ")...")) a in
    let a := on_window (set_response_display "Generating...") a in
    let a := set_response_read_only true a in
    let a := on_window (set_save_gen_button false) a in
    let a := _set_busy_state true a in
    (a, Some (Generate (api_endpoint w) (api_type w) selected_model
                       system_prompt_template user_input example_text
                       (api_key w) net)).

(** [_save_settings]: the worker that refreshes the model list, if the
    settings are accepted. *)
Definition _save_settings (net : exchange models_body) (a : app) : app * option task :=
  let selected_api_type := if radio_openai a then "OpenAI" else "Ollama" in
  let endpoint := rstrip_with (Ascii.eqb "/") (py_strip (endpoint_input a)) in
  let api_key := apikey_input a in
  if negb (truthy endpoint)
  then (on_window (show_error_message "Settings Error") a, None)
  else if negb (String.prefix "http://" endpoint || String.prefix "https://" endpoint)
  then (on_window (show_error_message "Settings Error") a, None)
  else
    let a := on_window (set_api_type selected_api_type) a in
    let a := on_window (set_api_endpoint endpoint) a in
    let a := on_window (set_api_key api_key) a in
    let a := on_window _save_config a in
    let a := on_window (show_info_message "Settings Saved") a in
    let a := on_window (set_status_bar "Settings saved. Refreshing models...") a in
    let '(a, t) := _update_model_list net a in
    (a, Some t).

Section Slots.

(** [str.format] of the Python library, and the text found under
    "error" in the dictionary returned by [generate_text]. *)
Variable str_format : string → string → string → format_result.
Variable error_text : generation_error → string.

(** [_on_generation_complete]; the dictionary that [generate_text]
    returns has one of the keys "response" and "error", so the last
    branch of the slot is not taken.  The value under "response" is
    text, as [generation_body] has it: on a list or an object
    [process_response] raises and the slot ends there.  The response
    box is modelled on text that it gives back as set ([plain_text]). *)
Definition _on_generation_complete (result : generation_result) (a : app) : app :=
  let '(shown, message, success) :=
    match result with
    | Response text =>
        let cleaned_response := Utils.process_response text in
        if truthy cleaned_response
        then (cleaned_response, "Gen OK.", true)
        else ("Received empty response.", "Empty response.", false)
    | Error e => ("Error: " +:+ error_text e, "Gen fail.", false)
    end in
  let a := on_window (set_response_display shown) a in
  let a := on_window (set_status_bar message) a in
  let a := set_response_read_only (negb success) a in
  let a := on_window (set_save_gen_button success) a in
  _set_busy_state false a.

(** The slot connected to a signal of a worker.  The two workers that
    the window starts emit [models_fetched] with a list and
    [generation_complete] with a dictionary; nothing is connected to
    [finished]. *)
Definition deliver (s : signal) (a : app) : app :=
  match s with
  | models_fetched (Models models) => _on_models_fetched models a
  | generation_complete (Generation result) => _on_generation_complete result a
  | error error_message => _on_worker_error error_message a
  | _ => a
  end.

(** The worker has run and the event loop has called the slots. *)
Definition worker_done (t : task) (a : app) : app :=
  foldl (λ a s, deliver s a) a (run str_format t).

(** Starting worker [t] took [a] to the busy state [a1], and the end of
    the worker takes it back: the controls are enabled again and the
    wait cursor is gone. *)
Definition busy_until_done (a a1 : app) (t : task) : Prop :=
  controls_enabled a1 = false
  ∧ override_cursors a1 = S (override_cursors a)
  ∧ controls_enabled (worker_done t a1) = true
  ∧ override_cursors (worker_done t a1) = override_cursors a.

End Slots.

(** The Generator page ready for a generation against a local Ollama
    server: a model is selected, a topic is typed and examples are
    loaded. *)
Definition ready : app :=
  App (set_current_system_prompt_content "Examples: {example_text} Topic: {user_prompt}"
         (set_save_target_file (Some "a.txt")
            (startup Scenario.one_file Scenario.no_presets Scenario.no_config)))
      (ComboBox ["llama3"; "mistral"] 1) " a cat " "A dog on a log."
      "examples.txt" "/home/me/examples.txt" true
      " http://localhost:11434// " "" false true 0.

End Generator.

(** * Properties of config_manager.py *)

Module ConfigFacts.
Import Config.

Lemma add_missing_defaults (d : dict) :
  add_missing (d ∪ DEFAULT_CONFIG) = (d ∪ DEFAULT_CONFIG, false).
Proof.
  assert (H : ∀ k v, (k, v) ∈ DEFAULT_ITEMS → is_Some ((d ∪ DEFAULT_CONFIG) !! k)).
  { intros k v Hin. rewrite lookup_union.
    assert (Hk : is_Some (DEFAULT_CONFIG !! k)).
    { unfold DEFAULT_ITEMS in Hin. unfold DEFAULT_CONFIG, DEFAULT_ITEMS.
      repeat (apply elem_of_cons in Hin as [Hin | Hin];
              [injection Hin as -> ->; vm_compute; eauto |]).
      by apply elem_of_nil in Hin. }
    destruct Hk as [w ->]. destruct (d !! k); simpl; eauto. }
  unfold add_missing. revert H. generalize (d ∪ DEFAULT_CONFIG) as m.
  generalize DEFAULT_ITEMS as l.
  induction l as [|[k v] l IH]; intros m H; [done |].
  simpl. destruct (H k v) as [w ->]; [left |]. 
  apply IH. intros k' v' Hin. apply (H k' v'). by right.
Qed.






(** Outside the listed states the call need not return: a file holding
    the JSON number 5 makes [final_config.update] raise. *)
Example load_config_number_raises :
  (load_config (Store (Some (Json (TNumber 5))) true true [] true)).2
  = Raises TypeError.
Proof. reflexivity. Qed.

End ConfigFacts.

(** * Properties of the worker and of api_client.py *)

Module WorkerFacts.
Import ApiClient Worker.

Section Facts.

Variable str_format : string → string → string → format_result.

Lemma run_shape (t : task) :
  ∃ pre, run str_format t = pre ++ [finished]
         ∧ (pre = [] ∨ (∃ s, pre = [s] ∧ is_finished s = false
                             ∧ xorb (is_success s) (is_error s) = true)).
Proof.
  unfold run. destruct (call str_format t) as [v | msg |].
  - destruct t; eexists; (split; [reflexivity |]); eauto 6.
  - eexists; split; [reflexivity |]; eauto 6.
  - eexists; split; [reflexivity |]; eauto.
Qed.

End Facts.

(** C5. One execution of [ApiWorker.run] emits at most one success or
    error signal in total (so each of them at most once), and exactly
    one [finished] signal, which comes last, whether the task body
    returned or raised. *)
Theorem run_delivers_once (str_format : string → string → string → format_result)
    (t : task) :
  (count is_success (run str_format t) + count is_error (run str_format t) ≤ 1)%nat
  ∧ count is_finished (run str_format t) = 1
  ∧ last (run str_format t) = Some finished.
Proof.
  destruct (run_shape str_format t) as (pre & -> & [-> | (s & -> & Hf & Hx)]).
  - unfold count; simpl; auto.
  - unfold count. simpl. rewrite Hf.
    destruct (is_success s), (is_error s); simpl in *; try done; auto with lia.
Qed.

(** C3, as amended. A failure of the taxonomy is caught inside the API
    function and delivered in the result signal of the task: a
    FetchModels task emits [models_fetched] with the empty list (the API
    client having raised an error dialog) and a Generate task emits
    [generation_complete] with an error dictionary, each followed by
    [finished]; the [error] signal is not emitted. *)
Theorem failure_delivered_in_result
    (str_format : string → string → string → format_result)
    (t : task) (f : failure) :
  suffers t f →
  (∀ msg, error msg ∉ run str_format t)
  ∧ match t with
    | FetchModels api_endpoint api_type api_key net =>
        run str_format t = [models_fetched (Models []); finished]
        ∧ is_Some (fetch_installed_models api_endpoint api_type api_key net).2
    | Generate _ _ _ _ _ _ _ _ =>
        ∃ e, run str_format t = [generation_complete (Generation (Error e)); finished]
    | Other _ => False
    end.
Proof.
  intros Hf.
  assert (Hne : ∀ s : string, s ≠ "" → truthy s = true) by (by intros []).
  assert (Hsup : ∀ a : string, ¬ supported a →
            String.eqb a "Ollama" = false ∧ String.eqb a "OpenAI" = false).
  { intros a Ha. split; apply String.eqb_neq; intros ->; apply Ha; [by left | by right]. }
  destruct t as [e a k net | e a m sp ui ex k net | r]; [| | done].
  - assert (Hrun : fetch_installed_models e a k net = ([], (fetch_installed_models e a k net).2)
                   ∧ is_Some (fetch_installed_models e a k net).2).
    { unfold fetch_installed_models.
      destruct f; simpl in Hf.
      1-3: destruct Hf as (He & Hs & Hx); rewrite (Hne _ He); simpl;
           destruct Hs as [-> | ->]; simpl;
           first [destruct Hx as [-> | ->] | subst net]; eauto.
      - rewrite Hf. eauto.
      - done.
      - destruct Hf as (He & Hs). rewrite (Hne _ He); simpl.
        destruct (Hsup _ Hs) as [-> ->]. eauto. }
    destruct Hrun as [Hrun Hdlg]. unfold run, call. rewrite Hrun. simpl.
    split; [| done].
    intros msg Hin. apply elem_of_cons in Hin as [Hin | Hin]; [done |].
    apply elem_of_cons in Hin as [Hin | Hin]; [done |]. by apply elem_of_nil in Hin.
  - assert (Hrun : ∃ err, generate_text str_format e a m sp ui ex k net = Error err).
    { unfold generate_text.
      destruct f; simpl in Hf.
      1-3: destruct Hf as (He & Hm & Hs & Hx); rewrite (Hne _ He), (Hne _ Hm); simpl;
           destruct Hs as [-> | ->]; simpl;
           try destruct (str_format sp ex ui);
           first [destruct Hx as [-> | ->] | subst net]; eauto.
      - rewrite Hf. eauto.
      - destruct Hf as (He & ->). rewrite (Hne _ He). eauto.
      - destruct Hf as (He & Hm & Hs). rewrite (Hne _ He), (Hne _ Hm); simpl.
        destruct (Hsup _ Hs) as [-> ->]. eauto. }
    destruct Hrun as [err Hrun]. unfold run, call. rewrite Hrun. simpl.
    split; [| eauto].
    intros msg Hin. apply elem_of_cons in Hin as [Hin | Hin]; [done |].
    apply elem_of_cons in Hin as [Hin | Hin]; [done |]. by apply elem_of_nil in Hin.
Qed.

(** A connection failure while refreshing the model list. *)
Lemma failure_delivered_in_result_witness :
  let fmt := λ tpl _ _ : string, Formatted tpl in
  let t := FetchModels "http://localhost:11434" "Ollama" "" (Fails RequestException) in
  suffers t NetworkFailure
  ∧ (∀ msg, error msg ∉ run fmt t)
  ∧ run fmt t = [models_fetched (Models []); finished]
  ∧ is_Some (fetch_installed_models "http://localhost:11434" "Ollama" ""
                                    (Fails RequestException)).2.
Proof.
  intros fmt t.
  assert (Hs : suffers t NetworkFailure).
  { simpl. split; [discriminate |]. split; [by left | by left]. }
  split; [exact Hs |].
  exact (failure_delivered_in_result fmt t NetworkFailure Hs).
Defined.

(** C3 fails as stated: a generation request that times out is a
    failure of the taxonomy, and the worker reports it on
    [generation_complete], not on [error]. *)
Lemma timeout_not_on_error_signal :
  let fmt := λ tpl _ _ : string, Formatted tpl in
  let t := Generate "http://localhost:11434" "Ollama" "llama3"
                    "{example_text} {user_prompt}" "a cat" "examples" ""
                    (Fails Timeout) in
  suffers t TimeoutFailure
  ∧ run fmt t = [generation_complete
                   (Generation (Error (GenTimedOut "http://localhost:11434/api/generate")));
                 finished]
  ∧ ¬ ∃ msg, error msg ∈ run fmt t.
Proof.
  intros fmt t. split; [| split].
  - simpl. split; [discriminate |]. split; [discriminate |]. split; [by left | done].
  - reflexivity.
  - intros [msg Hin]. vm_compute in Hin.
    apply elem_of_cons in Hin as [Hin | Hin]; [done |].
    apply elem_of_cons in Hin as [Hin | Hin]; [done |]. by apply elem_of_nil in Hin.
Qed.

End WorkerFacts.

(** * Properties of the main window *)

Module MainWindowFacts.
Import MainWindow.

(** ** What a load and a close leave behind *)

Lemma read_file_Some (fs : filesystem) (path content : string) :
  read_file fs path = Some content →
  truthy path = true ∧ files fs !! path = Some content.
Proof.
  unfold read_file, path_exists. destruct (truthy path); [| done].
  by case_match.
Qed.

Lemma keeps_refl (w : window) : keeps w w.
Proof. by split. Qed.

Lemma keeps_trans (w1 w2 w3 : window) : keeps w1 w2 → keeps w2 w3 → keeps w1 w3.
Proof. intros [H1 H1'] [H2 H2']. split; auto. Qed.

Lemma step_trans (w1 w2 w3 : window) :
  settled w2 ∨ keeps w1 w2 → settled w3 ∨ keeps w2 w3 → settled w3 ∨ keeps w1 w3.
Proof.
  intros H1 [H2 | H2]; [by left |].
  destruct H1 as [H1 | H1]; [left; by apply H2 | right; by eapply keeps_trans].
Qed.

(** Assignments that touch neither the dirty flag, nor the editor, nor
    its file, nor the disk. *)
Ltac frame_fields :=
  match goal with
  | |- keeps ?w _ =>
      destruct w; unfold keeps, settled, matches_disk, closed; simpl;
      split; [done | tauto]
  end.

Lemma close_step (u : user) (force : bool) (w : window) :
  settled (_pe_close_file u force w).1
  ∨ ((_pe_close_file u force w).1 = w
     ∧ (truthy_opt (current_prompt_editor_file w) = false ∨ force = false)).
Proof.
  unfold _pe_close_file.
  destruct (truthy_opt (current_prompt_editor_file w)); [| right; auto]. simpl.
  destruct (negb force && prompt_editor_dirty w && negb (confirm u "Unsaved"))
    eqn:Hguard; [right; destruct force; auto |].
  left. unfold settled, closed, pe_editor_clear, pe_editor_setPlainText,
    _pe_mark_dirty, _pe_clear_dirty_flag.
  destruct w; simpl.
  destruct (isEnabled pe_editor0 && negb (isReadOnly pe_editor0)); simpl;
    case_bool_decide; simpl; auto.
Qed.

Lemma close_open_file (u : user) (w : window) :
  truthy_opt (current_prompt_editor_file w) = true →
  settled (_pe_close_file u true w).1.
Proof.
  intros Hopen. destruct (close_step u true w) as [H | [_ [H | H]]]; [done | |];
    congruence.
Qed.

Lemma load_with_open_file (u : user) (filepath : string) (w : window) :
  truthy_opt (current_prompt_editor_file w) = true →
  settled (_load_file_into_pe_editor u filepath w).
Proof.
  intros Hopen. unfold _load_file_into_pe_editor.
  destruct (read_file (disk w) filepath) as [content |] eqn:Hread; simpl.
  - apply read_file_Some in Hread as [Hpath Hread].
    unfold settled, matches_disk, pe_editor_setPlainText, _pe_mark_dirty,
      _pe_clear_dirty_flag.
    destruct w; simpl in *.
    destruct (isEnabled pe_editor0 && negb (isReadOnly pe_editor0)); simpl; eauto 6.
  - apply close_open_file. by destruct w.
Qed.

Lemma load_step (u : user) (filepath : string) (w : window) :
  settled (_load_file_into_pe_editor u filepath w)
  ∨ keeps w (_load_file_into_pe_editor u filepath w).
Proof.
  unfold _load_file_into_pe_editor.
  destruct (read_file (disk w) filepath) as [content |] eqn:Hread; simpl.
  - left. apply read_file_Some in Hread as [Hpath Hread].
    unfold settled, matches_disk, pe_editor_setPlainText, _pe_mark_dirty,
      _pe_clear_dirty_flag.
    destruct w; simpl in *.
    destruct (isEnabled pe_editor0 && negb (isReadOnly pe_editor0)); simpl; eauto 6.
  - destruct (close_step u true (show_error_message "File Error" w)) as [H | [-> _]].
    + by left.
    + right. unfold show_error_message. frame_fields.
Qed.

(** ** Dirty sessions have a file

    The guard of [_pe_close_file] is only reached with a file open.
    Every session that the operations build from [startup] is in that
    case when it is dirty. *)

Ltac frame_ok :=
  match goal with
  | H : session_ok ?w |- session_ok _ =>
      revert H; destruct w; unfold session_ok; simpl; intuition congruence
  end.

Lemma startup_ok (fs : filesystem) (dir : PromptManager.directory)
    (store : Config.store) :
  session_ok (startup fs dir store).
Proof. split; simpl; done. Qed.

Lemma close_ok (u : user) (force : bool) (w : window) :
  session_ok w → session_ok (_pe_close_file u force w).1.
Proof.
  intros Hok. destruct (close_step u force w) as [[Hclean [H | H]] | [-> _]];
    [| | done].
  - destruct H as (path & Hpath & Htruthy & _).
    split; intros _; by rewrite Hpath.
  - destruct H as (_ & _ & Hen). split; intros ?; congruence.
Qed.

Lemma load_ok (u : user) (filepath : string) (w : window) :
  session_ok w → session_ok (_load_file_into_pe_editor u filepath w).
Proof.
  intros Hok. unfold _load_file_into_pe_editor.
  destruct (read_file (disk w) filepath) as [content |] eqn:Hread.
  - apply read_file_Some in Hread as [Htruthy _].
    unfold session_ok, pe_editor_setPlainText, _pe_mark_dirty, _pe_clear_dirty_flag.
    destruct w as [? ? ? ? ? ? ? ? ? ? ? ? ? ? [? ? ?] ? ? ? ? ? ? ? ? ? ? ? ?];
      simpl in *.
    by destruct (_ && _).
  - apply close_ok. unfold show_error_message. frame_ok.
Qed.

Lemma ask_ok (u : user) (w : window) :
  session_ok w → session_ok (_ask_save_target_file u w).1.
Proof.
  intros Hok. unfold _ask_save_target_file.
  destruct (truthy (getSaveFileName u)); [| simpl; frame_ok].
  assert (H1 : session_ok (set_save_target_file (Some (getSaveFileName u)) w))
    by frame_ok.
  set (w1 := set_save_target_file _ w) in *. clearbody w1.
  destruct (prompt_editor_dirty w1); [| by apply load_ok].
  destruct (confirm u "Unsaved Changes"); [by apply load_ok |].
  destruct (current_prompt_editor_file w1) eqn:Hcur; simpl; [| done].
  revert H1 Hcur. destruct w1; unfold session_ok; simpl. intros H ->. exact H.
Qed.

Lemma append_ok (u : user) (generated_text : string) (w : window) :
  session_ok w → session_ok (append_and_refresh u generated_text w).
Proof.
  intros Hok. unfold append_and_refresh.
  destruct (save_target_file w); [| unfold show_error_message; frame_ok].
  destruct (append_file _ _ _) as [fs |]; [| unfold show_error_message; frame_ok].
  assert (H1 : session_ok (set_status_bar ("Appended to " +:+ basename s)
                             (set_disk fs w))) by frame_ok.
  set (w1 := set_status_bar _ _) in *. clearbody w1.
  case_bool_decide; [| done].
  destruct (prompt_editor_dirty w1); [| by apply load_ok].
  destruct (confirm u "File Updated"); [by apply load_ok |].
  frame_ok.
Qed.

Lemma switch_ok (u : user) (row : Z) (w : window) :
  session_ok w → session_ok (switch_view u row w).
Proof.
  intros Hok. unfold switch_view.
  assert (H1 : session_ok (setCurrentIndex row w))
    by (unfold setCurrentIndex; destruct (_ && _); [frame_ok | done]).
  set (w1 := setCurrentIndex row w) in *. clearbody w1.
  destruct (row =? PROMPT_EDITOR_VIEW_INDEX)%Z; [| done].
  destruct (_ && _); [by apply load_ok |].
  destruct (_ && _); [by apply close_ok |].
  destruct (negb (truthy_opt (save_target_file w1))
            && negb (truthy_opt (current_prompt_editor_file w1))) eqn:Hnone;
    [| done].
  apply andb_prop in Hnone as [_ Hnone]. apply negb_true_iff in Hnone.
  unfold session_ok, pe_editor_clear, pe_editor_setPlainText, _pe_mark_dirty in *.
  destruct w1 as [? ? ? ? ? ? ? ? ? ? ? ? ? ? [? en ro] ? ? ? ? ? ? ? ? ? ? ? ?];
    simpl in *.
  destruct en, ro; simpl in *; intuition congruence.
Qed.

(** Every operation keeps the invariant. *)
Lemma perform_ok (u : user) (op : operation) (w : window) :
  session_ok w → session_ok (perform u op w).
Proof.
  intros Hok. destruct op as [s | | | | | row]; simpl.
  - unfold type_in_pe_editor.
    destruct (isEnabled (pe_editor w) && negb (isReadOnly (pe_editor w))) eqn:Hedit;
      [| done].
    unfold session_ok, pe_editor_setPlainText, _pe_mark_dirty in *.
    destruct w as [? ? ? ? ? ? ? ? ? ? ? ? ? ? [? ? ?] ? ? ? ? ? ? ? ? ? ? ? ?];
      simpl in *.
    rewrite Hedit. simpl. apply andb_prop in Hedit as [-> _]. tauto.
  - unfold _pe_save_file.
    destruct (current_prompt_editor_file w) eqn:Hcur;
      [| unfold show_warning_message; frame_ok].
    destruct (truthy s); simpl; [| unfold show_warning_message; frame_ok].
    destruct (prompt_editor_dirty w) eqn:Hdirty; simpl; [| done].
    destruct (write_file _ _ _); [| unfold show_error_message; frame_ok].
    unfold _pe_clear_dirty_flag. revert Hok Hcur.
    destruct w; unfold session_ok; simpl. intros H ->. tauto.
  - by apply close_ok.
  - unfold _pe_open_file. destruct (truthy _); [| done].
    destruct (_ && _); [done | by apply load_ok].
  - unfold _save_generated_prompt.
    destruct (negb _); [simpl; unfold show_warning_message; frame_ok |].
    destruct (save_target_file w); [by apply append_ok |].
    pose proof (ask_ok u w Hok) as Hask.
    destruct (_ask_save_target_file u w) as [w1 [[|] | e]]; simpl in *; try done.
    by apply append_ok.
  - unfold select_nav. destruct (_ || _); [done |].
    assert (H1 : session_ok (set_nav_list row w)) by frame_ok.
    set (w1 := set_nav_list row w) in *. clearbody w1.
    unfold _on_nav_changed.
    destruct (_ && system_prompt_editor_dirty w1).
    { destruct (confirm u "Unsaved Changes"); [| frame_ok].
      apply switch_ok. unfold _clear_dirty_flag. frame_ok. }
    destruct (_ && prompt_editor_dirty w1); [| by apply switch_ok].
    destruct (confirm u "Unsaved Changes"). 2:{ frame_ok. }
    apply switch_ok. unfold _pe_clear_dirty_flag. frame_ok.
Qed.

Lemma reachable_dirty_has_file (w : window) :
  reachable w →
  prompt_editor_dirty w = true →
  truthy_opt (current_prompt_editor_file w) = true.
Proof.
  intros Hreach. cut (session_ok w); [by intros [_ H] |].
  induction Hreach as [fs dir store | u op w _ IH].
  - apply startup_ok.
  - by apply perform_ok.
Qed.

(** ** Closing a file *)

(** C9. Closing a dirty Prompt Editor file without force, when the user
    declines the confirmation, leaves through the "Close cancel." return
    and changes nothing: the whole window state, and with it the
    session's content, backing path and dirty flag and the save target,
    is the one before the call. *)
Theorem close_declined_changes_nothing (u : user) (w : window) :
  truthy_opt (current_prompt_editor_file w) = true →
  prompt_editor_dirty w = true →
  confirm u "Unsaved" = false →
  _pe_close_file u false w = (w, Declined).
Proof.
  intros Hfile Hdirty Hno. unfold _pe_close_file.
  by rewrite Hfile, Hdirty, Hno.
Qed.

(** The editor holds a.txt with unsaved text when the user presses
    Close File and answers No. *)
Lemma close_declined_changes_nothing_witness :
  truthy_opt (current_prompt_editor_file Scenario.editing) = true
  ∧ prompt_editor_dirty Scenario.editing = true
  ∧ _pe_close_file Scenario.declining false Scenario.editing
    = (Scenario.editing, Declined).
Proof.
  split; [reflexivity |]. split; [reflexivity |].
  apply (close_declined_changes_nothing Scenario.declining Scenario.editing);
    reflexivity.
Defined.

(** ** A load that fails *)

(** C4, as amended. A load that fails (the file is missing or cannot be
    read) shows an error box, leaves the disk alone and force-closes the
    editor: with no file open nothing else changes, and with a file open
    the editor is emptied and disabled, its backing path and dirty flag
    are cleared, and the save target is cleared when it was the
    editor's file. *)
Theorem failed_load_closes_editor (u : user) (filepath : string) (w : window) :
  read_file (disk w) filepath = None →
  let w' := _load_file_into_pe_editor u filepath w in
  log w' = log w ++ [Critical "File Error"]
  ∧ disk w' = disk w
  ∧ (truthy_opt (current_prompt_editor_file w) = false →
       w' = show_error_message "File Error" w)
  ∧ (truthy_opt (current_prompt_editor_file w) = true →
       toPlainText (pe_editor w') = ""
       ∧ isEnabled (pe_editor w') = false
       ∧ current_prompt_editor_file w' = None
       ∧ prompt_editor_dirty w' = false
       ∧ save_target_file w' =
           if bool_decide (current_prompt_editor_file w = save_target_file w)
           then None else save_target_file w).
Proof.
  intros Hread. unfold _load_file_into_pe_editor. rewrite Hread.
  unfold _pe_close_file, show_error_message, pe_editor_clear,
    pe_editor_setPlainText, _pe_mark_dirty, _pe_clear_dirty_flag.
  destruct w; simpl in *.
  destruct (truthy_opt current_prompt_editor_file0) eqn:Hfile; simpl.
  - repeat split; try done;
      destruct (isEnabled pe_editor0 && negb (isReadOnly pe_editor0)); simpl;
      case_bool_decide; simpl; try done.
  - repeat split; done.
Qed.

(** a.txt is open with unsaved text and the user opens a file that is
    not there. *)
Lemma failed_load_closes_editor_witness :
  let w := Scenario.editing in
  let w' := _load_file_into_pe_editor Scenario.accepting "missing.txt" w in
  read_file (disk w) "missing.txt" = None
  ∧ log w' = log w ++ [Critical "File Error"]
  ∧ disk w' = disk w
  ∧ (truthy_opt (current_prompt_editor_file w) = false →
       w' = show_error_message "File Error" w)
  ∧ (truthy_opt (current_prompt_editor_file w) = true →
       toPlainText (pe_editor w') = ""
       ∧ isEnabled (pe_editor w') = false
       ∧ current_prompt_editor_file w' = None
       ∧ prompt_editor_dirty w' = false
       ∧ save_target_file w' =
           if bool_decide (current_prompt_editor_file w = save_target_file w)
           then None else save_target_file w).
Proof.
  intros w w'.
  assert (Hread : read_file (disk w) "missing.txt" = None) by reflexivity.
  split; [exact Hread |].
  exact (failed_load_closes_editor Scenario.accepting "missing.txt" w Hread).
Defined.

(** C4 fails as stated: the failed load of a missing file empties the
    editor that held a.txt, forgets its backing path and its unsaved
    state, disables it and clears the save target. *)
Lemma failed_load_mutates_session :
  let w := Scenario.editing in
  let w' := _load_file_into_pe_editor Scenario.accepting "missing.txt" w in
  read_file (disk w) "missing.txt" = None
  ∧ (toPlainText (pe_editor w) = "draft" ∧ toPlainText (pe_editor w') = "")
  ∧ (current_prompt_editor_file w = Some "a.txt"
     ∧ current_prompt_editor_file w' = None)
  ∧ (prompt_editor_dirty w = true ∧ prompt_editor_dirty w' = false)
  ∧ (isEnabled (pe_editor w) = true ∧ isEnabled (pe_editor w') = false)
  ∧ (save_target_file w = Some "a.txt" ∧ save_target_file w' = None).
Proof. repeat split; reflexivity. Qed.

(** ** Leaving a page *)
















(** ** Which operations clear the dirty flag *)

Lemma ask_step (u : user) (w : window) :
  settled (_ask_save_target_file u w).1 ∨ keeps w (_ask_save_target_file u w).1.
Proof.
  unfold _ask_save_target_file.
  destruct (truthy (getSaveFileName u)); [| right; simpl; frame_fields].
  set (w1 := set_save_target_file (Some (getSaveFileName u)) w).
  assert (H1 : settled w1 ∨ keeps w w1) by (right; subst w1; frame_fields).
  assert (Hload := load_step u (getSaveFileName u) w1).
  destruct (prompt_editor_dirty w1) eqn:Hdirty;
    [| exact (step_trans _ _ _ H1 Hload)].
  destruct (confirm u "Unsaved Changes"); [exact (step_trans _ _ _ H1 Hload) |].
  destruct (current_prompt_editor_file w1) eqn:Hcur; simpl; [| exact H1].
  apply (step_trans _ _ _ H1). right. clear. frame_fields.
Qed.

Lemma append_step (u : user) (generated_text : string) (w : window) :
  settled (append_and_refresh u generated_text w)
  ∨ keeps w (append_and_refresh u generated_text w).
Proof.
  unfold append_and_refresh.
  destruct (save_target_file w) as [target |] eqn:Htarget;
    [| right; unfold show_error_message; frame_fields].
  destruct (append_file _ _ _) as [fs |] eqn:Happ;
    [| right; unfold show_error_message; frame_fields].
  set (w1 := set_status_bar _ (set_disk fs w)).
  assert (Hsame : prompt_editor_dirty w1 = prompt_editor_dirty w
                  ∧ current_prompt_editor_file w1 = current_prompt_editor_file w
                  ∧ save_target_file w1 = Some target
                  ∧ pe_editor w1 = pe_editor w ∧ disk w1 = fs)
    by (subst w1; by destruct w).
  destruct Hsame as (Hd & Hc & Ht & He & Hfs).
  assert (Hload := load_step u target w1).
  case_bool_decide as Heq.
  - (* the editor holds the target *)
    destruct (prompt_editor_dirty w1) eqn:Hdirty.
    + destruct (confirm u "File Updated").
      * destruct Hload as [Hload | [Hload _]]; [by left |].
        right. split; [auto |]. intros [Hclean _]. congruence.
      * right. split; [| intros [Hclean _]; congruence].
        intros _. rewrite <- Hdirty. clearbody w1. by destruct w1.
    + (* the editor holds the file that was just written *)
      left. apply load_with_open_file.
      rewrite <- Heq, Ht. simpl.
      unfold append_file, write_file in Happ.
      by destruct (truthy target).
  - (* another file, or none, is open: its text on disk is untouched *)
    right. split; [congruence |].
    intros [Hclean [(path & Hpath & Htruthy & Hfile) | Hclosed]].
    + split; [congruence |]. left. exists path. split; [congruence |].
      split; [done |]. rewrite He, Hfs. unfold append_file, write_file in Happ.
      destruct (_ || _); [done |]. injection Happ as <-. simpl.
      rewrite lookup_insert_ne; [done |]. congruence.
    + split; [congruence |]. right. unfold closed in *. rewrite Hc, He. done.
Qed.

Lemma save_generated_step (u : user) (w : window) :
  settled (_save_generated_prompt u w).1 ∨ keeps w (_save_generated_prompt u w).1.
Proof.
  unfold _save_generated_prompt.
  destruct (negb (valid_prompt _));
    [right; simpl; unfold show_warning_message; frame_fields |].
  destruct (save_target_file w); [apply append_step |].
  pose proof (ask_step u w) as Hask.
  destruct (_ask_save_target_file u w) as [w1 [[|] | e]]; simpl in *; try done.
  apply (step_trans _ _ _ Hask), append_step.
Qed.

Lemma save_file_step (w : window) :
  settled (_pe_save_file w) ∨ keeps w (_pe_save_file w).
Proof.
  unfold _pe_save_file.
  destruct (current_prompt_editor_file w) as [path |] eqn:Hcur;
    [| right; unfold show_warning_message; frame_fields].
  destruct (truthy path) eqn:Hpath; simpl;
    [| right; unfold show_warning_message; frame_fields].
  destruct (prompt_editor_dirty w); simpl; [| right; apply keeps_refl].
  destruct (write_file _ _ _) as [fs |] eqn:Hwrite;
    [| right; unfold show_error_message; frame_fields].
  left. unfold write_file in Hwrite. destruct (_ || _); [done |].
  injection Hwrite as <-.
  unfold settled, matches_disk, _pe_clear_dirty_flag. destruct w; simpl in *.
  split; [done |]. left. exists path. by rewrite lookup_insert_eq.
Qed.

Lemma switch_step (u : user) (row : Z) (w : window) :
  settled (switch_view u row w) ∨ keeps w (switch_view u row w).
Proof.
  unfold switch_view.
  set (w1 := setCurrentIndex row w).
  assert (H1 : settled w1 ∨ keeps w w1).
  { right. subst w1. unfold setCurrentIndex. destruct (_ && _); [frame_fields |].
    apply keeps_refl. }
  clearbody w1. apply (step_trans _ _ _ H1). clear H1 w.
  destruct (row =? PROMPT_EDITOR_VIEW_INDEX)%Z; [| right; apply keeps_refl].
  destruct (_ && _); [apply load_step |].
  destruct (_ && _).
  { destruct (close_step u true w1) as [H | [-> _]]; [by left |].
    right; apply keeps_refl. }
  destruct (negb (truthy_opt (save_target_file w1))
            && negb (truthy_opt (current_prompt_editor_file w1))) eqn:Hnone;
    [| right; apply keeps_refl].
  apply andb_prop in Hnone as [_ Hnone]. apply negb_true_iff in Hnone.
  right. unfold keeps, settled, matches_disk, closed, pe_editor_clear,
    pe_editor_setPlainText, _pe_mark_dirty.
  destruct w1; simpl in *.
  destruct (isEnabled pe_editor0) eqn:Hen, (isReadOnly pe_editor0); simpl;
    (split; [done |]);
    intros [Hclean [(path & -> & Hpath & _) | (Hc & Ht & He)]];
    simpl in *; try congruence; auto.
Qed.

Lemma nav_step (u : user) (row : Z) (w : window) :
  settled (_on_nav_changed u row w) ∨ keeps w (_on_nav_changed u row w)
  ∨ (stacked_widget w = PROMPT_EDITOR_VIEW_INDEX
     ∧ confirm u "Unsaved Changes" = true).
Proof.
  unfold _on_nav_changed.
  destruct (_ && system_prompt_editor_dirty w).
  { destruct (confirm u "Unsaved Changes").
    - assert (H1 : settled (_clear_dirty_flag w) ∨ keeps w (_clear_dirty_flag w))
        by (right; unfold _clear_dirty_flag; frame_fields).
      destruct (step_trans _ _ _ H1 (switch_step u row (_clear_dirty_flag w))); auto.
    - right; left. frame_fields. }
  destruct ((stacked_widget w =? PROMPT_EDITOR_VIEW_INDEX)%Z && prompt_editor_dirty w)
    eqn:Hgate.
  { apply andb_prop in Hgate as [Hview _]. apply Z.eqb_eq in Hview.
    destruct (confirm u "Unsaved Changes"); [by right; right |].
    right; left. frame_fields. }
  destruct (switch_step u row w); auto.
Qed.

Lemma edit_keeps_dirty (s : string) (w : window) :
  prompt_editor_dirty w = true → prompt_editor_dirty (type_in_pe_editor s w) = true.
Proof.
  intros Hdirty. unfold type_in_pe_editor.
  destruct (isEnabled (pe_editor w) && negb (isReadOnly (pe_editor w))) eqn:Hedit;
    [| done].
  unfold pe_editor_setPlainText, _pe_mark_dirty.
  destruct w as [? ? ? ? ? ? ? ? ? ? ? ? ? ? [? ? ?] ? ? ? ? ? ? ? ? ? ? ? ?];
    simpl in *.
  by rewrite Hedit.
Qed.

(** C2, as amended. An operation that finds the session dirty and
    leaves it clean is a successful save or a load (the editor then
    shows exactly what its file holds on disk), a close (the editor is
    empty, disabled and has no file), or a navigation away from the
    Prompt Editor page that the user authorised.  Such a navigation to
    another page does clear the dirty flag, and leaves the text of the
    editor, its backing path and the disk as they were: there is neither
    a close nor a reload. *)
Theorem dirty_cleared_only_by (u : user) (op : operation) (w : window) :
  prompt_editor_dirty w = true →
  let w' := perform u op w in
  (prompt_editor_dirty w' = false →
     matches_disk w' ∨ closed w'
     ∨ ∃ row, op = Navigate row
              ∧ stacked_widget w = PROMPT_EDITOR_VIEW_INDEX
              ∧ confirm u "Unsaved Changes" = true)
  ∧ (∀ row, op = Navigate row →
            stacked_widget w = PROMPT_EDITOR_VIEW_INDEX →
            nav_list w = PROMPT_EDITOR_VIEW_INDEX →
            row ∈ [GENERATOR_VIEW_INDEX; SYSTEM_PROMPTS_VIEW_INDEX; SETTINGS_VIEW_INDEX] →
            confirm u "Unsaved Changes" = true →
            prompt_editor_dirty w' = false
            ∧ stacked_widget w' = row
            ∧ pe_editor w' = pe_editor w
            ∧ current_prompt_editor_file w' = current_prompt_editor_file w
            ∧ disk w' = disk w).
Proof.
  intros Hdirty w'. split.
  - intros Hclean.
    assert (Hstep : settled w' ∨ keeps w w'
              ∨ ∃ row, op = Navigate row
                       ∧ stacked_widget w = PROMPT_EDITOR_VIEW_INDEX
                       ∧ confirm u "Unsaved Changes" = true).
    { subst w'. destruct op as [s | | | | | row]; simpl in *.
      - pose proof (edit_keeps_dirty s w Hdirty). congruence.
      - destruct (save_file_step w); auto.
      - destruct (close_step u false w) as [H | [-> _]]; [auto |].
        right; left; apply keeps_refl.
      - unfold _pe_open_file. destruct (truthy _); [| right; left; apply keeps_refl].
        destruct (_ && _); [right; left; apply keeps_refl |].
        destruct (load_step u (getOpenFileName u) w); auto.
      - destruct (save_generated_step u w); auto.
      - unfold select_nav. destruct (_ || _); [right; left; apply keeps_refl |].
        assert (H1 : settled (set_nav_list row w) ∨ keeps w (set_nav_list row w))
          by (right; frame_fields).
        destruct (nav_step u row (set_nav_list row w)) as [H | [H | [Hv Hc]]].
        + by left.
        + destruct (step_trans _ _ _ H1 (or_intror H)); auto.
        + right; right. exists row. split; [done |]. split; [| done].
          rewrite <- Hv. by destruct w. }
    destruct Hstep as [[_ H] | [[H _] | H]]; [tauto | | tauto].
    specialize (H Hdirty). congruence.
  - intros row -> Hview Hnav Hrow Hyes. subst w'. simpl.
    unfold select_nav, _on_nav_changed, switch_view, setCurrentIndex,
      _pe_clear_dirty_flag.
    destruct w; simpl in *. subst.
    rewrite Hyes.
    repeat (apply elem_of_cons in Hrow as [-> | Hrow]; [done |]).
    by apply elem_of_nil in Hrow.
Qed.

(** The session of a.txt with unsaved text, left for the Generator page
    with the user's consent. *)
Lemma dirty_cleared_only_by_witness :
  let w := Scenario.editing in
  let w' := perform Scenario.accepting (Navigate GENERATOR_VIEW_INDEX) w in
  prompt_editor_dirty w = true
  ∧ prompt_editor_dirty w' = false
  ∧ stacked_widget w' = GENERATOR_VIEW_INDEX
  ∧ pe_editor w' = pe_editor w
  ∧ current_prompt_editor_file w' = current_prompt_editor_file w
  ∧ disk w' = disk w.
Proof.
  intros w w'.
  assert (Hdirty : prompt_editor_dirty w = true) by reflexivity.
  split; [exact Hdirty |].
  apply (dirty_cleared_only_by Scenario.accepting (Navigate GENERATOR_VIEW_INDEX)
           w Hdirty);
    [reflexivity | reflexivity | reflexivity | by left | reflexivity].
Defined.

(** C2 fails as stated: an authorised navigation from the Prompt Editor
    page to the Generator page clears the dirty flag, although the file
    stays open, the typed text stays in the editor and differs from the
    text on disk (nothing was closed, loaded or saved). *)
Lemma navigation_clears_dirty_flag :
  let w := Scenario.editing in
  let w' := perform Scenario.accepting (Navigate GENERATOR_VIEW_INDEX) w in
  prompt_editor_dirty w = true
  ∧ prompt_editor_dirty w' = false
  ∧ current_prompt_editor_file w' = Some "a.txt"
  ∧ toPlainText (pe_editor w') = "draft"
  ∧ files (disk w') !! "a.txt" = Some "one"
  ∧ disk w' = disk w.
Proof. repeat split; reflexivity. Qed.

(** ** Appending generated prompts *)

Lemma append_assoc (a b c : string) : (a +:+ b) +:+ c = a +:+ b +:+ c.
Proof.
  induction a as [| x a IH]; [reflexivity |].
  change (String x ((a +:+ b) +:+ c) = String x (a +:+ b +:+ c)). by rewrite IH.
Qed.

Lemma load_success (u : user) (filepath content : string) (w : window) :
  read_file (disk w) filepath = Some content →
  let w' := _load_file_into_pe_editor u filepath w in
  save_target_file w' = Some filepath
  ∧ current_prompt_editor_file w' = Some filepath
  ∧ pe_editor w' = TextEdit content true false
  ∧ prompt_editor_dirty w' = false
  ∧ disk w' = disk w.
Proof.
  intros Hread. unfold _load_file_into_pe_editor. rewrite Hread.
  unfold pe_editor_setPlainText, _pe_mark_dirty, _pe_clear_dirty_flag.
  destruct w as [? ? ? ? ? ? ? ? ? ? ? ? ? ? [? ? ?] ? ? ? ? ? ? ? ? ? ? ? ?];
    simpl in *.
  by destruct (_ && _).
Qed.

Lemma append_file_appended (fs : filesystem) (target generated_text : string) :
  truthy target = true → target ∉ denied_write fs →
  append_file fs target
    ((if path_exists fs target && truthy (default "" (files fs !! target))
      then SEPARATOR else "") +:+ generated_text)
  = Some (Filesystem (<[target := appended fs target generated_text]> (files fs))
                     (denied_read fs) (denied_write fs)).
Proof.
  intros Htruthy Hwrite. unfold append_file, write_file, path_exists, appended.
  rewrite Htruthy, bool_decide_eq_false_2 by done. simpl. do 3 f_equal.
  destruct (files fs !! target) as [old |]; simpl; [by destruct old | done].
Qed.

Lemma close_disk (u : user) (force : bool) (w : window) :
  disk (_pe_close_file u force w).1 = disk w.
Proof.
  unfold _pe_close_file, pe_editor_clear, pe_editor_setPlainText, _pe_mark_dirty,
    _pe_clear_dirty_flag.
  destruct w as [? ? ? ? ? ? ? ? ? ? ? ? ? ? [? ? ?] ? ? ? ? ? ? ? ? ? ? ? ?];
    simpl.
  repeat case_match; simpl; try done; by case_bool_decide.
Qed.

Lemma load_disk (u : user) (filepath : string) (w : window) :
  disk (_load_file_into_pe_editor u filepath w) = disk w.
Proof.
  destruct (read_file (disk w) filepath) as [content |] eqn:Hread.
  - by destruct (load_success u filepath content w Hread) as (_ & _ & _ & _ & H).
  - unfold _load_file_into_pe_editor. rewrite Hread, close_disk. by destruct w.
Qed.

(** The window after the append, before the editor is refreshed. *)
Lemma append_refresh_cases (u : user) (generated_text target : string) (w : window) :
  save_target_file w = Some target →
  truthy target = true → target ∉ denied_write (disk w) →
  let fs := Filesystem (<[target := appended (disk w) target generated_text]>
                          (files (disk w)))
                       (denied_read (disk w)) (denied_write (disk w)) in
  let w1 := set_status_bar ("Appended to " +:+ basename target) (set_disk fs w) in
  let w' := append_and_refresh u generated_text w in
  disk w' = fs
  ∧ (w' = _load_file_into_pe_editor u target w1
     ∨ save_target_file w' = Some target)
  ∧ (current_prompt_editor_file w = Some target →
     prompt_editor_dirty w = false →
     w' = _load_file_into_pe_editor u target w1).
Proof.
  intros Htarget Htruthy Hwrite fs w1 w'. subst w'.
  unfold append_and_refresh. rewrite Htarget.
  rewrite append_file_appended by done. fold fs. fold w1.
  assert (Hsame : save_target_file w1 = Some target
                  ∧ current_prompt_editor_file w1 = current_prompt_editor_file w
                  ∧ prompt_editor_dirty w1 = prompt_editor_dirty w
                  ∧ disk w1 = fs)
    by (subst w1; by destruct w).
  destruct Hsame as (Ht & Hc & Hd & Hfs). rewrite Ht, Hc, Hd.
  split; [| split].
  - case_bool_decide; [| done].
    destruct (prompt_editor_dirty w); [destruct (confirm u "File Updated") |];
      rewrite ?load_disk; try done.
    clearbody w1. by destruct w1.
  - case_bool_decide; [| by right].
    destruct (prompt_editor_dirty w); [destruct (confirm u "File Updated") |];
      auto.
    right. clearbody w1. by destruct w1.
  - intros -> ->. by rewrite bool_decide_eq_true_2.
Qed.

Lemma read_back (fs : filesystem) (path content : string) :
  truthy path = true → path ∉ denied_read fs →
  read_file (Filesystem (<[path := content]> (files fs))
                        (denied_read fs) (denied_write fs)) path
  = Some content.
Proof.
  intros Htruthy Hread. unfold read_file, path_exists. simpl.
  rewrite Htruthy, lookup_insert_eq.
  rewrite (bool_decide_eq_false_2 (path ∈ denied_read fs)) by done.
  rewrite (bool_decide_eq_true_2 (is_Some (Some content))) by eauto.
  reflexivity.
Qed.

Lemma save_generated_appends (u : user) (target : string) (w : window) :
  save_target_file w = Some target →
  truthy target = true →
  target ∉ denied_write (disk w) → target ∉ denied_read (disk w) →
  valid_prompt (py_strip (response_display w)) = true →
  let w' := (_save_generated_prompt u w).1 in
  let fs := Filesystem (<[target := appended (disk w) target
                                      (py_strip (response_display w))]>
                          (files (disk w)))
                       (denied_read (disk w)) (denied_write (disk w)) in
  disk w' = fs
  ∧ save_target_file w' = Some target
  ∧ (current_prompt_editor_file w = Some target →
     prompt_editor_dirty w = false →
     pe_editor w' = TextEdit (appended (disk w) target (py_strip (response_display w)))
                            true false
     ∧ prompt_editor_dirty w' = false
     ∧ current_prompt_editor_file w' = Some target).
Proof.
  intros Htarget Htruthy Hwrite Hread Hvalid w' fs. subst w'.
  unfold _save_generated_prompt. rewrite Hvalid, Htarget. simpl.
  destruct (append_refresh_cases u (py_strip (response_display w)) target w
              Htarget Htruthy Hwrite) as (Hdisk & Hcases & Hclean).
  fold fs in Hdisk, Hcases, Hclean.
  set (w1 := set_status_bar _ (set_disk fs w)) in *.
  assert (Hback : read_file (disk w1) target
                  = Some (appended (disk w) target (py_strip (response_display w)))).
  { replace (disk w1) with fs by (subst w1; by destruct w).
    by apply read_back. }
  pose proof (load_success u target _ w1 Hback) as (Ht & Hc & He & Hd & _).
  split; [done |]. split.
  - destruct Hcases as [-> | H]; done.
  - intros Hcur Hdirty. by rewrite (Hclean Hcur Hdirty).
Qed.

(** C7. When the target of the append is the file open in the Prompt
    Editor and the editor is clean, saving a generated prompt (the
    append succeeding and the file being readable) reloads the editor:
    its text is the new text of the file, which ends with the appended
    prompt, its dirty flag is false and the file stays open. *)
Theorem append_reloads_clean_editor (u : user) (target : string) (w : window) :
  save_target_file w = Some target →
  current_prompt_editor_file w = Some target →
  prompt_editor_dirty w = false →
  truthy target = true →
  target ∉ denied_write (disk w) → target ∉ denied_read (disk w) →
  valid_prompt (py_strip (response_display w)) = true →
  let generated_text := py_strip (response_display w) in
  let w' := (_save_generated_prompt u w).1 in
  files (disk w') !! target = Some (appended (disk w) target generated_text)
  ∧ toPlainText (pe_editor w') = appended (disk w) target generated_text
  ∧ (∃ old, appended (disk w) target generated_text = old +:+ generated_text)
  ∧ prompt_editor_dirty w' = false
  ∧ current_prompt_editor_file w' = Some target.
Proof.
  intros Htarget Hcur Hdirty Htruthy Hwrite Hread Hvalid generated_text w'.
  destruct (save_generated_appends u target w Htarget Htruthy Hwrite Hread Hvalid)
    as (Hdisk & _ & Hclean).
  destruct (Hclean Hcur Hdirty) as (He & Hd & Hc).
  fold w' in Hdisk, He, Hd, Hc. fold generated_text in Hdisk, He.
  rewrite Hdisk, He. simpl. rewrite lookup_insert_eq.
  repeat split; try done.
  unfold appended. destruct (files (disk w) !! target) as [old |].
  - destruct (truthy old).
    + exists (old +:+ SEPARATOR). by rewrite append_assoc.
    + by exists "".
  - by exists "".
Qed.

(** a.txt, holding "one", is open and clean when the prompt "hello" is
    saved to it. *)
Lemma append_reloads_clean_editor_witness :
  let w := set_response_display "hello" Scenario.opened in
  let w' := (_save_generated_prompt Scenario.declining w).1 in
  files (disk w') !! "a.txt" = Some ("one" +:+ SEPARATOR +:+ "hello")
  ∧ toPlainText (pe_editor w') = "one" +:+ SEPARATOR +:+ "hello"
  ∧ prompt_editor_dirty w' = false
  ∧ current_prompt_editor_file w' = Some "a.txt".
Proof.
  intros w w'.
  assert (Hwrite : "a.txt" ∉ denied_write (disk w))
    by (apply (bool_decide_unpack _); vm_compute; exact I).
  assert (Hread : "a.txt" ∉ denied_read (disk w))
    by (apply (bool_decide_unpack _); vm_compute; exact I).
  destruct (append_reloads_clean_editor Scenario.declining "a.txt" w
              eq_refl eq_refl eq_refl eq_refl Hwrite Hread eq_refl)
    as (Hfile & Htext & _ & Hdirty & Hcur).
  repeat split; assumption.
Defined.

(** C6. With the generation target set to a file that does not exist
    yet or is empty, saving a generated prompt leaves exactly that
    prompt in the file, with no separator before it; saving a second
    prompt leaves the first, then two newlines, twenty "=" signs and two
    newlines, then the second.  In general the separator is written
    exactly when the target exists and is not empty at the time of the
    append (this is [appended]). *)
Theorem separator_only_after_existing_text
    (u1 u2 : user) (target second : string) (w : window) :
  save_target_file w = Some target →
  truthy target = true →
  target ∉ denied_write (disk w) → target ∉ denied_read (disk w) →
  valid_prompt (py_strip (response_display w)) = true →
  valid_prompt (py_strip second) = true →
  let w1 := (_save_generated_prompt u1 w).1 in
  let w2 := (_save_generated_prompt u2 (set_response_display second w1)).1 in
  files (disk w1) !! target
    = Some (appended (disk w) target (py_strip (response_display w)))
  ∧ (files (disk w) !! target = None ∨ files (disk w) !! target = Some "" →
     files (disk w1) !! target = Some (py_strip (response_display w))
     ∧ files (disk w2) !! target
       = Some (py_strip (response_display w)
               +:+ LF +:+ LF +:+ "====================" +:+ LF +:+ LF
               +:+ py_strip second)).
Proof.
  intros Htarget Htruthy Hwrite Hread Hvalid1 Hvalid2 w1 w2.
  destruct (save_generated_appends u1 target w Htarget Htruthy Hwrite Hread Hvalid1)
    as (Hdisk1 & Htarget1 & _).
  fold w1 in Hdisk1, Htarget1.
  assert (Hfile1 : files (disk w1) !! target
                   = Some (appended (disk w) target (py_strip (response_display w))))
    by (rewrite Hdisk1; simpl; apply lookup_insert_eq).
  split; [exact Hfile1 |].
  intros Hnew.
  assert (Hfirst : appended (disk w) target (py_strip (response_display w))
                   = py_strip (response_display w))
    by (unfold appended; destruct Hnew as [-> | ->]; reflexivity).
  rewrite Hfirst in Hfile1. split; [exact Hfile1 |].
  subst w2. set (w1' := set_response_display second w1).
  assert (Hsame : save_target_file w1' = Some target ∧ disk w1' = disk w1
                  ∧ response_display w1' = second).
  { subst w1'. rewrite <- Htarget1. clearbody w1. by destruct w1. }
  destruct Hsame as (Htarget2 & Hdisk2 & Hresp2).
  destruct (save_generated_appends u2 target w1') as (Hdisk & _ & _);
    rewrite ?Hdisk2, ?Hdisk1, ?Hresp2; try done.
  rewrite Hdisk. simpl. rewrite lookup_insert_eq.
  f_equal. unfold appended. rewrite Hdisk2, Hfile1.
  unfold valid_prompt in Hvalid1.
  destruct (truthy (py_strip (response_display w))); [| done].
  rewrite Hresp2. unfold SEPARATOR. by rewrite !append_assoc.
Qed.

(** The scenario of the specification: a.txt is new, "hello" is saved,
    then "world". *)
Lemma separator_only_after_existing_text_witness :
  let w := Scenario.hello_for_new_file in
  let w1 := (_save_generated_prompt Scenario.declining w).1 in
  let w2 := (_save_generated_prompt Scenario.declining
               (set_response_display "world" w1)).1 in
  save_target_file w = Some "a.txt"
  ∧ files (disk w) !! "a.txt" = None
  ∧ files (disk w1) !! "a.txt" = Some "hello"
  ∧ files (disk w2) !! "a.txt"
    = Some ("hello" +:+ LF +:+ LF +:+ "====================" +:+ LF +:+ LF +:+ "world").
Proof.
  intros w w1 w2.
  assert (Hwrite : "a.txt" ∉ denied_write (disk w))
    by (apply (bool_decide_unpack _); vm_compute; exact I).
  assert (Hread : "a.txt" ∉ denied_read (disk w))
    by (apply (bool_decide_unpack _); vm_compute; exact I).
  assert (Hnew : files (disk w) !! "a.txt" = None) by reflexivity.
  destruct (separator_only_after_existing_text Scenario.declining Scenario.declining
              "a.txt" "world" w eq_refl eq_refl Hwrite Hread eq_refl eq_refl)
    as (_ & Hboth).
  destruct (Hboth (or_introl Hnew)) as (Hfirst & Hsecond).
  split; [reflexivity |]. split; [exact Hnew |]. split; assumption.
Defined.

(** The same two saves when no target is set at the start: the first
    one asks for the file (the user names a.txt, which does not exist,
    so the attempt to show it in the editor ends in an error box) and
    then appends. *)
Example new_target_is_asked_for :
  let w := set_response_display "hello"
             (startup Scenario.empty_disk Scenario.no_presets Scenario.no_config) in
  let w1 := (_save_generated_prompt Scenario.choosing_a_txt w).1 in
  let w2 := (_save_generated_prompt Scenario.declining
               (set_response_display "world" w1)).1 in
  save_target_file w = None
  ∧ save_target_file w1 = Some "a.txt"
  ∧ log w1 = [Critical "File Error"]
  ∧ files (disk w1) !! "a.txt" = Some "hello"
  ∧ files (disk w2) !! "a.txt"
    = Some ("hello" +:+ LF +:+ LF +:+ "====================" +:+ LF +:+ LF +:+ "world").
Proof. repeat split; reflexivity. Qed.

(** ** Deleting presets *)

(** C8. Deleting the default preset is refused before anything is
    changed, at both levels: [delete_prompt_preset] returns [False]
    after a warning without asking for confirmation or calling
    [os.remove], and the Delete button, with the default preset
    selected, only shows a warning: the preset files, the active preset
    and the rest of the window are as before. *)
Theorem default_preset_is_not_deleted (u : user) (w : window) :
  currentItem (prompt_list_widget w) = Some PromptManager.DEFAULT_PROMPT_NAME →
  (∀ d, PromptManager.delete_prompt_preset u d PromptManager.DEFAULT_PROMPT_NAME
        = (false, d, [Warning "Delete Prevented"]))
  ∧ _delete_selected_preset u w = show_warning_message "Delete Prevented" w
  ∧ preset_dir (_delete_selected_preset u w) = preset_dir w
  ∧ active_system_prompt_file (_delete_selected_preset u w)
    = active_system_prompt_file w
  ∧ log (_delete_selected_preset u w) = log w ++ [Warning "Delete Prevented"].
Proof.
  intros Hsel.
  assert (Hwin : _delete_selected_preset u w
                 = show_warning_message "Delete Prevented" w)
    by (unfold _delete_selected_preset; by rewrite Hsel).
  split; [done |]. split; [exact Hwin |].
  rewrite Hwin. by destruct w.
Qed.

(** The preset list as first filled, with default.txt selected. *)
Lemma default_preset_is_not_deleted_witness :
  let w := Scenario.presets_listed in
  currentItem (prompt_list_widget w) = Some "default.txt"
  ∧ PromptManager.delete_prompt_preset Scenario.accepting (preset_dir w) "default.txt"
    = (false, preset_dir w, [Warning "Delete Prevented"])
  ∧ _delete_selected_preset Scenario.accepting w
    = show_warning_message "Delete Prevented" w
  ∧ log (_delete_selected_preset Scenario.accepting w)
    = log w ++ [Warning "Delete Prevented"].
Proof.
  intros w.
  assert (Hsel : currentItem (prompt_list_widget w)
                 = Some PromptManager.DEFAULT_PROMPT_NAME) by reflexivity.
  destruct (default_preset_is_not_deleted Scenario.accepting w Hsel)
    as (Hrepo & Hwin & _ & _ & Hlog).
  split; [exact Hsel |]. split; [apply Hrepo |]. split; assumption.
Defined.

(** For comparison, another preset is deleted once the user confirms:
    [os.remove] is called and the file is gone from the listing. *)
Example other_preset_is_deleted :
  let w := _delete_selected_preset Scenario.accepting Scenario.haiku_selected in
  currentItem (prompt_list_widget Scenario.haiku_selected) = Some "haiku.txt"
  ∧ log w = [OsRemove "haiku.txt"]
  ∧ PromptManager.get_prompt_presets (preset_dir w) = ["default.txt"]
  ∧ prompt_list_widget w = ListWidget ["default.txt"] 0.
Proof. repeat split; reflexivity. Qed.

End MainWindowFacts.

(** * Further properties of config_manager.py *)

Module ConfigStore.
Import Config.

(** X1. What [save_config] wrote is what [load_config] reads back: on a
    store that can be written and read, loading after saving [d]
    returns [d] completed with the defaults for the keys it lacks, and
    leaves the file as saved. *)
Theorem save_then_load (d : dict) (s : store) :
  writable s = true → readable s = true →
  load_config (save_config d s) = (save_config d s, Returns (d ∪ DEFAULT_CONFIG)).
Proof.
  intros Hw Hr. unfold load_config, save_config. rewrite Hw. simpl.
  rewrite Hr. simpl. by rewrite ConfigFacts.add_missing_defaults.
Qed.

(** Saving only a new endpoint. *)
Lemma save_then_load_witness :
  let d : dict := {["api_endpoint" := JStr "http://10.0.0.2:1234"]} in
  let s := Store None true true [] true in
  load_config (save_config d s) = (save_config d s, Returns (d ∪ DEFAULT_CONFIG)).
Proof. intros d s. apply (save_then_load d s); reflexivity. Defined.

(** X2. [load_config] never writes to a file that exists and is not
    corrupt: the keys missing from a JSON object are added to the
    returned dictionary only, the branch that would save them is never
    taken. *)
Theorem load_leaves_existing_file (s : store) (c : content) :
  file s = Some c → c ≠ Corrupt → (load_config s).1 = s.
Proof.
  intros Hfile Hc. unfold load_config. rewrite Hfile.
  destruct (readable s); simpl; [| done].
  destruct c as [| | [d | str | n | b |]]; try done; simpl.
  - by rewrite ConfigFacts.add_missing_defaults.
  - by destruct str.
Qed.

(** A file that only sets the endpoint stays as it is. *)
Lemma load_leaves_existing_file_witness :
  let c := Json (TObject {["api_endpoint" := JStr "http://10.0.0.2:1234"]}) in
  let s := Store (Some c) true true [] true in
  (load_config s).1 = s.
Proof.
  intros c s. apply (load_leaves_existing_file s c); [reflexivity | discriminate].
Defined.

(** X3. One load settles the store: loading again changes nothing more
    and gives the same result, in every state of the file (absent,
    unreadable, not an object, not writable, ...) but one.  The
    exception is a corrupt file that can be read and copied but not
    written: the defaults cannot be saved over it, so it stays corrupt
    and every load backs it up again. *)
Theorem load_config_settles (s : store) :
  ¬ (file s = Some Corrupt ∧ readable s = true ∧ writable s = false
     ∧ copyable s = true) →
  load_config (load_config s).1 = load_config s.
Proof.
  intros Hstate.
  assert (Hdef : add_missing DEFAULT_CONFIG = (DEFAULT_CONFIG, false)).
  { rewrite <- (idemp_L (∪) DEFAULT_CONFIG) at 1 2.
    apply ConfigFacts.add_missing_defaults. }
  assert (Hsaved : ∀ r b k,
            load_config (Store (Some (Json (TObject DEFAULT_CONFIG))) r true b k)
            = (Store (Some (Json (TObject DEFAULT_CONFIG))) r true b k,
               Returns DEFAULT_CONFIG)).
  { intros r b k. unfold load_config. simpl. destruct r; simpl; [| done].
    by rewrite (idemp_L (∪) DEFAULT_CONFIG), Hdef. }
  destruct s as [[c |] r w b k]; simpl in Hstate.
  - destruct r; [| reflexivity].
    destruct c as [| | t].
    + destruct w.
      * unfold load_config at 2 3. unfold save_config, backup. simpl.
        destruct k; simpl; apply Hsaved.
      * destruct k; [destruct Hstate; done |]. reflexivity.
    + reflexivity.
    + unfold load_config at 2 3. simpl.
      destruct (update DEFAULT_CONFIG t) as [final | e] eqn:Hupdate; simpl.
      * destruct t as [d | str | n | bb |]; simpl in Hupdate; try done.
        -- injection Hupdate as <-. rewrite ConfigFacts.add_missing_defaults.
           unfold load_config. simpl.
           by rewrite ConfigFacts.add_missing_defaults.
        -- destruct str; [| done]. injection Hupdate as <-. rewrite Hdef.
           unfold load_config. simpl. by rewrite Hdef.
      * unfold load_config. simpl. by rewrite Hupdate.
  - unfold load_config at 2 3. unfold save_config. simpl.
    destruct w; simpl; [apply Hsaved | reflexivity].
Qed.

(** A corrupt file that can be written: the first load backs it up and
    replaces it by the defaults, the second finds the defaults. *)
Lemma load_config_settles_witness :
  let s := Store (Some Corrupt) true true [] true in
  (load_config s).1
  = Store (Some (Json (TObject DEFAULT_CONFIG))) true true [Corrupt] true
  ∧ load_config (load_config s).1 = load_config s.
Proof.
  intros s. split; [reflexivity |].
  apply (load_config_settles s). simpl. by intros (_ & _ & ? & _).
Defined.

(** The exception: a corrupt read-only file is backed up at every load. *)
Example corrupt_read_only_file_is_backed_up_again :
  let s := Store (Some Corrupt) true false [] true in
  backups (load_config s).1 = [Corrupt]
  ∧ backups (load_config (load_config s).1).1 = [Corrupt; Corrupt]
  ∧ file (load_config (load_config s).1).1 = Some Corrupt.
Proof. repeat split; reflexivity. Qed.

End ConfigStore.

(** * Further properties of prompt_manager.py *)

Module PresetFacts.
Import PromptManager.

Lemma list_remove_Permutation (x : string) (l : list string) :
  x ∈ l → x :: list_remove x l ≡ₚ l.
Proof.
  induction l as [| y l IH]; intros Hin; [by apply elem_of_nil in Hin |].
  simpl. destruct (String.eqb_spec y x) as [-> | Hne]; [done |].
  apply elem_of_cons in Hin as [-> | Hin]; [done |].
  rewrite Permutation_swap. by rewrite IH.
Qed.

Lemma assoc_Some_fst (filename text : string) (l : list (string * string)) :
  assoc filename l = Some text → filename ∈ l.*1.
Proof.
  induction l as [| [n t] l IH]; simpl; [done |].
  destruct (String.eqb_spec n filename) as [-> | Hne]; intros H.
  - left.
  - right. auto.
Qed.

Lemma fst_assoc_Some (filename : string) (l : list (string * string)) :
  filename ∈ l.*1 → is_Some (assoc filename l).
Proof.
  induction l as [| [n t] l IH]; simpl; intros Hin; [by apply elem_of_nil in Hin |].
  destruct (String.eqb_spec n filename) as [-> | Hne]; [eauto |].
  apply elem_of_cons in Hin as [-> | Hin]; [done | auto].
Qed.

Lemma assoc_put_eq (filename text : string) (l : list (string * string)) :
  assoc filename (put_entry filename text l) = Some text.
Proof.
  induction l as [| [n t] l IH]; simpl.
  - by rewrite String.eqb_refl.
  - destruct (String.eqb_spec n filename) as [-> | Hne]; simpl.
    + by rewrite String.eqb_refl.
    + by destruct (String.eqb_spec n filename).
Qed.

Lemma assoc_put_ne (filename other text : string) (l : list (string * string)) :
  other ≠ filename → assoc other (put_entry filename text l) = assoc other l.
Proof.
  intros Hne. induction l as [| [n t] l IH]; simpl.
  - by destruct (String.eqb_spec filename other).
  - destruct (String.eqb_spec n filename) as [-> | Hn]; simpl.
    + by destruct (String.eqb_spec filename other).
    + by rewrite IH.
Qed.

Lemma assoc_filter (filename other : string) (l : list (string * string)) :
  assoc other (List.filter (λ e, negb (String.eqb e.1 filename)) l)
  = if String.eqb other filename then None else assoc other l.
Proof.
  induction l as [| [n t] l IH]; simpl; [by destruct (String.eqb other filename) |].
  destruct (String.eqb_spec n filename) as [-> | Hn]; simpl.
  - rewrite IH. destruct (String.eqb_spec other filename) as [-> | Hne]; [done |].
    by destruct (String.eqb_spec filename other).
  - rewrite IH. destruct (String.eqb_spec other filename) as [-> | Hne]; [| done].
    by destruct (String.eqb_spec n filename).
Qed.

Lemma endswith_truthy (s : string) : endswith s ".txt" = true → truthy s = true.
Proof. by destruct s. Qed.

Lemma presets_in_directory (d : directory) (f : string) :
  f ∈ get_prompt_presets d →
  endswith f ".txt" = true ∧ is_Some (lookup_entry d f).
Proof.
  unfold get_prompt_presets, lookup_entry.
  destruct (entries d) as [l |]; [| by intros ?%elem_of_nil].
  destruct (listing_denied d); [by intros ?%elem_of_nil |].
  set (files := List.filter _ _).
  assert (Hfiles : ∀ g, g ∈ files → endswith g ".txt" = true ∧ is_Some (assoc g l)).
  { intros g Hg. apply list_elem_of_In, filter_In in Hg as [Hg ?].
    split; [done |]. by apply fst_assoc_Some, list_elem_of_In. }
  case_bool_decide as Hdef; [| by apply Hfiles].
  intros Hf. apply Hfiles. by rewrite <- (list_remove_Permutation _ _ Hdef).
Qed.

(** X4. The preset list is exactly the .txt files of the directory,
    each once, in the order of the listing except that default.txt,
    when present, comes first; every listed preset exists. *)
Theorem presets_listing (d : directory) (l : list (string * string)) :
  entries d = Some l → listing_denied d = false →
  get_prompt_presets d ≡ₚ List.filter (λ f, endswith f ".txt") (l.*1)
  ∧ (DEFAULT_PROMPT_NAME ∈ l.*1 →
     head (get_prompt_presets d) = Some DEFAULT_PROMPT_NAME)
  ∧ (∀ f, f ∈ get_prompt_presets d →
          endswith f ".txt" = true ∧ is_Some (lookup_entry d f)).
Proof.
  intros Hl Hlist. split; [| split; [| apply presets_in_directory]].
  - unfold get_prompt_presets. rewrite Hl, Hlist.
    case_bool_decide as Hdef; [| done]. by apply list_remove_Permutation.
  - intros Hdef. unfold get_prompt_presets. rewrite Hl, Hlist.
    rewrite bool_decide_eq_true_2; [done |].
    apply list_elem_of_In, filter_In. split; [by apply list_elem_of_In | done].
Qed.

(** The directory of the examples lists haiku.txt before default.txt. *)
Lemma presets_listing_witness :
  get_prompt_presets Scenario.two_presets ≡ₚ ["haiku.txt"; "default.txt"]
  ∧ head (get_prompt_presets Scenario.two_presets) = Some "default.txt".
Proof.
  destruct (presets_listing Scenario.two_presets _ eq_refl eq_refl)
    as (Hperm & Hhead & _).
  split; [exact Hperm |]. apply Hhead. apply (bool_decide_unpack _). vm_compute. exact I.
Defined.

Lemma universal_newlines_plain (s : string) :
  CR ∉ list_ascii_of_string s → universal_newlines s = s.
Proof.
  induction s as [| c s IH]; [done |].
  cbn [list_ascii_of_string]. intros [Hc Hs]%not_elem_of_cons.
  cbn [universal_newlines].
  destruct (Ascii.eqb_spec c CR) as [-> | _]; [done |]. by rewrite IH.
Qed.

(** X5. Saving a preset and loading it again gives the saved text as
    reading in text mode returns it: every carriage return, alone or
    before a line feed, comes back as one line feed, so that a text
    without carriage return comes back as it was saved.  The name is
    completed with ".txt" when it lacks it; the save succeeds when the
    directory exists and the file can be written, it shows no box, the
    file it wrote decodes, and every other preset is as it was. *)
Theorem preset_save_then_load (d : directory) (filename text : string) :
  let name := if endswith filename ".txt" then filename else filename +:+ ".txt" in
  is_Some (entries d) → name ∉ write_denied d → name ∉ read_denied d →
  ∃ d', save_prompt_text d filename text = (true, d', [])
        ∧ load_raises d' name = false
        ∧ load_prompt_text d' name = (universal_newlines text, [])
        ∧ (CR ∉ list_ascii_of_string text → load_prompt_text d' name = (text, []))
        ∧ (∀ other, other ≠ name → lookup_entry d' other = lookup_entry d other).
Proof.
  intros name [l Hl] Hwrite Hread.
  assert (Htruthy : truthy name = true).
  { subst name. destruct (endswith filename ".txt") eqn:Hext.
    - by apply endswith_truthy.
    - by destruct filename. }
  unfold save_prompt_text. fold name. rewrite Hl.
  rewrite bool_decide_eq_false_2 by done.
  eexists. split; [reflexivity |].
  assert (Hload : load_prompt_text
                    (set_decodable name (set_entries (put_entry name text l) d)) name
                  = (universal_newlines text, [])).
  { unfold load_prompt_text, lookup_entry. simpl.
    rewrite Htruthy, assoc_put_eq. simpl.
    by rewrite bool_decide_eq_false_2. }
  split; [| split; [exact Hload | split]].
  - unfold load_raises. simpl.
    rewrite (bool_decide_eq_false_2 (name ∈ undecodable d ∖ {[name]}))
      by (intros [_ Hn]%elem_of_difference; by apply Hn, elem_of_singleton).
    by rewrite andb_false_r.
  - intros Hplain. by rewrite Hload, universal_newlines_plain.
  - intros other Hne. unfold lookup_entry. simpl. rewrite Hl.
    by apply assoc_put_ne.
Qed.

(** Saving a new preset under the name limerick. *)
Lemma preset_save_then_load_witness :
  ∃ d', save_prompt_text Scenario.two_presets "limerick" "Write a limerick."
        = (true, d', [])
        ∧ load_raises d' "limerick.txt" = false
        ∧ load_prompt_text d' "limerick.txt"
          = (universal_newlines "Write a limerick.", [])
        ∧ (CR ∉ list_ascii_of_string "Write a limerick." →
           load_prompt_text d' "limerick.txt" = ("Write a limerick.", []))
        ∧ (∀ other, other ≠ "limerick.txt" →
                    lookup_entry d' other = lookup_entry Scenario.two_presets other).
Proof.
  apply (preset_save_then_load Scenario.two_presets "limerick" "Write a limerick.").
  - by eexists.
  - apply (bool_decide_unpack _). vm_compute. exact I.
  - apply (bool_decide_unpack _). vm_compute. exact I.
Defined.

(** Line ends are read back as line feeds. *)
Example carriage_returns_are_read_as_line_feeds :
  universal_newlines ("a" +:+ String CR (String NL "b") +:+ String CR "c")
  = "a" +:+ String NL "b" +:+ String NL "c".
Proof. reflexivity. Qed.

(** X6. [delete_prompt_preset] returns [True] only for a preset other
    than the default one that existed and whose deletion the user
    confirmed; the file is then gone from the directory and from the
    preset list, [os.remove] was called once, for it, and the other
    presets are untouched.  When it returns [False] the directory is as
    before. *)
Theorem delete_outcome (u : user) (d : directory) (filename : string) :
  match delete_prompt_preset u d filename with
  | (true, d', shown) =>
      filename ≠ DEFAULT_PROMPT_NAME
      ∧ truthy filename = true
      ∧ confirm u "Confirm Delete" = true
      ∧ is_Some (lookup_entry d filename)
      ∧ shown = [OsRemove filename]
      ∧ lookup_entry d' filename = None
      ∧ (filename ∉ get_prompt_presets d')
      ∧ (∀ other, other ≠ filename → lookup_entry d' other = lookup_entry d other)
  | (false, d', _) => d' = d
  end.
Proof.
  unfold delete_prompt_preset.
  destruct (truthy filename) eqn:Htruthy; simpl; [| done].
  destruct (String.eqb_spec filename DEFAULT_PROMPT_NAME) as [-> | Hdef]; [done |].
  unfold lookup_entry at 1.
  destruct (entries d) as [l |] eqn:Hl; [| done].
  destruct (assoc filename l) as [text |] eqn:Hfile; [| done].
  destruct (confirm u "Confirm Delete"); [| done].
  case_bool_decide; [done |].
  assert (Hgone : lookup_entry (set_entries
            (List.filter (λ e, negb (String.eqb e.1 filename)) l) d) filename = None).
  { unfold lookup_entry. simpl. by rewrite assoc_filter, String.eqb_refl. }
  repeat split; try done.
  - unfold lookup_entry. rewrite Hl, Hfile. eauto.
  - intros Hin. apply presets_in_directory in Hin as [_ [? Hin]]. congruence.
  - intros other Hne. unfold lookup_entry. simpl. rewrite Hl, assoc_filter.
    by destruct (String.eqb_spec other filename).
Qed.

End PresetFacts.

(** * Further properties of api_client.py *)

Module ApiClientFacts.
Import ApiClient Worker.

(** X7. The model list returned by [fetch_installed_models] is sorted.
    It only holds names the server sent (so it is empty when no
    endpoint is configured, the API type is unknown or the exchange
    failed), and after a successful exchange it holds every named entry
    of the body, each as often as the body has it. *)
Theorem fetched_models_sorted (api_endpoint api_type api_key : string)
    (net : exchange models_body) :
  let models := (fetch_installed_models api_endpoint api_type api_key net).1 in
  Sorted String.le models
  ∧ (∀ m, m ∈ models →
          truthy api_endpoint = true ∧ supported api_type
          ∧ ∃ entries, net = Body entries ∧ Some m ∈ entries)
  ∧ (∀ entries, truthy api_endpoint = true → supported api_type →
                net = Body entries → models ≡ₚ omap id entries).
Proof.
  intros models. subst models. unfold fetch_installed_models.
  assert (Hmem : ∀ (entries : models_body) m,
            m ∈ merge_sort String.le (omap id entries) → Some m ∈ entries).
  { intros entries m Hm. rewrite merge_sort_Permutation in Hm.
    apply list_elem_of_omap in Hm as (x & Hx & Hid). simpl in Hid. by subst. }
  destruct (truthy api_endpoint); simpl;
    [| split; [constructor | split; [by intros m ?%elem_of_nil | done]]].
  destruct (String.eqb_spec api_type "Ollama") as [-> | Hollama].
  { destruct net as [[] | entries]; simpl;
      try (split; [constructor | split; [by intros m ?%elem_of_nil | done]]).
    split; [apply (Sorted_merge_sort _) | split].
    - intros m Hm. split; [done |]. split; [by left |]. eauto.
    - intros ? _ _ [= <-]. apply merge_sort_Permutation. }
  destruct (String.eqb_spec api_type "OpenAI") as [-> | Hopenai].
  { destruct net as [[] | entries]; simpl;
      try (split; [constructor | split; [by intros m ?%elem_of_nil | done]]).
    split; [apply (Sorted_merge_sort _) | split].
    - intros m Hm. split; [done |]. split; [by right |]. eauto.
    - intros ? _ _ [= <-]. apply merge_sort_Permutation. }
  split; [constructor | split; [by intros m ?%elem_of_nil |]].
  intros entries _ [? | ?]; done.
Qed.

(** X8. [generate_text] reports a response only when an endpoint and a
    model are set and the server answered with a body: for Ollama after
    the prompt template was formatted, the text being the body's
    "response" field (empty if absent); for OpenAI the stripped content
    of the first choice.  Every other case is an error dictionary. *)
Theorem response_only_from_body
    (str_format : string → string → string → format_result)
    (api_endpoint api_type selected_model : string)
    (system_prompt_content user_input example_text api_key : string)
    (net : exchange generation_body) (text : string) :
  generate_text str_format api_endpoint api_type selected_model
                system_prompt_content user_input example_text api_key net
  = Response text →
  truthy api_endpoint = true ∧ truthy selected_model = true
  ∧ ∃ b, net = Body b
         ∧ ((api_type = "Ollama"
             ∧ (∃ p, str_format system_prompt_content example_text user_input
                     = Formatted p)
             ∧ text = default "" (response_field b))
            ∨ (api_type = "OpenAI"
               ∧ ∃ content, first_choice_content b = Some content
                            ∧ text = py_strip (default "" content))).
Proof.
  unfold generate_text.
  destruct (truthy api_endpoint); simpl; [| done].
  destruct (truthy selected_model); simpl; [| done].
  destruct (String.eqb_spec api_type "Ollama") as [-> | Hollama].
  { destruct (str_format _ _ _) as [p | |] eqn:Hfmt; try done.
    destruct net as [[] | b]; try done. intros [= <-].
    split; [done |]. split; [done |]. exists b. split; [done |]. left. eauto. }
  destruct (String.eqb_spec api_type "OpenAI") as [-> | Hopenai]; [| done].
  destruct net as [[] | b]; try done.
  destruct (first_choice_content b) as [content |] eqn:Hchoice; [| done].
  intros [= <-]. split; [done |]. split; [done |]. exists b. split; [done |].
  right. eauto.
Qed.

(** An OpenAI-compatible server answers with one choice. *)
Lemma response_only_from_body_witness :
  let fmt := λ tpl _ _ : string, Formatted tpl in
  let b := GenerationBody None (Some (Some " A cat on a mat. ")) in
  truthy "http://127.0.0.1:1234" = true ∧ truthy "mistral" = true
  ∧ ∃ b', Body b = Body b'
          ∧ (("OpenAI" = "Ollama"
              ∧ (∃ p, fmt "Describe." "examples" "a cat" = Formatted p)
              ∧ "A cat on a mat." = default "" (response_field b'))
             ∨ ("OpenAI" = "OpenAI"
                ∧ ∃ content, first_choice_content b' = Some content
                             ∧ "A cat on a mat." = py_strip (default "" content))).
Proof.
  intros fmt b.
  apply (response_only_from_body fmt "http://127.0.0.1:1234" "OpenAI" "mistral"
           "Describe." "a cat" "examples" "" (Body b) "A cat on a mat.").
  reflexivity.
Defined.

End ApiClientFacts.

(** * Properties of the string methods *)

Module StringFacts.

Lemma append_cons (c : ascii) (a b : string) :
  String c a +:+ b = String c (a +:+ b).
Proof. reflexivity. Qed.

Lemma append_nil_r (s : string) : s +:+ "" = s.
Proof. induction s as [| c s IH]; [done |]. by rewrite append_cons, IH. Qed.

Lemma rev_app_append (s t : string) : String.rev_app s t = String.rev s +:+ t.
Proof.
  unfold String.rev. revert t.
  induction s as [| c s IH]; intros t; simpl; [done |].
  rewrite (IH (String c t)), (IH (String c "")). by rewrite MainWindowFacts.append_assoc.
Qed.

Lemma rev_cons (c : ascii) (s : string) :
  String.rev (String c s) = String.rev s +:+ String c "".
Proof. unfold String.rev at 1. simpl. apply rev_app_append. Qed.

Lemma rev_append (a b : string) :
  String.rev (a +:+ b) = String.rev b +:+ String.rev a.
Proof.
  induction a as [| c a IH].
  - by rewrite append_nil_r.
  - by rewrite append_cons, !rev_cons, IH, MainWindowFacts.append_assoc.
Qed.

Lemma rev_involutive (s : string) : String.rev (String.rev s) = s.
Proof.
  induction s as [| c s IH]; [done |].
  by rewrite rev_cons, rev_append, IH.
Qed.

Section Strip.

Variable drop : ascii → bool.

Lemma lstrip_kept (c : ascii) (s : string) :
  drop c = false → lstrip_with drop (String c s) = String c s.
Proof. intros H. simpl. by rewrite H. Qed.

Lemma lstrip_cases (s : string) :
  lstrip_with drop s = ""
  ∨ ∃ c s', lstrip_with drop s = String c s' ∧ drop c = false.
Proof.
  induction s as [| c s IH]; simpl; [by left |].
  destruct (drop c) eqn:Hc; [done | right; eauto].
Qed.

Lemma lstrip_idemp (s : string) :
  lstrip_with drop (lstrip_with drop s) = lstrip_with drop s.
Proof.
  destruct (lstrip_cases s) as [-> | (c & s' & -> & Hc)]; [done |].
  by apply lstrip_kept.
Qed.

Lemma lstrip_snoc (s : string) (c : ascii) :
  drop c = false →
  lstrip_with drop (s +:+ String c "") = lstrip_with drop s +:+ String c "".
Proof.
  intros Hc. induction s as [| x s IH].
  - simpl. by rewrite Hc.
  - rewrite append_cons. simpl. destruct (drop x); [done |].
    by rewrite append_cons.
Qed.

Lemma rstrip_kept_head (c : ascii) (s : string) :
  drop c = false →
  String.rev (lstrip_with drop (String.rev (String c s)))
  = String c (String.rev (lstrip_with drop (String.rev s))).
Proof.
  intros Hc. by rewrite rev_cons, lstrip_snoc, rev_append.
Qed.

(** Stripping twice is stripping once. *)
Lemma strip_idemp (s : string) :
  strip_with drop (strip_with drop s) = strip_with drop s.
Proof.
  unfold strip_with.
  set (t := lstrip_with drop s).
  assert (Hhead : lstrip_with drop (String.rev (lstrip_with drop (String.rev t)))
                  = String.rev (lstrip_with drop (String.rev t))).
  { subst t. destruct (lstrip_cases s) as [-> | (c & s' & -> & Hc)]; [done |].
    rewrite rstrip_kept_head by done. by apply lstrip_kept. }
  by rewrite Hhead, rev_involutive, lstrip_idemp.
Qed.

(** A string that neither starts nor ends with a dropped character is
    left alone. *)
Lemma strip_fixed (c : ascii) (s : string) :
  drop c = false →
  lstrip_with drop (String.rev (String c s)) = String.rev (String c s) →
  strip_with drop (String c s) = String c s.
Proof.
  intros Hc Hend. unfold strip_with.
  by rewrite (lstrip_kept c s Hc), Hend, rev_involutive.
Qed.

End Strip.

End StringFacts.

(** * Properties of utils.py *)

Module UtilsFacts.
Import Utils StringFacts.

Lemma string_length_append (a b : string) :
  String.length (a +:+ b) = String.length a + String.length b.
Proof. induction a as [| c a IH]; [done |]. rewrite append_cons. simpl. by rewrite IH. Qed.

Lemma lstrip_suffix (drop : ascii → bool) (s : string) :
  ∃ m, s = m +:+ lstrip_with drop s.
Proof.
  induction s as [| c s [m IH]]; [by exists "" |].
  simpl. destruct (drop c); [| by exists ""].
  exists (String c m). by rewrite append_cons, <- IH.
Qed.

Lemma match_literal_suffix (literal s rest : string) :
  match_literal literal s = Some rest → ∃ m, s = m +:+ rest.
Proof.
  revert s. induction literal as [| a literal IH]; intros s; simpl.
  - intros [= ->]. by exists "".
  - destruct s as [| c s]; [done |].
    destruct (Ascii.eqb _ _); [| done].
    intros [m ->]%IH. by exists (String c m).
Qed.

(** After white space is skipped, a literal matches a suffix. *)
Lemma spaced_literal_suffix (literal s rest : string) :
  match_literal literal (skip_spaces s) = Some rest → ∃ m, s = m +:+ rest.
Proof.
  intros [m2 H2]%match_literal_suffix.
  destruct (lstrip_suffix py_isspace s) as [m1 H1].
  exists (m1 +:+ m2). rewrite MainWindowFacts.append_assoc.
  unfold skip_spaces in H2. by rewrite <- H2.
Qed.

Lemma close_tag_suffix (s rest : string) :
  close_tag s = Some rest → ∃ m, s = m +:+ rest.
Proof.
  unfold close_tag, mbind, option_bind. intros H.
  destruct (match_literal "<" s) as [s1 |] eqn:H1; [| done].
  destruct (match_literal "/" (skip_spaces s1)) as [s2 |] eqn:H2; [| done].
  destruct (match_literal "think" (skip_spaces s2)) as [s3 |] eqn:H3; [| done].
  apply match_literal_suffix in H1 as [m1 ->].
  apply spaced_literal_suffix in H2 as [m2 ->].
  apply spaced_literal_suffix in H3 as [m3 ->].
  apply spaced_literal_suffix in H as [m4 ->].
  exists (m1 +:+ m2 +:+ m3 +:+ m4). by rewrite !MainWindowFacts.append_assoc.
Qed.

Lemma find_close_suffix (s rest : string) :
  find_close s = Some rest → ∃ m, s = m +:+ rest.
Proof.
  induction s as [| c s IH]; cbn [find_close].
  - destruct (close_tag "") eqn:Hc; [| done]. intros [= ->].
    by apply close_tag_suffix.
  - destruct (close_tag (String c s)) eqn:Hc.
    + intros [= ->]. by apply close_tag_suffix.
    + intros [m ->]%IH. by exists (String c m).
Qed.

Lemma match_at_suffix (s rest : string) :
  match_at s = Some rest → ∃ c m, s = String c m +:+ rest.
Proof.
  unfold match_at, open_tag, mbind, option_bind. intros H.
  destruct s as [| c s]; [done |].
  destruct (match_literal "<" (String c s)) as [s1 |] eqn:H1; [| done].
  assert (s1 = s) as ->.
  { cbn [match_literal] in H1.
    destruct (Ascii.eqb (ascii_lower "<") (ascii_lower c)); [| done].
    by injection H1. }
  destruct (match_literal "think" (skip_spaces s)) as [s2 |] eqn:H2; [| done].
  destruct (match_literal ">" (skip_spaces s2)) as [s3 |] eqn:H3; [| done].
  apply spaced_literal_suffix in H2 as [m2 ->].
  apply spaced_literal_suffix in H3 as [m3 ->].
  apply find_close_suffix in H as [m4 ->].
  exists c, (m2 +:+ m3 +:+ m4). by rewrite append_cons, !MainWindowFacts.append_assoc.
Qed.

Lemma sub_think_skip (m rest : string) :
  sub_think (String.length m) (m +:+ rest) = sub_think 0 rest.
Proof. induction m as [| c m IH]; [done |]. by rewrite append_cons. Qed.

(** The two equations of the scan: a match is dropped and the scan goes
    on behind it; elsewhere the character is kept. *)
Lemma sub_think_match (s rest : string) :
  match_at s = Some rest → sub_think 0 s = sub_think 0 rest.
Proof.
  intros Hmatch. destruct (match_at_suffix s rest Hmatch) as (c & m & ->).
  rewrite append_cons in Hmatch |- *.
  cbn [sub_think]. rewrite Hmatch.
  replace (String.length (String c (m +:+ rest)) - String.length rest - 1)
    with (String.length m); [apply sub_think_skip |].
  cbn [String.length]. rewrite string_length_append. lia.
Qed.

Lemma sub_think_keep (c : ascii) (s : string) :
  match_at (String c s) = None →
  sub_think 0 (String c s) = String c (sub_think 0 s).
Proof. intros H. cbn [sub_think]. by rewrite H. Qed.

Lemma lower_is_lt (c : ascii) : ascii_lower c = "<"%char → c = "<"%char.
Proof.
  destruct c as [[] [] [] [] [] [] [] []]; vm_compute; congruence.
Qed.

Lemma no_tag_at (c : ascii) (s : string) :
  c ≠ "<"%char → open_tag (String c s) = None ∧ close_tag (String c s) = None.
Proof.
  intros Hc.
  assert (H : match_literal "<" (String c s) = None).
  { cbn [match_literal].
    destruct (Ascii.eqb_spec (ascii_lower "<") (ascii_lower c)) as [Heq | _];
      [| done].
    destruct Hc. apply lower_is_lt. by rewrite <- Heq. }
  unfold open_tag, close_tag. by rewrite H.
Qed.

Lemma sub_think_plain (s : string) :
  "<"%char ∉ list_ascii_of_string s → sub_think 0 s = s.
Proof.
  induction s as [| c s IH]; [done |]. cbn [list_ascii_of_string].
  intros Hnot. apply not_elem_of_cons in Hnot as [Hc Hs].
  rewrite sub_think_keep; [by rewrite IH |].
  unfold match_at. by rewrite (proj1 (no_tag_at c s (not_eq_sym Hc))).
Qed.

Lemma find_close_behind (b cl rest : string) :
  "<"%char ∉ list_ascii_of_string b →
  close_tag (cl +:+ rest) = Some rest →
  find_close (b +:+ cl +:+ rest) = Some rest.
Proof.
  intros Hb Hcl. induction b as [| c b IH].
  - change ("" +:+ cl +:+ rest) with (cl +:+ rest).
    destruct (cl +:+ rest); cbn [find_close]; by rewrite Hcl.
  - cbn [list_ascii_of_string] in Hb. apply not_elem_of_cons in Hb as [Hc Hb].
    rewrite append_cons. cbn [find_close].
    rewrite (proj2 (no_tag_at c _ (not_eq_sym Hc))). by apply IH.
Qed.

(** X9. A response without the character "<" is only stripped of the
    white space around it. *)
Theorem plain_response_is_stripped (text : string) :
  "<"%char ∉ list_ascii_of_string text →
  process_response text = py_strip text.
Proof. intros H. unfold process_response. by rewrite sub_think_plain. Qed.

(** A generated prompt followed by a newline. *)
Lemma plain_response_is_stripped_witness :
  process_response (" A cat on a mat." +:+ String (ascii_of_nat 10) "")
  = "A cat on a mat.".
Proof.
  rewrite plain_response_is_stripped; [reflexivity |].
  apply (bool_decide_unpack _). vm_compute. exact I.
Defined.

(** X10. What [process_response] returns has no white space left to
    strip: stripping it again changes nothing. *)
Theorem processed_response_is_stripped (text : string) :
  py_strip (process_response text) = process_response text.
Proof. apply strip_idemp. Qed.

(** X11. A think block is dropped whatever the case of the tag name and
    the white space inside the tags: if [opening] and [closing] match
    the two tag patterns and neither the text [before] nor the [thought]
    holds a "<", then the text before stays, the block goes, and the scan
    goes on with the text [after]. *)
Theorem think_block_is_removed (opening closing before thought after : string) :
  (∀ x, open_tag (opening +:+ x) = Some x) →
  (∀ x, close_tag (closing +:+ x) = Some x) →
  "<"%char ∉ list_ascii_of_string before →
  "<"%char ∉ list_ascii_of_string thought →
  sub_think 0 (before +:+ opening +:+ thought +:+ closing +:+ after)
  = before +:+ sub_think 0 after
  ∧ process_response (before +:+ opening +:+ thought +:+ closing +:+ after)
    = py_strip (before +:+ sub_think 0 after).
Proof.
  intros Hopen Hclose Hbefore Hthought.
  assert (Hsub : sub_think 0 (before +:+ opening +:+ thought +:+ closing +:+ after)
                 = before +:+ sub_think 0 after).
  { induction before as [| c before IH].
    - change ("" +:+ ?x) with x. apply sub_think_match.
      unfold match_at. rewrite Hopen. simpl.
      by apply find_close_behind.
    - cbn [list_ascii_of_string] in Hbefore.
      apply not_elem_of_cons in Hbefore as [Hc Hbefore].
      rewrite !append_cons, sub_think_keep; [by rewrite IH |].
      unfold match_at. by rewrite (proj1 (no_tag_at c _ (not_eq_sym Hc))). }
  split; [exact Hsub |]. unfold process_response. by rewrite Hsub.
Qed.

(** An upper-case block with spaces in its tags, between two sentences. *)
Lemma think_block_is_removed_witness :
  process_response ("Sure. " +:+ "< THINK >" +:+ "let me see" +:+ "</ think >"
                    +:+ "A cat on a mat. ")
  = "Sure. A cat on a mat.".
Proof.
  destruct (think_block_is_removed "< THINK >" "</ think >" "Sure. " "let me see"
              "A cat on a mat. ") as [_ H].
  - intros x. reflexivity.
  - intros x. reflexivity.
  - apply (bool_decide_unpack _). vm_compute. exact I.
  - apply (bool_decide_unpack _). vm_compute. exact I.
  - rewrite H. reflexivity.
Defined.

(** The example at the end of utils.py. *)
Example process_response_example :
  let LF := String (ascii_of_nat 10) "" in
  process_response
    ("Some text <think>This is thinking</think> More text." +:+ LF
     +:+ "< THINK >" +:+ LF +:+ "Another thought" +:+ LF
     +:+ "</ THINK > Final words.")
  = "Some text  More text." +:+ LF +:+ " Final words.".
Proof. reflexivity. Qed.

End UtilsFacts.

(** * Further properties of the Prompt Editor session *)

Module SessionFacts.
Import MainWindow Session MainWindowFacts.

(** ** The controls follow the session *)

Ltac frame_consistent :=
  match goal with
  | H : consistent ?w |- consistent _ =>
      revert H; destruct w; unfold consistent; simpl; intuition congruence
  end.

Lemma startup_consistent (fs : filesystem) (dir : PromptManager.directory)
    (store : Config.store) :
  consistent (startup fs dir store).
Proof. unfold consistent. simpl. repeat split; done. Qed.

Lemma close_consistent (u : user) (force : bool) (w : window) :
  consistent w → consistent (_pe_close_file u force w).1.
Proof.
  intros Hok. unfold _pe_close_file.
  destruct (negb (truthy_opt (current_prompt_editor_file w))); [done |].
  destruct (_ && _); [done |]. simpl.
  unfold consistent, pe_editor_clear, pe_editor_setPlainText, _pe_mark_dirty,
    _pe_clear_dirty_flag in *.
  destruct w as [? ? ? ? ? ? ? ? ? ? ? ? ? ? [? en ro] ? ? ? ? ? ? ? ? ? ? ? ?];
    simpl in *.
  destruct en, ro; simpl; destruct (bool_decide (_ = _)); simpl;
    repeat split; done.
Qed.

Lemma load_consistent (u : user) (filepath : string) (w : window) :
  consistent w → consistent (_load_file_into_pe_editor u filepath w).
Proof.
  intros Hok. unfold _load_file_into_pe_editor.
  destruct (read_file (disk w) filepath) as [content |] eqn:Hread.
  - apply read_file_Some in Hread as [Htruthy _].
    unfold consistent, pe_editor_setPlainText, _pe_mark_dirty, _pe_clear_dirty_flag.
    destruct w as [? ? ? ? ? ? ? ? ? ? ? ? ? ? [? en ro] ? ? ? ? ? ? ? ? ? ? ? ?];
      simpl in *.
    destruct (en && negb ro); simpl; repeat split; try done;
      intros [= ->]; done.
  - apply close_consistent. unfold show_error_message. frame_consistent.
Qed.

Lemma ask_consistent (u : user) (w : window) :
  consistent w → consistent (_ask_save_target_file u w).1.
Proof.
  intros Hok. unfold _ask_save_target_file.
  destruct (truthy (getSaveFileName u)); [| simpl; frame_consistent].
  assert (H1 : consistent (set_save_target_file (Some (getSaveFileName u)) w))
    by frame_consistent.
  set (w1 := set_save_target_file _ w) in *. clearbody w1.
  destruct (prompt_editor_dirty w1); [| by apply load_consistent].
  destruct (confirm u "Unsaved Changes"); [by apply load_consistent |].
  destruct (current_prompt_editor_file w1) eqn:Hcur; simpl; [| done].
  revert H1 Hcur. destruct w1; unfold consistent; simpl. intros H ->. exact H.
Qed.

Lemma append_consistent (u : user) (generated_text : string) (w : window) :
  consistent w → consistent (append_and_refresh u generated_text w).
Proof.
  intros Hok. unfold append_and_refresh.
  destruct (save_target_file w) as [target |];
    [| unfold show_error_message; frame_consistent].
  destruct (append_file _ _ _) as [fs |];
    [| unfold show_error_message; frame_consistent].
  assert (H1 : consistent (set_status_bar ("Appended to " +:+ basename target)
                             (set_disk fs w))) by frame_consistent.
  set (w1 := set_status_bar _ _) in *. clearbody w1.
  case_bool_decide; [| done].
  destruct (prompt_editor_dirty w1); [| by apply load_consistent].
  destruct (confirm u "File Updated"); [by apply load_consistent |].
  frame_consistent.
Qed.

Lemma switch_consistent (u : user) (row : Z) (w : window) :
  consistent w → consistent (switch_view u row w).
Proof.
  intros Hok. unfold switch_view.
  assert (H1 : consistent (setCurrentIndex row w))
    by (unfold setCurrentIndex; destruct (_ && _); [frame_consistent | done]).
  set (w1 := setCurrentIndex row w) in *. clearbody w1.
  destruct (row =? PROMPT_EDITOR_VIEW_INDEX)%Z; [| done].
  destruct (_ && _); [by apply load_consistent |].
  destruct (_ && _); [by apply close_consistent |].
  destruct (negb (truthy_opt (save_target_file w1))
            && negb (truthy_opt (current_prompt_editor_file w1))) eqn:Hnone;
    [| done].
  apply andb_prop in Hnone as [_ Hnone]. apply negb_true_iff in Hnone.
  unfold consistent, pe_editor_clear, pe_editor_setPlainText, _pe_mark_dirty in *.
  destruct w1 as [? ? ? ? ? ? ? ? ? ? ? cur ? ? [? en ro] ? ? ? ? ? ? ? ? ? ? ? ?];
    simpl in *.
  destruct cur as [[| c path] |]; simpl in *; [by destruct H1 | done |].
  destruct H1 as (_ & -> & -> & H1). simpl in *. repeat split; try done.
  all: destruct H1 as (_ & _ & H1); destruct prompt_editor_dirty0; auto.
Qed.

Lemma perform_consistent (u : user) (op : operation) (w : window) :
  consistent w → consistent (perform u op w).
Proof.
  intros Hok. destruct op as [s | | | | | row]; simpl.
  - unfold type_in_pe_editor.
    destruct (isEnabled (pe_editor w) && negb (isReadOnly (pe_editor w))) eqn:Hedit;
      [| done].
    unfold consistent, pe_editor_setPlainText, _pe_mark_dirty in *.
    destruct w as [? ? ? ? ? ? ? ? ? ? ? ? ? ? [? en ro] ? ? ? ? ? ? ? ? ? ? ? ?];
      simpl in *.
    rewrite Hedit. simpl. apply andb_prop in Hedit as [-> _].
    destruct Hok as (? & <- & ? & ? & ? & ?). repeat split; done.
  - unfold _pe_save_file.
    destruct (current_prompt_editor_file w) as [path |] eqn:Hcur;
      [| unfold show_warning_message; frame_consistent].
    destruct (truthy path); simpl; [| unfold show_warning_message; frame_consistent].
    destruct (prompt_editor_dirty w) eqn:Hdirty; simpl; [| done].
    destruct (write_file _ _ _); [| unfold show_error_message; frame_consistent].
    unfold _pe_clear_dirty_flag. revert Hok Hcur.
    destruct w; unfold consistent; simpl. intros H ->. intuition congruence.
  - by apply close_consistent.
  - unfold _pe_open_file. destruct (truthy _); [| done].
    destruct (_ && _); [done | by apply load_consistent].
  - unfold _save_generated_prompt.
    destruct (negb _); [simpl; unfold show_warning_message; frame_consistent |].
    destruct (save_target_file w); [by apply append_consistent |].
    pose proof (ask_consistent u w Hok) as Hask.
    destruct (_ask_save_target_file u w) as [w1 [[|] | e]]; simpl in *; try done.
    by apply append_consistent.
  - unfold select_nav. destruct (_ || _); [done |].
    assert (H1 : consistent (set_nav_list row w)) by frame_consistent.
    set (w1 := set_nav_list row w) in *. clearbody w1.
    unfold _on_nav_changed.
    destruct (_ && system_prompt_editor_dirty w1).
    { destruct (confirm u "Unsaved Changes"); [| frame_consistent].
      apply switch_consistent. unfold _clear_dirty_flag. frame_consistent. }
    destruct (_ && prompt_editor_dirty w1); [| by apply switch_consistent].
    destruct (confirm u "Unsaved Changes"); [| frame_consistent].
    apply switch_consistent. unfold _pe_clear_dirty_flag. frame_consistent.
Qed.

(** X12. In every window that the operations build from a fresh start,
    the controls of the Prompt Editor page agree with the session: the
    editor is enabled and writable exactly when a file is open, Close
    File is enabled exactly then, Save Changes is enabled exactly when
    the session is dirty, and a dirty session has a file open. *)
Theorem reachable_consistent (w : window) : reachable w → consistent w.
Proof.
  induction 1 as [fs dir store | u op w _ IH].
  - apply startup_consistent.
  - by apply perform_consistent.
Qed.

(** The session in which the user typed over a.txt. *)
Lemma reachable_consistent_witness : consistent Scenario.editing.
Proof.
  apply reachable_consistent.
  change (reachable
    (perform Scenario.declining (Edit "draft")
       (perform (User (λ _, false) "" "a.txt") OpenFile
          (perform Scenario.declining (Navigate PROMPT_EDITOR_VIEW_INDEX)
             (startup Scenario.one_file Scenario.no_presets Scenario.no_config))))).
  repeat constructor.
Defined.

(** ** Saving and reading back *)

(** X13. Round trip: saving the dirty editor writes exactly its text to
    its file and to no other, and clears the dirty flag; loading the
    same path afterwards gives the editor the text that was saved. *)
Theorem pe_save_then_load (u : user) (path : string) (w : window) :
  current_prompt_editor_file w = Some path →
  truthy path = true →
  prompt_editor_dirty w = true →
  path ∉ denied_write (disk w) → path ∉ denied_read (disk w) →
  let w1 := _pe_save_file w in
  let w2 := _load_file_into_pe_editor u path w1 in
  files (disk w1) !! path = Some (toPlainText (pe_editor w))
  ∧ (∀ other, other ≠ path → files (disk w1) !! other = files (disk w) !! other)
  ∧ prompt_editor_dirty w1 = false
  ∧ pe_editor w1 = pe_editor w
  ∧ toPlainText (pe_editor w2) = toPlainText (pe_editor w)
  ∧ prompt_editor_dirty w2 = false
  ∧ current_prompt_editor_file w2 = Some path.
Proof.
  intros Hcur Htruthy Hdirty Hwrite Hread w1 w2.
  assert (Hsave : w1 = _pe_clear_dirty_flag
            (set_status_bar ("Saved: " +:+ basename path)
               (set_disk (Filesystem (<[path := toPlainText (pe_editor w)]>
                                        (files (disk w)))
                                     (denied_read (disk w)) (denied_write (disk w)))
                         w))).
  { subst w1. unfold _pe_save_file, write_file.
    rewrite Hcur, Htruthy, Hdirty. simpl.
    by rewrite bool_decide_eq_false_2. }
  assert (Hfields : disk w1 = Filesystem (<[path := toPlainText (pe_editor w)]>
                                            (files (disk w)))
                                         (denied_read (disk w)) (denied_write (disk w))
                    ∧ prompt_editor_dirty w1 = false ∧ pe_editor w1 = pe_editor w)
    by (rewrite Hsave; by destruct w).
  destruct Hfields as (Hdisk & Hclean & Heditor).
  assert (Hback : read_file (disk w1) path = Some (toPlainText (pe_editor w)))
    by (rewrite Hdisk; by apply read_back).
  destruct (load_success u path _ w1 Hback) as (_ & Hc2 & He2 & Hd2 & _).
  fold w2 in Hc2, He2, Hd2.
  rewrite Hdisk, He2. simpl. rewrite lookup_insert_eq.
  repeat split; try done.
  intros other Hne. by rewrite lookup_insert_ne.
Qed.

(** The text typed over a.txt is saved and read back. *)
Lemma pe_save_then_load_witness :
  let w := Scenario.editing in
  let w1 := _pe_save_file w in
  let w2 := _load_file_into_pe_editor Scenario.declining "a.txt" w1 in
  files (disk w) !! "a.txt" = Some "one"
  ∧ files (disk w1) !! "a.txt" = Some "draft"
  ∧ prompt_editor_dirty w1 = false
  ∧ toPlainText (pe_editor w2) = "draft"
  ∧ prompt_editor_dirty w2 = false.
Proof.
  intros w w1 w2.
  assert (Hwrite : "a.txt" ∉ denied_write (disk w))
    by (apply (bool_decide_unpack _); vm_compute; exact I).
  assert (Hread : "a.txt" ∉ denied_read (disk w))
    by (apply (bool_decide_unpack _); vm_compute; exact I).
  destruct (pe_save_then_load Scenario.declining "a.txt" w
              eq_refl eq_refl eq_refl Hwrite Hread)
    as (H1 & _ & H2 & _ & H3 & H4 & _).
  split; [reflexivity |]. repeat split; assumption.
Defined.

(** ** What is written to disk *)

Lemma close_target (u : user) (force : bool) (w : window) :
  save_target_file (_pe_close_file u force w).1 = save_target_file w
  ∨ save_target_file (_pe_close_file u force w).1 = None.
Proof.
  unfold _pe_close_file, pe_editor_clear, pe_editor_setPlainText, _pe_mark_dirty,
    _pe_clear_dirty_flag.
  destruct w as [? ? ? ? ? ? ? ? ? ? ? ? ? ? [? ? ?] ? ? ? ? ? ? ? ? ? ? ? ?];
    simpl.
  repeat case_match; simpl; auto; case_bool_decide; simpl; auto.
Qed.

Lemma load_target (u : user) (filepath : string) (w : window) :
  save_target_file (_load_file_into_pe_editor u filepath w) = Some filepath
  ∨ save_target_file (_load_file_into_pe_editor u filepath w) = save_target_file w
  ∨ save_target_file (_load_file_into_pe_editor u filepath w) = None.
Proof.
  destruct (read_file (disk w) filepath) as [content |] eqn:Hread.
  - left. by destruct (load_success u filepath content w Hread) as (H & _).
  - right. unfold _load_file_into_pe_editor. rewrite Hread.
    destruct (close_target u true (show_error_message "File Error" w)) as [-> | ->];
      [left; by destruct w | by right].
Qed.

Lemma ask_disk (u : user) (w : window) :
  disk (_ask_save_target_file u w).1 = disk w
  ∧ ∀ target, save_target_file (_ask_save_target_file u w).1 = Some target →
              target = getSaveFileName u.
Proof.
  unfold _ask_save_target_file.
  destruct (truthy (getSaveFileName u)); [| simpl; by destruct w].
  set (w1 := set_save_target_file (Some (getSaveFileName u)) w).
  assert (H1 : disk w1 = disk w ∧ save_target_file w1 = Some (getSaveFileName u))
    by (subst w1; by destruct w).
  destruct H1 as [Hd Ht].
  assert (Hload : disk (_load_file_into_pe_editor u (getSaveFileName u) w1) = disk w
            ∧ ∀ target,
                save_target_file (_load_file_into_pe_editor u (getSaveFileName u) w1)
                = Some target → target = getSaveFileName u).
  { rewrite load_disk. split; [done |]. intros target.
    destruct (load_target u (getSaveFileName u) w1) as [-> | [-> | ->]];
      congruence. }
  clearbody w1.
  destruct (prompt_editor_dirty w1); [| exact Hload].
  destruct (confirm u "Unsaved Changes"); [exact Hload |].
  destruct (current_prompt_editor_file w1); simpl.
  - split; [rewrite <- Hd; by destruct w1 |].
    intros target Htarget. apply (f_equal (default "")) in Ht. simpl in Ht.
    rewrite <- Ht. revert Htarget. destruct w1; simpl. by intros ->.
  - split; [done |]. congruence.
Qed.

Lemma append_disk (u : user) (generated_text : string) (w : window) :
  disk (append_and_refresh u generated_text w) = disk w
  ∨ ∃ target, save_target_file w = Some target
              ∧ disk (append_and_refresh u generated_text w)
                = Filesystem (<[target := appended (disk w) target generated_text]>
                                (files (disk w)))
                             (denied_read (disk w)) (denied_write (disk w)).
Proof.
  destruct (save_target_file w) as [target |] eqn:Htarget;
    [| left; unfold append_and_refresh; rewrite Htarget; by destruct w].
  destruct (truthy target) eqn:Htruthy;
    [| left; unfold append_and_refresh, append_file, write_file;
       rewrite Htarget, Htruthy; by destruct w].
  destruct (decide (target ∈ denied_write (disk w))) as [Hdenied | Hwrite].
  { left. unfold append_and_refresh, append_file, write_file.
    rewrite Htarget, Htruthy, bool_decide_eq_true_2 by done. by destruct w. }
  right. exists target. split; [done |].
  by destruct (append_refresh_cases u generated_text target w Htarget Htruthy Hwrite)
    as (H & _).
Qed.

(** X14. The operations on the session write to disk in two places
    only: Save Changes replaces the text of the editor's file by the
    text of the editor, and Save Generated Prompt puts the appended text
    in the save target (the one set, or the one just chosen in the
    dialog).  Nothing else changes a file, and no operation changes
    another file. *)
Theorem only_save_and_append_write (u : user) (op : operation) (w : window) :
  let w' := perform u op w in
  disk w' = disk w
  ∨ (op = SaveFile
     ∧ ∃ path, current_prompt_editor_file w = Some path
               ∧ disk w' = Filesystem (<[path := toPlainText (pe_editor w)]>
                                       (files (disk w)))
                                    (denied_read (disk w)) (denied_write (disk w)))
  ∨ (op = SaveGenerated
     ∧ ∃ target, (save_target_file w = Some target
                  ∨ (save_target_file w = None ∧ getSaveFileName u = target))
                 ∧ disk w' = Filesystem
                               (<[target := appended (disk w) target
                                              (py_strip (response_display w))]>
                                  (files (disk w)))
                               (denied_read (disk w)) (denied_write (disk w))).
Proof.
  destruct op as [s | | | | | row]; simpl.
  - left. unfold type_in_pe_editor, pe_editor_setPlainText, _pe_mark_dirty.
    destruct w as [? ? ? ? ? ? ? ? ? ? ? ? ? ? [? ? ?] ? ? ? ? ? ? ? ? ? ? ? ?];
      simpl.
    by repeat (case_match; simpl).
  - unfold _pe_save_file.
    destruct (current_prompt_editor_file w) as [path |] eqn:Hcur;
      [| left; by destruct w].
    destruct (truthy path); simpl; [| left; by destruct w].
    destruct (prompt_editor_dirty w); simpl; [| by left].
    unfold write_file. destruct (_ || _); [left; by destruct w |].
    right; left. split; [done |]. exists path. split; [done |]. by destruct w.
  - left. apply close_disk.
  - left. unfold _pe_open_file. destruct (truthy _); [| done].
    destruct (_ && _); [done | apply load_disk].
  - unfold _save_generated_prompt.
    destruct (negb _); [left; simpl; by destruct w |].
    destruct (save_target_file w) as [target |] eqn:Htarget.
    { destruct (append_disk u (py_strip (response_display w)) w)
        as [H | (t & Ht & H)]; [by left |].
      right; right. split; [done |]. exists t. split; [left; congruence | done]. }
    destruct (ask_disk u w) as [Hdisk Hchosen].
    destruct (_ask_save_target_file u w) as [w1 [[|] | e]]; simpl in *;
      [| by left | by left].
    destruct (append_disk u (py_strip (response_display w)) w1)
      as [H | (t & Ht & H)]; [left; congruence |].
    right; right. split; [done |]. exists t.
    split; [right; split; [done |]; symmetry; by apply Hchosen |].
    by rewrite H, Hdisk.
  - left. unfold select_nav. destruct (_ || _); [done |].
    unfold _on_nav_changed.
    set (w1 := set_nav_list row w).
    assert (H1 : disk w1 = disk w) by (subst w1; by destruct w).
    rewrite <- H1. clearbody w1.
    assert (Hswitch : ∀ w2, disk (switch_view u row w2) = disk w2).
    { intros w2. unfold switch_view.
      assert (H2 : disk (setCurrentIndex row w2) = disk w2)
        by (unfold setCurrentIndex; destruct (_ && _); by destruct w2).
      rewrite <- H2. generalize (setCurrentIndex row w2). intros w3.
      destruct (row =? PROMPT_EDITOR_VIEW_INDEX)%Z; [| done].
      destruct (_ && _); [apply load_disk |].
      destruct (_ && _); [apply close_disk |].
      destruct (_ && _); [| done].
      unfold pe_editor_clear, pe_editor_setPlainText, _pe_mark_dirty.
      destruct w3 as [? ? ? ? ? ? ? ? ? ? ? ? ? ? [? ? ?] ? ? ? ? ? ? ? ? ? ? ? ?];
        simpl.
      by destruct (_ && _). }
    destruct (_ && system_prompt_editor_dirty w1).
    { destruct (confirm u "Unsaved Changes"); [| by destruct w1].
      rewrite Hswitch. by destruct w1. }
    destruct (_ && prompt_editor_dirty w1); [| apply Hswitch].
    destruct (confirm u "Unsaved Changes"); [| by destruct w1].
    rewrite Hswitch. by destruct w1.
Qed.

(** ** The editor and the save target *)

Lemma close_forced (u : user) (w : window) :
  current_prompt_editor_file (_pe_close_file u true w).1 = None
  ∨ ((_pe_close_file u true w).1 = w
     ∧ truthy_opt (current_prompt_editor_file w) = false).
Proof.
  unfold _pe_close_file.
  destruct (truthy_opt (current_prompt_editor_file w)); simpl; [| by right].
  left. unfold pe_editor_clear, pe_editor_setPlainText, _pe_mark_dirty,
    _pe_clear_dirty_flag.
  destruct w as [? ? ? ? ? ? ? ? ? ? ? ? ? ? [? ? ?] ? ? ? ? ? ? ? ? ? ? ? ?];
    simpl.
  destruct (_ && _); simpl; by case_bool_decide.
Qed.

Lemma load_binding (u : user) (filepath : string) (w : window) :
  let w' := _load_file_into_pe_editor u filepath w in
  save_target_file w' = current_prompt_editor_file w'
  ∨ truthy_opt (current_prompt_editor_file w') = false.
Proof.
  simpl. destruct (read_file (disk w) filepath) as [content |] eqn:Hread.
  - left. destruct (load_success u filepath content w Hread) as (Ht & Hc & _).
    congruence.
  - right. unfold _load_file_into_pe_editor. rewrite Hread.
    destruct (close_forced u (show_error_message "File Error" w)) as [-> | [-> H]];
      done.
Qed.

(** X15. Choosing a new save target never leaves the editor silently on
    another file: when the dialog is accepted, afterwards either the
    editor holds the target, or its file label is flagged in orange as
    out of sync (the user kept unsaved changes), or the editor holds no
    file at all (the new file could not be read). *)
Theorem new_target_is_bound_or_flagged (u : user) (w : window) :
  (_ask_save_target_file u w).2 = Returns true →
  let w' := (_ask_save_target_file u w).1 in
  save_target_file w' = current_prompt_editor_file w'
  ∨ styleSheet (pe_filename_label w') = ORANGE
  ∨ truthy_opt (current_prompt_editor_file w') = false.
Proof.
  unfold _ask_save_target_file.
  destruct (truthy (getSaveFileName u)); [| done].
  set (w1 := set_save_target_file _ w). clearbody w1.
  assert (Hload := load_binding u (getSaveFileName u) w1). simpl in Hload.
  destruct (prompt_editor_dirty w1); [| simpl; tauto].
  destruct (confirm u "Unsaved Changes"); [simpl; tauto |].
  destruct (current_prompt_editor_file w1); [| done].
  intros _. simpl. right; left. by destruct w1.
Qed.

(** With unsaved text in a.txt, the user names b.txt and keeps the
    changes. *)
Lemma new_target_is_bound_or_flagged_witness :
  let u := User (λ _, false) "b.txt" "" in
  let w' := (_ask_save_target_file u Scenario.editing).1 in
  (_ask_save_target_file u Scenario.editing).2 = Returns true
  ∧ save_target_file w' = Some "b.txt"
  ∧ current_prompt_editor_file w' = Some "a.txt"
  ∧ (save_target_file w' = current_prompt_editor_file w'
     ∨ styleSheet (pe_filename_label w') = ORANGE
     ∨ truthy_opt (current_prompt_editor_file w') = false).
Proof.
  intros u w'. split; [reflexivity |]. split; [reflexivity |].
  split; [reflexivity |].
  apply (new_target_is_bound_or_flagged u Scenario.editing). reflexivity.
Defined.

(** X16. Unsaved text is not lost without consent: while the Prompt
    Editor page is showing a dirty session, no operation other than
    typing changes the text of the editor or its file as long as the
    user answers No to every question; and the session stays dirty
    unless the operation was Save Changes. *)
Theorem unsaved_text_survives (u : user) (op : operation) (w : window) :
  declines_all u →
  stacked_widget w = PROMPT_EDITOR_VIEW_INDEX →
  prompt_editor_dirty w = true →
  (∀ s, op ≠ Edit s) →
  let w' := perform u op w in
  toPlainText (pe_editor w') = toPlainText (pe_editor w)
  ∧ current_prompt_editor_file w' = current_prompt_editor_file w
  ∧ (prompt_editor_dirty w' = true ∨ op = SaveFile).
Proof.
  intros Hno Hview Hdirty Hop.
  assert (Hask : ∀ w0, prompt_editor_dirty w0 = true →
            let w1 := (_ask_save_target_file u w0).1 in
            pe_editor w1 = pe_editor w0
            ∧ current_prompt_editor_file w1 = current_prompt_editor_file w0
            ∧ prompt_editor_dirty w1 = true).
  { intros w0 Hd. unfold _ask_save_target_file.
    destruct (truthy (getSaveFileName u)); [| simpl; by destruct w0].
    assert (H1 : prompt_editor_dirty (set_save_target_file
                   (Some (getSaveFileName u)) w0) = true) by (by destruct w0).
    rewrite H1, Hno.
    destruct w0 as [? ? ? ? ? ? ? ? ? ? ? [cur |] ? ? ? ? ? ? ? ? ? ? ? ? ? ? ?];
      simpl in *; done. }
  assert (Happ : ∀ t w0, prompt_editor_dirty w0 = true →
            let w1 := append_and_refresh u t w0 in
            pe_editor w1 = pe_editor w0
            ∧ current_prompt_editor_file w1 = current_prompt_editor_file w0
            ∧ prompt_editor_dirty w1 = true).
  { intros t w0 Hd. unfold append_and_refresh.
    destruct (save_target_file w0) as [target |] eqn:Htarget;
      [| simpl; by destruct w0].
    destruct (append_file _ _ _) as [fs |]; [| simpl; by destruct w0].
    set (w1 := set_status_bar _ (set_disk fs w0)).
    assert (H1 : pe_editor w1 = pe_editor w0
                 ∧ current_prompt_editor_file w1 = current_prompt_editor_file w0
                 ∧ prompt_editor_dirty w1 = true)
      by (subst w1; by destruct w0).
    clearbody w1. destruct H1 as (He & Hc & Hd1).
    case_bool_decide; [| done]. rewrite Hd1, Hno.
    rewrite <- He, <- Hc, <- Hd1. simpl. by destruct w1. }
  destruct op as [s | | | | | row]; simpl.
  - by destruct (Hop s).
  - unfold _pe_save_file.
    destruct (current_prompt_editor_file w) as [path |] eqn:Hcur;
      [| destruct w; simpl in *; auto].
    destruct (truthy path); simpl; [| destruct w; simpl in *; auto].
    rewrite Hdirty. simpl.
    destruct (write_file _ _ _); destruct w; simpl in *; auto.
  - unfold _pe_close_file.
    destruct (negb (truthy_opt _)); [simpl; auto |].
    rewrite Hdirty, Hno. simpl. auto.
  - unfold _pe_open_file. destruct (truthy _); [| auto].
    rewrite Hdirty, Hno. simpl. auto.
  - unfold _save_generated_prompt.
    destruct (negb _); [destruct w; simpl in *; auto |].
    destruct (save_target_file w).
    { cbn [fst].
      destruct (Happ (py_strip (response_display w)) w Hdirty) as (-> & -> & ->).
      auto. }
    destruct (Hask w Hdirty) as (He & Hc & Hd).
    destruct (_ask_save_target_file u w) as [w1 [[|] | e]]; cbn [fst] in *;
      [| rewrite He, Hc, Hd; auto ..].
    destruct (Happ (py_strip (response_display w)) w1 Hd) as (-> & -> & ->).
    rewrite He, Hc. auto.
  - unfold select_nav. destruct (_ || _); [auto |].
    unfold _on_nav_changed.
    assert (H1 : stacked_widget (set_nav_list row w) = PROMPT_EDITOR_VIEW_INDEX
                 ∧ prompt_editor_dirty (set_nav_list row w) = true)
      by (rewrite <- Hview, <- Hdirty; by destruct w).
    destruct H1 as [-> ->]. simpl. rewrite Hno.
    destruct w; simpl in *; auto.
Qed.

(** With unsaved text in a.txt, the user picks c.txt in the Open File
    dialog and then answers No: a.txt and the draft stay. *)
Lemma unsaved_text_survives_witness :
  let u := User (λ _, false) "b.txt" "c.txt" in
  let w' := perform u OpenFile Scenario.editing in
  prompt_editor_dirty Scenario.editing = true
  ∧ toPlainText (pe_editor w') = "draft"
  ∧ current_prompt_editor_file w' = Some "a.txt"
  ∧ (prompt_editor_dirty w' = true ∨ OpenFile = SaveFile).
Proof.
  intros u w'. split; [reflexivity |].
  apply (unsaved_text_survives u OpenFile Scenario.editing);
    [intros title; reflexivity | reflexivity | reflexivity | discriminate].
Defined.

Lemma close_view (u : user) (force : bool) (w : window) :
  stacked_widget (_pe_close_file u force w).1 = stacked_widget w.
Proof.
  unfold _pe_close_file, pe_editor_clear, pe_editor_setPlainText,
    _pe_mark_dirty, _pe_clear_dirty_flag.
  destruct (negb _); [done |]. destruct (_ && _); [done |].
  destruct w as [? ? ? ? ? ? ? ? ? ? ? ? ? ? [? ? ?] ? ? ? ? ? ? ? ? ? ? ? ?];
    simpl.
  destruct (_ && _); simpl; by case_bool_decide.
Qed.

Lemma load_view (u : user) (filepath : string) (w : window) :
  stacked_widget (_load_file_into_pe_editor u filepath w) = stacked_widget w.
Proof.
  unfold _load_file_into_pe_editor.
  destruct (read_file _ _).
  - unfold pe_editor_setPlainText, _pe_mark_dirty, _pe_clear_dirty_flag.
    destruct w as [? ? ? ? ? ? ? ? ? ? ? ? ? ? [? ? ?] ? ? ? ? ? ? ? ? ? ? ? ?];
      simpl.
    by destruct (_ && _).
  - rewrite close_view. by destruct w.
Qed.

(** X17. On arrival at the Prompt Editor page the editor follows the
    save target: whatever the two were before, a file that is open in
    the editor afterwards is the save target. *)
Theorem editor_page_follows_target (u : user) (w : window) :
  let w' := switch_view u PROMPT_EDITOR_VIEW_INDEX w in
  stacked_widget w' = PROMPT_EDITOR_VIEW_INDEX
  ∧ (truthy_opt (current_prompt_editor_file w') = true →
     current_prompt_editor_file w' = save_target_file w').
Proof.
  unfold switch_view.
  set (w1 := setCurrentIndex PROMPT_EDITOR_VIEW_INDEX w).
  assert (Hview : stacked_widget w1 = PROMPT_EDITOR_VIEW_INDEX)
    by (subst w1; by destruct w).
  clearbody w1. cbn [Z.eqb PROMPT_EDITOR_VIEW_INDEX Pos.eqb].
  destruct (truthy_opt (save_target_file w1)) eqn:Htarget; cbn [andb negb].
  - case_bool_decide as Heq; cbn [negb].
    + destruct (truthy_opt (current_prompt_editor_file w1)); done.
    + rewrite load_view. split; [done |].
      destruct (load_binding u (default "" (save_target_file w1)) w1) as [H | H];
        cbn zeta in H; [by rewrite H | by rewrite H].
  - destruct (truthy_opt (current_prompt_editor_file w1)) eqn:Hcur; cbn [negb].
    + rewrite close_view. split; [done |].
      destruct (close_forced u w1) as [-> | [_ H]]; [done | congruence].
    + assert (H : stacked_widget (pe_editor_clear w1) = stacked_widget w1
                  ∧ current_prompt_editor_file (pe_editor_clear w1)
                    = current_prompt_editor_file w1).
      { unfold pe_editor_clear, pe_editor_setPlainText, _pe_mark_dirty.
        destruct w1 as [? ? ? ? ? ? ? ? ? ? ? ? ? ? [? ? ?] ? ? ? ? ? ? ? ? ? ? ? ?];
          simpl.
        by destruct (_ && _). }
      rewrite <- (proj1 H) in Hview. rewrite <- (proj2 H) in Hcur.
      destruct (pe_editor_clear w1); simpl in *. by rewrite Hcur.
Qed.

End SessionFacts.

(** * Properties of the System Prompts page *)

Module SystemPromptsFacts.
Import MainWindow SystemPrompts PresetFacts.

(** ** What the list slots leave alone *)

Lemma load_selected_frame (w : window) :
  prompt_state (_load_selected_preset w) = prompt_state w
  ∧ prompt_list_widget (_load_selected_preset w) = prompt_list_widget w.
Proof.
  unfold _load_selected_preset, system_prompt_editor_setPlainText, _mark_dirty,
    _clear_dirty_flag, prompt_state.
  destruct (currentItem (prompt_list_widget w)) as [filename |].
  - destruct (PromptManager.load_prompt_text _ _) as [content shown].
    destruct w; simpl. done.
  - destruct w; simpl. by destruct (isEnabled _).
Qed.

Lemma preset_select_frame (u : user) (previous : Z) (w : window) :
  prompt_state (_on_preset_select u previous w) = prompt_state w
  ∧ items (prompt_list_widget (_on_preset_select u previous w))
    = items (prompt_list_widget w).
Proof.
  unfold _on_preset_select.
  destruct (load_selected_frame w) as [Hstate Hlist].
  destruct (system_prompt_editor_dirty w); [| by rewrite Hstate, Hlist].
  destruct (confirm u "Unsaved"); [by rewrite Hstate, Hlist |].
  destruct (0 <=? previous)%Z; [| done]. by destruct w.
Qed.

Lemma setCurrentRow_frame (u : user) (row : Z) (w : window) :
  prompt_state (prompt_list_setCurrentRow u row w) = prompt_state w
  ∧ items (prompt_list_widget (prompt_list_setCurrentRow u row w))
    = items (prompt_list_widget w).
Proof.
  unfold prompt_list_setCurrentRow.
  destruct (_ =? _)%Z; [done |].
  set (w1 := set_prompt_list_widget _ w).
  destruct (preset_select_frame u (currentRow (prompt_list_widget w)) w1)
    as [-> ->].
  subst w1. by destruct w.
Qed.

Lemma update_list_frame (w : window) :
  prompt_state (_update_preset_list w) = prompt_state w
  ∧ items (prompt_list_widget (_update_preset_list w))
    = PromptManager.get_prompt_presets (preset_dir w).
Proof.
  unfold _update_preset_list.
  set (presets := PromptManager.get_prompt_presets (preset_dir w)).
  destruct (if truthy_opt _ then _ else _) as [row |].
  - by destruct w.
  - destruct presets as [| first rest] eqn:Hpresets.
    + destruct (load_selected_frame
                  (set_prompt_list_widget (ListWidget [] (-1)) w)) as [-> ->].
      by destruct w.
    + destruct (load_selected_frame
                  (set_prompt_list_widget (ListWidget (first :: rest) 0)
                     (set_prompt_list_widget (ListWidget (first :: rest) (-1)) w)))
        as [-> ->].
      by destruct w.
Qed.

(** ** The active preset *)

(** X18. Set Active makes the selected preset the one that generation
    uses and records it, provided the file of the preset decodes: the
    cached system prompt is the text of the preset as
    [load_prompt_text] gives it, the label shows its name, and, the
    config file being writable, the file holds the window's
    configuration with the preset under "active_system_prompt"; the
    keys other than the four that the window owns keep their value. *)
Theorem active_preset_is_persisted (w : window) (filename : string) :
  currentItem (prompt_list_widget w) = Some filename →
  PromptManager.load_raises (preset_dir w) filename = false →
  Config.writable (config_store w) = true →
  let w' := _set_active_preset w in
  active_system_prompt_file w' = filename
  ∧ current_system_prompt_content w'
    = (PromptManager.load_prompt_text (preset_dir w) filename).1
  ∧ active_prompt_display_label w' = "<b>" +:+ filename +:+ "</b>"
  ∧ config w' !! "active_system_prompt" = Some (Config.JStr filename)
  ∧ Config.file (config_store w') = Some (Config.Json (Config.TObject (config w')))
  ∧ (∀ k, k ∉ ["api_type"; "api_endpoint"; "api_key"; "active_system_prompt"] →
          config w' !! k = config w !! k).
Proof.
  intros Hsel Hreturns Hwritable. unfold _set_active_preset. rewrite Hsel.
  replace (preset_dir (set_active_system_prompt_file filename w))
    with (preset_dir w) by (by destruct w).
  rewrite Hreturns.
  unfold _load_active_system_prompt_content, _save_config,
    _update_active_prompt_display, Config.save_config.
  destruct w; simpl in *.
  destruct (PromptManager.load_prompt_text _ _) as [content shown]; simpl.
  rewrite Hwritable. simpl. repeat split; try done; [apply lookup_insert_eq |].
  intros k Hk. rewrite !not_elem_of_cons in Hk.
  destruct Hk as (? & ? & ? & ? & _).
  by rewrite !lookup_insert_ne.
Qed.

(** The preset haiku.txt is made active in a window whose config file
    does not exist yet. *)
Lemma active_preset_is_persisted_witness :
  active_system_prompt_file haiku_active = "haiku.txt"
  ∧ current_system_prompt_content haiku_active = "Write a haiku."
  ∧ config haiku_active !! "active_system_prompt" = Some (Config.JStr "haiku.txt")
  ∧ Config.file (config_store haiku_active)
    = Some (Config.Json (Config.TObject (config haiku_active))).
Proof.
  destruct (active_preset_is_persisted haiku_edited "haiku.txt"
              eq_refl eq_refl eq_refl)
    as (H1 & H2 & _ & H3 & H4 & _).
  repeat split; assumption.
Defined.

(** When the file of the preset does not decode, the exception leaves
    the slot after the first assignment: the preset is the active one,
    and the cached text, the label and the configuration are not
    brought up to date. *)
Example undecodable_preset_is_made_active_alone :
  let w := set_preset_dir
             (PromptManager.Directory
                (Some [("haiku.txt", "Write a haiku."); ("default.txt", "Follow.")])
                false ∅ ∅ ∅ {["haiku.txt"]})
             haiku_edited in
  _set_active_preset w = set_active_system_prompt_file "haiku.txt" w
  ∧ current_system_prompt_content (_set_active_preset w)
    = current_system_prompt_content w
  ∧ config (_set_active_preset w) = config w.
Proof. repeat split; reflexivity. Qed.

Lemma deleted_is_gone (u : user) (d d' : PromptManager.directory)
    (filename : string) (shown : list event) :
  PromptManager.delete_prompt_preset u d filename = (true, d', shown) →
  PromptManager.lookup_entry d' filename = None
  ∧ filename ∉ PromptManager.get_prompt_presets d'.
Proof.
  unfold PromptManager.delete_prompt_preset.
  destruct (_ || _); [done |].
  destruct (PromptManager.entries d) as [l |]; [| done].
  destruct (PromptManager.lookup_entry d filename); [| done].
  destruct (confirm u "Confirm Delete"); [| done].
  case_bool_decide; [done |]. intros [= <- _].
  assert (Hgone : PromptManager.lookup_entry
            (PromptManager.set_entries
               (List.filter (λ e, negb (String.eqb e.1 filename)) l) d) filename
            = None).
  { unfold PromptManager.lookup_entry. simpl.
    by rewrite assoc_filter, String.eqb_refl. }
  split; [done |].
  intros Hin. apply presets_in_directory in Hin as [_ [? Hin]]. congruence.
Qed.

(** The end of [_delete_selected_preset]: a row is selected again. *)
Lemma reselect_frame (u : user) (current_row : Z) (w : window) :
  let w' :=
    if (0 <? Z.of_nat (length (items (prompt_list_widget w))))%Z then
      if (0 <=? Z.min current_row
                  (Z.of_nat (length (items (prompt_list_widget w))) - 1))%Z
      then prompt_list_setCurrentRow u
             (Z.min current_row
                (Z.of_nat (length (items (prompt_list_widget w))) - 1)) w
      else _load_selected_preset w
    else _load_selected_preset w in
  prompt_state w' = prompt_state w
  ∧ items (prompt_list_widget w') = items (prompt_list_widget w).
Proof.
  destruct (load_selected_frame w) as [Hstate Hlist].
  destruct (setCurrentRow_frame u
              (Z.min current_row
                 (Z.of_nat (length (items (prompt_list_widget w))) - 1)) w)
    as [Hstate' Hitems'].
  simpl. repeat case_match; by rewrite ?Hstate, ?Hlist.
Qed.

(** X19. The active preset is never a deleted file, provided every
    preset file decodes (so that no load made by the slot raises): when
    the Delete button removes the selected preset, the file is gone
    from the directory and from the list, and if it was the active
    preset the default preset becomes active, its text is loaded for
    generation and the change is written to the configuration;
    otherwise the active preset and its cached text stay. *)
Theorem deleted_preset_is_not_active (u : user) (w : window) (filename : string) :
  PromptManager.undecodable (preset_dir w) = ∅ →
  currentItem (prompt_list_widget w) = Some filename →
  py_lower filename ≠ py_lower PromptManager.DEFAULT_PROMPT_NAME →
  (PromptManager.delete_prompt_preset u (preset_dir w) filename).1.1 = true →
  let w' := _delete_selected_preset u w in
  PromptManager.lookup_entry (preset_dir w') filename = None
  ∧ (filename ∉ items (prompt_list_widget w'))
  ∧ active_system_prompt_file w' ≠ filename
  ∧ (active_system_prompt_file w = filename →
     active_system_prompt_file w' = PromptManager.DEFAULT_PROMPT_NAME
     ∧ current_system_prompt_content w'
       = (PromptManager.load_prompt_text (preset_dir w')
            PromptManager.DEFAULT_PROMPT_NAME).1
     ∧ config w' !! "active_system_prompt"
       = Some (Config.JStr PromptManager.DEFAULT_PROMPT_NAME))
  ∧ (active_system_prompt_file w ≠ filename →
     active_system_prompt_file w' = active_system_prompt_file w
     ∧ current_system_prompt_content w' = current_system_prompt_content w
     ∧ config w' = config w).
Proof.
  intros _ Hsel Hlower Hdeleted. unfold _delete_selected_preset. rewrite Hsel.
  destruct (String.eqb_spec (py_lower filename)
              (py_lower PromptManager.DEFAULT_PROMPT_NAME)) as [| _]; [done |].
  destruct (PromptManager.delete_prompt_preset u (preset_dir w) filename)
    as [[deleted dir] shown] eqn:Hdelete.
  simpl in Hdeleted. subst deleted.
  destruct (deleted_is_gone _ _ _ _ _ Hdelete) as [Hgone Hunlisted].
  assert (Hdefault : filename ≠ PromptManager.DEFAULT_PROMPT_NAME)
    by (by intros ->).
  set (w1 := set_status_bar _ (set_log _ (set_preset_dir dir w))).
  assert (H1 : prompt_state w1
               = (active_system_prompt_file w, current_system_prompt_content w,
                  config w, config_store w, dir))
    by (subst w1; by destruct w).
  clearbody w1.
  set (w2 := if String.eqb filename (active_system_prompt_file w1) then _ else w1).
  assert (H2 : preset_dir w2 = dir
               ∧ active_system_prompt_file w2 ≠ filename
               ∧ (active_system_prompt_file w = filename →
                  active_system_prompt_file w2 = PromptManager.DEFAULT_PROMPT_NAME
                  ∧ current_system_prompt_content w2
                    = (PromptManager.load_prompt_text dir
                         PromptManager.DEFAULT_PROMPT_NAME).1
                  ∧ config w2 !! "active_system_prompt"
                    = Some (Config.JStr PromptManager.DEFAULT_PROMPT_NAME))
               ∧ (active_system_prompt_file w ≠ filename →
                  active_system_prompt_file w2 = active_system_prompt_file w
                  ∧ current_system_prompt_content w2
                    = current_system_prompt_content w
                  ∧ config w2 = config w)).
  { subst w2. unfold prompt_state in H1. injection H1 as Ha Hc Hconf _ Hd.
    rewrite Ha.
    destruct (String.eqb_spec filename (active_system_prompt_file w)) as [Heq | Hne].
    - unfold _load_active_system_prompt_content, _save_config,
        _update_active_prompt_display, show_info_message.
      destruct w1; simpl in *. subst.
      destruct (PromptManager.load_prompt_text _ _) as [content shown']; simpl.
      split; [done |]. split; [congruence |].
      split; [intros _; repeat split; apply lookup_insert_eq | by intros []].
    - rewrite Hd, Ha, Hc, Hconf. repeat split; try done; congruence. }
  clearbody w2.
  destruct (update_list_frame w2) as [Hstate3 Hitems3].
  set (w3 := _update_preset_list w2) in *. clearbody w3.
  destruct (reselect_frame u (currentRow (prompt_list_widget w2)) w3)
    as [Hstate4 Hitems4].
  cbv zeta in Hstate4, Hitems4 |- *.
  set (w4 := if (0 <? _)%Z then _ else _) in *. clearbody w4.
  rewrite Hstate3 in Hstate4. rewrite Hitems3 in Hitems4.
  unfold prompt_state in Hstate4. injection Hstate4 as -> -> -> _ ->.
  destruct H2 as (Hd & Hne & Hreset & Hkeep). rewrite Hitems4, Hd.
  repeat split; try done; try (by apply Hreset); by apply Hkeep.
Qed.

(** The active preset haiku.txt is deleted: default.txt takes over. *)
Lemma deleted_preset_is_not_active_witness :
  let w' := _delete_selected_preset Scenario.accepting haiku_active in
  active_system_prompt_file haiku_active = "haiku.txt"
  ∧ PromptManager.lookup_entry (preset_dir w') "haiku.txt" = None
  ∧ active_system_prompt_file w' = "default.txt"
  ∧ current_system_prompt_content w' = "Follow the examples."
  ∧ config w' !! "active_system_prompt" = Some (Config.JStr "default.txt").
Proof.
  cbv zeta.
  destruct (deleted_preset_is_not_active Scenario.accepting haiku_active "haiku.txt")
    as (H1 & _ & _ & H2 & _);
    [reflexivity | reflexivity | discriminate | reflexivity |].
  destruct (H2 eq_refl) as (H3 & H4 & H5).
  split; [reflexivity |]. split; [exact H1 |]. split; [exact H3 |].
  split; [by rewrite H4 | exact H5].
Defined.

(** ** Save and Save As *)

(** X20. Save writes the stripped text of the editor to the selected
    preset and to no other, and clears the dirty flag while the editor
    keeps its text; when the preset is the active one, the text that
    generation uses is brought up to date with it. *)
Theorem saved_preset_reaches_disk_and_generator
    (w : window) (filename : string) (l : list (string * string)) :
  currentItem (prompt_list_widget w) = Some filename →
  PromptManager.endswith filename ".txt" = true →
  PromptManager.entries (preset_dir w) = Some l →
  filename ∉ PromptManager.write_denied (preset_dir w) →
  let content := py_strip (toPlainText (system_prompt_editor w)) in
  let w' := _save_preset w in
  PromptManager.lookup_entry (preset_dir w') filename = Some content
  ∧ (∀ other, other ≠ filename →
              PromptManager.lookup_entry (preset_dir w') other
              = PromptManager.lookup_entry (preset_dir w) other)
  ∧ system_prompt_editor_dirty w' = false
  ∧ save_button w' = false
  ∧ system_prompt_editor w' = system_prompt_editor w
  ∧ active_system_prompt_file w' = active_system_prompt_file w
  ∧ current_system_prompt_content w'
    = (if String.eqb filename (active_system_prompt_file w)
       then content else current_system_prompt_content w).
Proof.
  intros Hsel Hext Hentries Hwrite content w'. subst w'.
  unfold _save_preset, PromptManager.save_prompt_text. rewrite Hsel, Hext, Hentries.
  rewrite bool_decide_eq_false_2 by done.
  unfold _clear_dirty_flag, PromptManager.lookup_entry.
  destruct w; simpl in *. rewrite Hentries.
  destruct (String.eqb filename active_system_prompt_file0); simpl;
    (repeat split; [apply assoc_put_eq | by intros; apply assoc_put_ne | ..]);
    done.
Qed.

(** The active preset haiku.txt is saved with the text typed into the
    editor. *)
Lemma saved_preset_reaches_disk_and_generator_witness :
  let w' := _save_preset haiku_active in
  PromptManager.lookup_entry (preset_dir w') "haiku.txt"
  = Some "Write a haiku about {user_prompt}."
  ∧ system_prompt_editor_dirty w' = false
  ∧ current_system_prompt_content w' = "Write a haiku about {user_prompt}.".
Proof.
  intros w'.
  destruct (saved_preset_reaches_disk_and_generator haiku_active "haiku.txt"
              [("haiku.txt", "Write a haiku."); ("default.txt", "Follow the examples.")])
    as (H1 & _ & H2 & _ & _ & _ & H3);
    [reflexivity | reflexivity | reflexivity
     | apply (bool_decide_unpack _); vm_compute; exact I |].
  split; [exact H1 |]. split; [exact H2 | exact H3].
Defined.

Lemma save_as_directory (u : user) (w : window) :
  let name := basename (getSaveFileName u) in
  let content := py_strip (toPlainText (system_prompt_editor w)) in
  prompt_state (_save_preset_as u w)
  = (active_system_prompt_file w, current_system_prompt_content w, config w,
     config_store w,
     if truthy (getSaveFileName u)
        && negb (String.eqb (py_lower name)
                   (py_lower PromptManager.DEFAULT_PROMPT_NAME))
     then (PromptManager.save_prompt_text (preset_dir w) name content).1.2
     else preset_dir w).
Proof.
  unfold _save_preset_as.
  destruct (truthy (getSaveFileName u)); [| done]. simpl.
  destruct (String.eqb _ _); simpl; [by destruct w |].
  destruct (PromptManager.save_prompt_text _ _ _) as [[saved dir] shown]. simpl.
  set (w1 := set_log _ (set_preset_dir dir w)).
  assert (H1 : prompt_state w1
               = (active_system_prompt_file w, current_system_prompt_content w,
                  config w, config_store w, dir))
    by (subst w1; by destruct w).
  clearbody w1. destruct saved; [| rewrite <- H1; by destruct w1].
  set (w2 := set_status_bar _ w1).
  assert (H2 : prompt_state w2 = prompt_state w1) by (subst w2; by destruct w1).
  clearbody w2. rewrite <- H1, <- H2.
  destruct (update_list_frame w2) as [Hstate _].
  destruct (findItem _ _) as [row |]; [| done].
  by destruct (setCurrentRow_frame u row (_update_preset_list w2)) as [-> _].
Qed.

(** X21. Save As refuses the name of the default preset in any letter
    case, but the name is compared before [save_prompt_text] completes
    it with ".txt": the text of default.txt is changed by Save As only
    when the name given is "default". *)
Theorem save_as_changes_default_only_as_default (u : user) (w : window) :
  PromptManager.lookup_entry (preset_dir (_save_preset_as u w))
    PromptManager.DEFAULT_PROMPT_NAME
  ≠ PromptManager.lookup_entry (preset_dir w) PromptManager.DEFAULT_PROMPT_NAME →
  basename (getSaveFileName u) = "default".
Proof.
  pose proof (f_equal snd (save_as_directory u w)) as Hstate.
  cbv zeta in Hstate. unfold prompt_state in Hstate. cbn [snd] in Hstate.
  rewrite Hstate. clear Hstate.
  destruct (truthy (getSaveFileName u)); [| done]. cbn [andb].
  destruct (String.eqb_spec (py_lower (basename (getSaveFileName u)))
              (py_lower PromptManager.DEFAULT_PROMPT_NAME)) as [| Hlower]; [done |].
  cbn [negb]. unfold PromptManager.save_prompt_text, PromptManager.lookup_entry.
  set (name := basename (getSaveFileName u)) in *.
  destruct (PromptManager.entries (preset_dir w)) as [l |] eqn:Hentries;
    [| simpl; by rewrite Hentries].
  case_bool_decide; [simpl; by rewrite Hentries |]. simpl.
  destruct (PromptManager.endswith name ".txt") eqn:Hext.
  - intros Hchanged. destruct Hchanged. apply assoc_put_ne.
    intros Heq. apply Hlower. by rewrite <- Heq.
  - destruct (decide (name +:+ ".txt" = PromptManager.DEFAULT_PROMPT_NAME))
      as [Heq | Hne]; [| intros []; apply assoc_put_ne; congruence].
    intros _. apply (f_equal String.rev) in Heq.
    rewrite StringFacts.rev_append in Heq.
    change (String.rev ".txt") with "txt." in Heq.
    change (String.rev PromptManager.DEFAULT_PROMPT_NAME) with "txt.tluafed" in Heq.
    rewrite !StringFacts.append_cons in Heq. injection Heq as Heq.
    change ("" +:+ ?x) with x in Heq.
    by rewrite <- (StringFacts.rev_involutive name), Heq.
Qed.

(** The text of the editor is saved as "default": default.txt is
    overwritten. *)
Lemma save_as_changes_default_only_as_default_witness :
  let u := User (λ _, false) "system_prompts/default" "" in
  PromptManager.lookup_entry (preset_dir haiku_active) "default.txt"
  = Some "Follow the examples."
  ∧ PromptManager.lookup_entry (preset_dir (_save_preset_as u haiku_active))
      "default.txt"
    = Some "Write a haiku about {user_prompt}."
  ∧ basename (getSaveFileName u) = "default".
Proof.
  intros u. split; [reflexivity |]. split; [reflexivity |].
  apply (save_as_changes_default_only_as_default u haiku_active).
  vm_compute. discriminate.
Defined.

(** X22. Save As does not reach the generator: the active preset, the
    text cached for generation and the configuration are as before,
    also when the file written is the one of the active preset. *)
Theorem save_as_does_not_reach_the_generator (u : user) (w : window) :
  let w' := _save_preset_as u w in
  active_system_prompt_file w' = active_system_prompt_file w
  ∧ current_system_prompt_content w' = current_system_prompt_content w
  ∧ config w' = config w
  ∧ config_store w' = config_store w.
Proof.
  pose proof (save_as_directory u w) as Hstate. cbv zeta in Hstate |- *.
  unfold prompt_state in Hstate. by injection Hstate as -> -> -> -> _.
Qed.

(** Saving the editor over the active preset haiku.txt with Save As
    leaves the old text in use for generation, where Save replaces it. *)
Example save_as_over_the_active_preset :
  let u := User (λ _, false) "system_prompts/haiku.txt" "" in
  let w' := _save_preset_as u haiku_active in
  active_system_prompt_file w' = "haiku.txt"
  ∧ PromptManager.lookup_entry (preset_dir w') "haiku.txt"
    = Some "Write a haiku about {user_prompt}."
  ∧ current_system_prompt_content w' = "Write a haiku."
  ∧ current_system_prompt_content (_save_preset haiku_active)
    = "Write a haiku about {user_prompt}.".
Proof. repeat split; reflexivity. Qed.

End SystemPromptsFacts.

(** * Properties of the Generator and Settings pages *)

Module GeneratorFacts.
Import ApiClient Worker MainWindow Generator.

(** ** The busy state *)

Lemma busy_false (a : app) :
  controls_enabled (_set_busy_state false a) = true
  ∧ override_cursors (_set_busy_state false a) = Nat.pred (override_cursors a)
  ∧ window_of (_set_busy_state false a) = window_of a
  ∧ model_combo (_set_busy_state false a) = model_combo a
  ∧ response_read_only (_set_busy_state false a) = response_read_only a.
Proof. by destruct a. Qed.

Lemma busy_true (a : app) :
  controls_enabled (_set_busy_state true a) = false
  ∧ override_cursors (_set_busy_state true a) = S (override_cursors a)
  ∧ window_of (_set_busy_state true a) = window_of a.
Proof. by destruct a. Qed.

Lemma models_fetched_busy (models : list string) (a : app) :
  controls_enabled (_on_models_fetched models a) = true
  ∧ override_cursors (_on_models_fetched models a) = Nat.pred (override_cursors a).
Proof.
  unfold _on_models_fetched.
  destruct (match models with [] => _ | _ => _ end) as [c message].
  destruct (busy_false (on_window (set_status_bar message) (set_model_combo c a)))
    as (-> & -> & _).
  by destruct a.
Qed.

(** ** The model list *)

Lemma findItem_Some (x : string) (l : list string) :
  x ∈ l →
  ∃ index, findItem x l = Some index ∧ (0 ≤ index)%Z
           ∧ l !! Z.to_nat index = Some x.
Proof.
  induction l as [| y l IH]; [by intros ?%elem_of_nil |].
  intros Hin. simpl. destruct (String.eqb_spec y x) as [-> | Hne].
  - by exists 0%Z.
  - apply elem_of_cons in Hin as [-> | Hin]; [done |].
    destruct (IH Hin) as (index & -> & Hpos & Hlookup).
    exists (Z.succ index). simpl. split; [done |]. split; [lia |].
    by rewrite Z2Nat.inj_succ.
Qed.

Lemma placeholder_rejected (api_type : string) :
  py_in "model" (py_lower ("No models found (" +:+ api_type +:+ ")")) = true.
Proof.
  rewrite !StringFacts.append_cons. reflexivity.
Qed.

(** X25. A refresh that finds models fills the box with them and leaves
    a fetched model selected: the model that was selected before when
    the server still lists it, the first of the list otherwise. *)
Theorem refreshed_selection_is_a_fetched_model (models : list string) (a : app) :
  models ≠ [] →
  let a' := _on_models_fetched models a in
  combo_items (model_combo a') = models
  ∧ currentText (model_combo a') ∈ models
  ∧ (currentText (model_combo a) ∈ models →
     currentText (model_combo a') = currentText (model_combo a))
  ∧ (currentText (model_combo a) ∉ models →
     head models = Some (currentText (model_combo a'))).
Proof.
  intros Hmodels. unfold _on_models_fetched.
  destruct models as [| first rest]; [done |].
  set (models := first :: rest) in *.
  set (selection := currentText (model_combo a)).
  change (addItems models (combo_clear (model_combo a))) with (ComboBox models 0).
  set (c := if bool_decide (selection ∈ models) then _ else _).
  assert (Hc : combo_items c = models
               ∧ currentText c ∈ models
               ∧ (selection ∈ models → currentText c = selection)
               ∧ (selection ∉ models → head models = Some (currentText c))).
  { subst c. case_bool_decide as Hin.
    - destruct (findItem_Some _ _ Hin) as (index & Hfind & Hpos & Hlookup).
      unfold setCurrentText. cbn [combo_items]. rewrite Hfind.
      unfold currentText. cbn [combo_items currentIndex].
      rewrite (proj2 (Z.leb_le 0 index) Hpos), Hlookup. by simpl.
    - unfold currentText. simpl. repeat split; try done.
      apply list_elem_of_here. }
  clearbody c.
  match goal with
  | |- context [_set_busy_state false ?x] =>
      destruct (busy_false x) as (_ & _ & _ & -> & _)
  end.
  cbv zeta. by destruct a.
Qed.

(** The server lists three models, mistral among them, which was
    selected. *)
Lemma refreshed_selection_is_a_fetched_model_witness :
  let a' := _on_models_fetched ["llama3"; "mistral"; "phi3"] ready in
  combo_items (model_combo a') = ["llama3"; "mistral"; "phi3"]
  ∧ currentText (model_combo ready) = "mistral"
  ∧ currentText (model_combo a') = "mistral".
Proof.
  cbv zeta.
  destruct (refreshed_selection_is_a_fetched_model ["llama3"; "mistral"; "phi3"] ready)
    as (H1 & _ & H2 & _); [discriminate |].
  split; [exact H1 |]. split; [reflexivity |].
  apply H2. apply (bool_decide_unpack _). vm_compute. exact I.
Defined.

Section Workers.

Variable str_format : string → string → string → format_result.
Variable error_text : generation_error → string.

Lemma generation_complete_busy (result : generation_result) (a : app) :
  controls_enabled (_on_generation_complete error_text result a) = true
  ∧ override_cursors (_on_generation_complete error_text result a)
    = Nat.pred (override_cursors a).
Proof.
  unfold _on_generation_complete.
  destruct (match result with Response _ => _ | Error _ => _ end)
    as [[shown message] success].
  match goal with
  | |- context [_set_busy_state false ?x] =>
      destruct (busy_false x) as (-> & -> & _)
  end.
  by destruct a.
Qed.

Lemma fetch_done (api_endpoint api_type api_key : string)
    (net : exchange models_body) (a : app) :
  worker_done str_format error_text
    (FetchModels api_endpoint api_type api_key net) a
  = _on_models_fetched
      (fetch_installed_models api_endpoint api_type api_key net).1 a.
Proof. reflexivity. Qed.

Lemma generate_done (api_endpoint api_type selected_model : string)
    (system_prompt_content user_input example_text api_key : string)
    (net : exchange generation_body) (a : app) :
  worker_done str_format error_text
    (Generate api_endpoint api_type selected_model system_prompt_content
              user_input example_text api_key net) a
  = _on_generation_complete error_text
      (generate_text str_format api_endpoint api_type selected_model
                     system_prompt_content user_input example_text api_key net) a.
Proof. reflexivity. Qed.

Lemma update_model_list_busy (net : exchange models_body) (a : app) :
  busy_until_done str_format error_text a
    (_update_model_list net a).1 (_update_model_list net a).2.
Proof.
  unfold busy_until_done, _update_model_list. cbn [fst snd].
  rewrite fetch_done.
  match goal with
  | |- context [_set_busy_state true ?x] =>
      destruct (busy_true x) as (H1 & H2 & _);
      destruct (models_fetched_busy
                  (fetch_installed_models (api_endpoint (window_of a))
                     (api_type (window_of a)) (api_key (window_of a)) net).1
                  (_set_busy_state true x)) as [H3 H4]
  end.
  rewrite H1, H2, H3, H4, H2. by destruct a.
Qed.

(** X23. The busy state is released after every exchange with a server
    whose answer is well typed.  Each of the three slots that start a
    worker (Refresh Models, Generate, and Save Settings, which
    refreshes the models) disables the controls and pushes the wait
    cursor; when the worker has run and its signals are delivered, the
    controls are enabled again and the cursor stack is as deep as
    before, whether the exchange failed (in any of the ways of
    [exchange]) or brought a body in which the model names and the
    response are text or absent.  A body with a list or an object in
    the place of a text is not covered: the slot that receives it
    raises before it releases the busy state. *)
Theorem busy_state_is_released (a : app) :
  (∀ net, busy_until_done str_format error_text a
            (_update_model_list net a).1 (_update_model_list net a).2)
  ∧ (∀ net a1 t, _trigger_generation net a = (a1, Some t) →
                 busy_until_done str_format error_text a a1 t)
  ∧ (∀ net a1 t, _save_settings net a = (a1, Some t) →
                 busy_until_done str_format error_text a a1 t).
Proof.
  split; [intros net; apply update_model_list_busy |]. split.
  - intros net a1 t. unfold _trigger_generation.
    repeat (case_match; [intros [=] |]); try done.
    intros [= <- <-]. unfold busy_until_done. rewrite generate_done.
    match goal with
    | |- context [_set_busy_state true ?x] =>
        destruct (busy_true x) as (Hb1 & Hb2 & _);
        destruct (generation_complete_busy
                    (generate_text str_format (api_endpoint (window_of a))
                       (api_type (window_of a)) (currentText (model_combo a))
                       (current_system_prompt_content (window_of a))
                       (py_strip (user_prompt_input a))
                       (example_prompts_content a) (api_key (window_of a)) net)
                    (_set_busy_state true x)) as [Hb3 Hb4]
    end.
    rewrite Hb1, Hb2, Hb3, Hb4, Hb2. by destruct a.
  - intros net a1 t. unfold _save_settings.
    repeat (case_match; [intros [=] |]); try done.
    match goal with
    | |- context [_update_model_list net ?x] =>
        pose proof (update_model_list_busy net x) as Hbusy;
        assert (Hsame : override_cursors x = override_cursors a)
          by (by destruct a)
    end.
    destruct (_update_model_list net _) as [a2 t2]. intros [= <- <-].
    unfold busy_until_done in *. cbn [fst snd] in Hbusy.
    by rewrite <- Hsame.
Qed.

(** X24. No generation without models: when the fetch gave no model
    (no endpoint, unsupported API type, failed exchange, or a server
    without models), the box holds the placeholder "No models found",
    and Generate then only shows a warning and starts no worker,
    whatever else is filled in. *)
Theorem no_generation_without_models
    (api_endpoint api_type api_key : string) (net : exchange models_body)
    (net' : exchange generation_body) (a : app) :
  (fetch_installed_models api_endpoint api_type api_key net).1 = [] →
  let a1 := worker_done str_format error_text
              (FetchModels api_endpoint api_type api_key net) a in
  currentText (model_combo a1)
  = "No models found (" +:+ MainWindow.api_type (window_of a) +:+ ")"
  ∧ _trigger_generation net' a1
    = (on_window (show_warning_message "Input Error") a1, None).
Proof.
  intros Hnone. cbv zeta. rewrite fetch_done, Hnone.
  assert (Htext : currentText (model_combo (_on_models_fetched [] a))
                  = "No models found (" +:+ MainWindow.api_type (window_of a) +:+ ")").
  { unfold _on_models_fetched.
    match goal with
    | |- context [_set_busy_state false ?x] =>
        destruct (busy_false x) as (_ & _ & _ & -> & _)
    end.
    by destruct a. }
  split; [exact Htext |].
  unfold _trigger_generation. rewrite Htext, placeholder_rejected.
  by rewrite orb_true_r.
Qed.

(** ** The response box and the Save Generated Prompt button *)

Lemma error_text_is_not_a_prompt (message : string) :
  valid_prompt (py_strip ("Error: " +:+ message)) = false.
Proof.
  unfold py_strip, strip_with.
  rewrite !StringFacts.append_cons.
  rewrite (StringFacts.lstrip_kept py_isspace "E") by reflexivity.
  do 6 (rewrite (StringFacts.rstrip_kept_head py_isspace) by reflexivity).
  unfold valid_prompt.
  replace (py_in "Error:" _) with true; [by rewrite andb_false_r |].
  by destruct (String.rev _).
Qed.

(** X26. A failed generation can never be saved as a prompt: the
    response box shows "Error: " followed by the message and is
    read-only, Save Generated Prompt is disabled, and the slot behind
    the button would itself refuse the text, showing a warning and
    leaving the files and the save target alone. *)
Theorem generation_error_is_never_saved
    (e : generation_error) (a : app) (u : user) :
  let a' := _on_generation_complete error_text (Error e) a in
  let w' := window_of a' in
  response_display w' = "Error: " +:+ error_text e
  ∧ response_read_only a' = true
  ∧ save_gen_button w' = false
  ∧ _save_generated_prompt u w' = (show_warning_message "Save Error" w', Returns ()).
Proof.
  cbv zeta. unfold _on_generation_complete.
  match goal with
  | |- context [_set_busy_state false ?x] =>
      destruct (busy_false x) as (_ & _ & -> & _ & ->)
  end.
  assert (Hshown : response_display
                     (window_of
                        (on_window (set_save_gen_button false)
                           (set_response_read_only (negb false)
                              (on_window (set_status_bar "Gen fail.")
                                 (on_window
                                    (set_response_display ("Error: " +:+ error_text e))
                                    a)))))
                   = "Error: " +:+ error_text e)
    by (destruct a as [[] ? ? ? ? ? ? ? ? ? ? ?]; reflexivity).
  split; [exact Hshown |].
  split; [by destruct a |]. split; [by destruct a as [[] ? ? ? ? ? ? ? ? ? ? ?] |].
  unfold _save_generated_prompt. by rewrite Hshown, error_text_is_not_a_prompt.
Qed.

(** X27. What is saved is what is shown, for a response in plain text
    (printable ASCII, tabs and line feeds, which the response box
    gives back unchanged): after a generation whose cleaned response is
    not empty, the response box shows the cleaned response, can be
    edited, and Save Generated Prompt is enabled; if that text is
    accepted as a prompt and the save target can be written and read,
    pressing the button right away leaves in the target its old text
    followed by the separator and the cleaned response (the cleaned
    response alone in an empty or new file). *)
Theorem generated_text_is_saved_as_shown
    (text target : string) (a : app) (u : user) :
  plain_text text = true →
  truthy (Utils.process_response text) = true →
  valid_prompt (Utils.process_response text) = true →
  save_target_file (window_of a) = Some target →
  truthy target = true →
  target ∉ denied_write (disk (window_of a)) →
  target ∉ denied_read (disk (window_of a)) →
  let a' := _on_generation_complete error_text (Response text) a in
  let w' := window_of a' in
  response_display w' = Utils.process_response text
  ∧ response_read_only a' = false
  ∧ save_gen_button w' = true
  ∧ files (disk (_save_generated_prompt u w').1) !! target
    = Some (appended (disk (window_of a)) target (Utils.process_response text)).
Proof.
  intros _ Hfull Hvalid Htarget Htruthy Hwrite Hread. cbv zeta.
  unfold _on_generation_complete. rewrite Hfull.
  match goal with
  | |- context [_set_busy_state false ?x] =>
      destruct (busy_false x) as (_ & _ & -> & _ & ->)
  end.
  set (w' := window_of _).
  assert (Hw : response_display w' = Utils.process_response text
               ∧ save_gen_button w' = true
               ∧ save_target_file w' = Some target
               ∧ disk w' = disk (window_of a)).
  { subst w'. rewrite <- Htarget.
    destruct a as [[] ? ? ? ? ? ? ? ? ? ? ?]; repeat split; reflexivity. }
  destruct Hw as (Hshown & Hbutton & Htarget' & Hdisk).
  split; [exact Hshown |]. split; [by destruct a |]. split; [exact Hbutton |].
  assert (Hstripped : py_strip (response_display w') = Utils.process_response text).
  { rewrite Hshown. apply StringFacts.strip_idemp. }
  destruct (MainWindowFacts.save_generated_appends u target w')
    as (-> & _); rewrite ?Hdisk, ?Hstripped; try done.
  simpl. by rewrite lookup_insert_eq.
Qed.


End Workers.

(** The server does not answer in time. *)
Lemma no_generation_without_models_witness :
  let a1 := worker_done (λ template _ _, Formatted template) (λ _, "no answer")
              (FetchModels "http://localhost:11434" "Ollama" "" (Fails Timeout))
              ready in
  currentText (model_combo a1) = "No models found (Ollama)"
  ∧ _trigger_generation (Fails Timeout) a1
    = (on_window (show_warning_message "Input Error") a1, None).
Proof.
  apply (no_generation_without_models (λ template _ _, Formatted template)
           (λ _, "no answer") "http://localhost:11434" "Ollama" ""
           (Fails Timeout) (Fails Timeout) ready).
  reflexivity.
Defined.

(** A response with a think block is cleaned and appended to a.txt. *)
Lemma generated_text_is_saved_as_shown_witness :
  let text := "<think>a cat, then</think> A cat on a mat. " in
  let a' := _on_generation_complete (λ _, "no answer") (Response text) ready in
  response_display (window_of a') = "A cat on a mat."
  ∧ files (disk (_save_generated_prompt Scenario.declining (window_of a')).1)
      !! "a.txt"
    = Some (appended (disk (window_of ready)) "a.txt" "A cat on a mat.").
Proof.
  cbv zeta.
  destruct (generated_text_is_saved_as_shown (λ _, "no answer")
              "<think>a cat, then</think> A cat on a mat. " "a.txt" ready
              Scenario.declining) as (H1 & _ & _ & H2);
    [reflexivity | reflexivity | reflexivity | reflexivity | reflexivity
     | apply (bool_decide_unpack _); vm_compute; exact I
     | apply (bool_decide_unpack _); vm_compute; exact I |].
  split; [exact H1 | exact H2].
Defined.

(** ** Examples and settings *)

(** X28. A failed load of the examples file forgets the examples loaded
    before: the user is shown an error, the label reads "Error load",
    and Generate starts no worker until examples are loaded again. *)
Theorem failed_example_load_blocks_generation
    (u : user) (net : exchange generation_body) (a : app) :
  truthy (getOpenFileName u) = true →
  read_file (disk (window_of a)) (getOpenFileName u) = None →
  let a' := _load_example_prompts_file u a in
  example_prompts_content a' = ""
  ∧ example_file_label a' = "Error load"
  ∧ log (window_of a') = log (window_of a) ++ [Critical "File Error"]
  ∧ (_trigger_generation net a').2 = None.
Proof.
  intros Hpath Hread. cbv zeta. unfold _load_example_prompts_file.
  rewrite Hpath, Hread.
  set (a' := on_window _ _).
  assert (Ha : example_prompts_content a' = ""
               ∧ example_file_label a' = "Error load"
               ∧ log (window_of a') = log (window_of a) ++ [Critical "File Error"])
    by (subst a'; destruct a as [[] ? ? ? ? ? ? ? ? ? ? ?]; repeat split; reflexivity).
  clearbody a'. destruct Ha as (Hcontent & Hlabel & Hlog).
  repeat split; try done.
  unfold _trigger_generation. rewrite Hcontent.
  by repeat case_match.
Qed.

(** Examples were loaded; the file picked next does not exist. *)
Lemma failed_example_load_blocks_generation_witness :
  let u := User (λ _, false) "" "missing.txt" in
  let a' := _load_example_prompts_file u ready in
  example_prompts_content ready = "A dog on a log."
  ∧ example_prompts_content a' = ""
  ∧ (_trigger_generation (Fails Timeout) a').2 = None.
Proof.
  cbv zeta.
  destruct (failed_example_load_blocks_generation
              (User (λ _, false) "" "missing.txt") (Fails Timeout) ready)
    as (H1 & _ & _ & H2); [reflexivity | reflexivity |].
  split; [reflexivity |]. split; [exact H1 | exact H2].
Defined.

Lemma rstrip_slash_end (s : string) :
  PromptManager.endswith (rstrip_with (Ascii.eqb "/") s) "/" = false.
Proof.
  unfold PromptManager.endswith, rstrip_with.
  rewrite StringFacts.rev_involutive. change (String.rev "/") with "/".
  destruct (StringFacts.lstrip_cases (Ascii.eqb "/") (String.rev s))
    as [-> | (c & s' & -> & Hc)]; [done |].
  cbn [String.prefix]. destruct (ascii_dec "/" c) as [<- | Hne]; [| done].
  by rewrite Ascii.eqb_refl in Hc.
Qed.

(** X29. Settings are checked before they are used.  Save Settings
    either rejects the endpoint with an error box, and then leaves the
    endpoint, API type and key of the window, its configuration and the
    config file as they were and starts no worker; or it accepts it,
    and then the endpoint in use starts with http:// or https:// and
    does not end with a slash, the API type is the one of the checked
    radio button, the three values are in the configuration, which is
    what a writable config file then holds, and the model list is
    fetched with exactly these values. *)
Theorem settings_are_checked_before_use (net : exchange models_body) (a : app) :
  match _save_settings net a with
  | (a', Some t) =>
      let w' := window_of a' in
      (String.prefix "http://" (api_endpoint w') = true
       ∨ String.prefix "https://" (api_endpoint w') = true)
      ∧ PromptManager.endswith (api_endpoint w') "/" = false
      ∧ api_type w' = (if radio_openai a then "OpenAI" else "Ollama")
      ∧ api_key w' = apikey_input a
      ∧ config w' !! "api_endpoint" = Some (Config.JStr (api_endpoint w'))
      ∧ config w' !! "api_type" = Some (Config.JStr (api_type w'))
      ∧ config w' !! "api_key" = Some (Config.JStr (api_key w'))
      ∧ (Config.writable (config_store (window_of a)) = true →
         Config.file (config_store w')
         = Some (Config.Json (Config.TObject (config w'))))
      ∧ t = FetchModels (api_endpoint w') (api_type w') (api_key w') net
  | (a', None) =>
      let w := window_of a in
      let w' := window_of a' in
      api_endpoint w' = api_endpoint w
      ∧ api_type w' = api_type w
      ∧ api_key w' = api_key w
      ∧ config w' = config w
      ∧ config_store w' = config_store w
      ∧ log w' = log w ++ [Critical "Settings Error"]
      ∧ controls_enabled a' = controls_enabled a
  end.
Proof.
  unfold _save_settings.
  pose proof (rstrip_slash_end (py_strip (endpoint_input a))) as Hslash.
  set (endpoint := rstrip_with _ _) in *. clearbody endpoint.
  destruct (truthy endpoint); cbn [negb];
    [| by destruct a as [[] ? ? ? ? ? ? ? ? ? ? ?]].
  destruct (String.prefix "http://" endpoint) eqn:Hhttp;
    [| destruct (String.prefix "https://" endpoint) eqn:Hhttps;
       [| by destruct a as [[] ? ? ? ? ? ? ? ? ? ? ?]]];
    cbn [orb negb]; unfold _update_model_list, _save_config, Config.save_config;
    destruct a as [[] ? ? ? ? ? ? ? ? ? ? ?]; cbn -[String.prefix];
    (repeat split; auto; [.. | intros ->; reflexivity]);
    repeat (rewrite lookup_insert_ne by done); by rewrite lookup_insert_eq.
Qed.

End GeneratorFacts.
